(** * The JAXtronomy tutorials repository, as data and as a program

    The repository holds two artefacts:

    - [tutorials/Intro-to-JAX.ipynb], a notebook in the nbformat 4 JSON
      layout whose code cells are short Python snippets, and
    - [.pre-commit-config.yaml], the list of commit-time hooks.

    Both are embedded below exactly as they are stored: the notebook as a
    JSON value (every key and every source line of every cell), the
    configuration as a YAML tree.  The Python of the code cells is embedded
    a second time as syntax trees; printing the trees gives back the stored
    source lines character for character. *)

From Stdlib Require Import List String Ascii ZArith Bool Arith Lia.
From Stdlib Require Import DecimalString DecimalNat.
Import ListNotations.

Set Warnings "-register-all".

Local Open Scope list_scope.
Local Open Scope string_scope.

(** ** Strings *)

(** Line feed and double quote, the two characters a source line cannot
    spell inside a string literal. *)
Definition nl : string := String (ascii_of_nat 10) EmptyString.
Definition dq : string := String (ascii_of_nat 34) EmptyString.

(** A source line as nbformat stores it: the text and its line feed. *)
Definition ln (s : string) : string := String.append s nl.

(** ** JSON values *)

Inductive json : Type :=
| JNull
| JBool (b : bool)
| JNum (n : Z)
| JStr (s : string)
| JArr (items : list json)
| JObj (fields : list (string * json)).

(** Lookup in an association list: the first binding of the key. *)
Fixpoint assoc {A : Type} (k : string) (l : list (string * A)) : option A :=
  match l with
  | [] => None
  | (k', v) :: l' => if String.eqb k k' then Some v else assoc k l'
  end.

Definition field (k : string) (j : json) : option json :=
  match j with
  | JObj fs => assoc k fs
  | _ => None
  end.

(** ** The notebook [tutorials/Intro-to-JAX.ipynb] *)

Module Notebook.

Definition cell_00 : json :=
  JObj [("cell_type", JStr "markdown");
    ("id", JStr "0");
    ("metadata", JObj []);
    ("source", JArr [
      JStr (ln "# Intro to JAX");
      JStr nl;
      JStr (ln "[Live notebook on Colab](https://colab.research.google.com/github/JAXtronomy/tutorials/blob/main/tutorials/Intro-to-JAX.ipynb)");
      JStr nl;
      JStr "[Here is the slide deck](https://docs.google.com/presentation/d/1RcC0SFoXChmrJ6bhdFXgMrc4M6bCIGgWRdwkHFNBaiU/edit?usp=sharing)"])].

Definition cell_01 : json :=
  JObj [("cell_type", JStr "code");
    ("execution_count", JNull);
    ("id", JStr "1");
    ("metadata", JObj []);
    ("outputs", JArr []);
    ("source", JArr [
      JStr (ln "import jax");
      JStr (ln "import jax.numpy as jnp");
      JStr (ln "import matplotlib.pyplot as plt");
      JStr (ln "import numpy as np");
      JStr nl;
      JStr "%xmode minimal"])].

Definition cell_02 : json :=
  JObj [("cell_type", JStr "markdown");
    ("id", JStr "2");
    ("metadata", JObj []);
    ("source", JArr [
      JStr (ln "## JIT Compilation");
      JStr nl;
      JStr (ln "Just-in-Time (JIT) compilation enables getting low-level language performance from Python code, on the fly. This can dramatically speed up some numerical computations, especially where loops are required or where the code is not easily vectorized. ");
      JStr nl;
      JStr "### Example: Computing the gravitational potential of a set of particles"])].

Definition cell_03 : json :=
  JObj [("cell_type", JStr "code");
    ("execution_count", JNull);
    ("id", JStr "3");
    ("metadata", JObj []);
    ("outputs", JArr []);
    ("source", JArr [
      JStr (ln "def func(x, a):");
      JStr "    return jnp.log(jnp.sum(x**2, axis=1) + a**2)"])].

Definition cell_04 : json :=
  JObj [("cell_type", JStr "code");
    ("execution_count", JNull);
    ("id", JStr "4");
    ("metadata", JObj []);
    ("outputs", JArr []);
    ("source", JArr [
      JStr "x = np.random.normal(size=(1_000_000, 3))"])].

Definition cell_05 : json :=
  JObj [("cell_type", JStr "code");
    ("execution_count", JNull);
    ("id", JStr "5");
    ("metadata", JObj []);
    ("outputs", JArr []);
    ("source", JArr [
      JStr (ln "# without JIT:");
      JStr "%timeit func(x, 1.0).block_until_ready()"])].

Definition cell_06 : json :=
  JObj [("cell_type", JStr "code");
    ("execution_count", JNull);
    ("id", JStr "6");
    ("metadata", JObj []);
    ("outputs", JArr []);
    ("source", JArr [
      JStr (ln "func_jit = jax.jit(func)");
      JStr nl;
      JStr (ln "# this first call compiles the function");
      JStr (ln "func_jit(x, 1.0).block_until_ready()");
      JStr nl;
      JStr (ln "# with JIT:");
      JStr "%timeit func_jit(x, 1.0).block_until_ready()"])].

Definition cell_07 : json :=
  JObj [("cell_type", JStr "markdown");
    ("id", JStr "7");
    ("metadata", JObj []);
    ("source", JArr [
      JStr (ln "This example is a little contrived since the non-JITted version is already vectorized, but it serves to illustrate the JIT compilation process. JIT is most useful when you need to run a function call many times either in a loop or some other iterative process. For example, optimization, MCMC sampling, orbit integration, etc.");
      JStr nl;
      JStr "BTW: Other packages like Numba and PyTorch also have JIT compilation, but JAX's JIT pairs with XLA to produce highly optimized and hardware-specific machine code."])].

Definition cell_08 : json :=
  JObj [("cell_type", JStr "markdown");
    ("id", JStr "8");
    ("metadata", JObj []);
    ("source", JArr [
      JStr "A brief aside about `.block_until_ready()`: JAX uses lazy evaluation, so it doesn't actually run the code until you need the values. This is great for performance, because JAX will build up a graph of function calls, compile it and send it to XLA for further optimization. But it can be confusing when debugging -- if you don't do this, it can seem like your code is running absurdly fast. `.block_until_ready()` forces JAX to run the code and wait for it to finish before continuing. Compare these:"])].

Definition cell_09 : json :=
  JObj [("cell_type", JStr "markdown");
    ("id", JStr "9");
    ("metadata", JObj []);
    ("source", JArr [
      JStr (ln "---");
      JStr nl;
      JStr (ln "## Vectorization with `vmap`");
      JStr nl;
      JStr (ln "If your function can be expressed using standard `numpy` operations, writing JAX code with `jax.numpy` to accept arrays as inputs will automatically vectorize the function. However, we often write functions that are not easily vectorized - for example, functions that contain conditional statements or loops. In these cases, `jax.vmap` provides an efficient way to apply a function across batches of inputs, often avoiding explicit (external) loops.");
      JStr nl;
      JStr (ln "For example, imagine you have a bunch of stellar spectra for a set of stars, and you want to compute the depth of some absorption line that appears at a different location (in pixels) for each star because of doppler shifts. You could write a function that computes the depth of the line for a single spectrum, and then use `jax.vmap` to apply it to all the stars in your dataset. ");
      JStr nl;
      JStr (ln "### Example: Find the depth of an absorption line in a set of spectra");
      JStr nl;
      JStr ("First we simulate some " ++ dq ++ "spectra" ++ dq ++ ":")])].

Definition cell_10 : json :=
  JObj [("cell_type", JStr "code");
    ("execution_count", JNull);
    ("id", JStr "10");
    ("metadata", JObj []);
    ("outputs", JArr []);
    ("source", JArr [
      JStr (ln "N = 128  # number of spectra to make");
      JStr nl;
      JStr (ln "rng = np.random.default_rng(123)");
      JStr (ln "pix = jnp.arange(100)");
      JStr nl;
      JStr (ln "true_ctr = rng.uniform(40, 60, size=(N,))");
      JStr (ln "true_depth = rng.uniform(0.1, 0.5, size=(N,))");
      JStr nl;
      JStr nl;
      JStr (ln "def make_spectrum(pix, ctr, depth, scale):");
      JStr (ln "    return 1 - depth * jnp.exp(-0.5 * (pix - ctr) ** 2 / scale**2)");
      JStr nl;
      JStr nl;
      JStr (ln "# we'll use vmap to simulate the spectra too ^_^");
      JStr (ln "spectra = jax.vmap(");
      JStr (ln "    make_spectrum,");
      JStr (ln "    in_axes=(None, 0, 0, None),");
      JStr (ln "    out_axes=0,");
      JStr ")(pix, true_ctr, true_depth, 10.0).block_until_ready()"])].

Definition cell_11 : json :=
  JObj [("cell_type", JStr "code");
    ("execution_count", JNull);
    ("id", JStr "11");
    ("metadata", JObj []);
    ("outputs", JArr []);
    ("source", JArr [
      JStr (ln "plt.figure(figsize=(6, 4))");
      JStr ("_ = plt.plot(spectra.T, " ++ dq ++ "-" ++ dq ++ ", alpha=0.1, color=" ++ dq ++ "k" ++ dq ++ ")")])].

Definition cell_12 : json :=
  JObj [("cell_type", JStr "markdown");
    ("id", JStr "12");
    ("metadata", JObj []);
    ("source", JArr [
      JStr "Now we have a set of spectra, and we want to find the depth of the absorption line near pixel ~50. We can write a function that computes the depth of the line for a single spectrum, and then use `jax.vmap` to apply it to all the spectra in our dataset:"])].

Definition cell_13 : json :=
  JObj [("cell_type", JStr "code");
    ("execution_count", JNull);
    ("id", JStr "13");
    ("metadata", JObj []);
    ("outputs", JArr []);
    ("source", JArr [
      JStr (ln "def find_depth(spectrum):");
      JStr (ln "    # find the minimum pixel value:");
      JStr (ln "    min_pix = jnp.argmin(spectrum)");
      JStr nl;
      JStr (ln "    # locally fit a parabola to the spectrum to find the inter-pixel minimum");
      JStr (ln "    y = jax.lax.dynamic_slice(spectrum, (min_pix - 1,), (3,))");
      JStr (ln "    x = jnp.arange(-1, 2)");
      JStr (ln "    A = jnp.vander(x, 3, increasing=True)  # creates a matrix with columns [1, x, x**2]");
      JStr (ln "    coeffs = jnp.linalg.lstsq(A, y, rcond=None)[0]");
      JStr nl;
      JStr (ln "    return 1 - coeffs[0]");
      JStr nl;
      JStr nl;
      JStr "find_depth_vmap = jax.vmap(find_depth, in_axes=0)"])].

Definition cell_14 : json :=
  JObj [("cell_type", JStr "code");
    ("execution_count", JNull);
    ("id", JStr "14");
    ("metadata", JObj []);
    ("outputs", JArr []);
    ("source", JArr [
      JStr (ln "%%time");
      JStr (ln "for spectrum in spectra:");
      JStr "    find_depth(spectrum).block_until_ready()"])].

Definition cell_15 : json :=
  JObj [("cell_type", JStr "code");
    ("execution_count", JNull);
    ("id", JStr "15");
    ("metadata", JObj []);
    ("outputs", JArr []);
    ("source", JArr [
      JStr (ln "%%time");
      JStr "find_depth_vmap(spectra).block_until_ready()"])].

Definition cell_16 : json :=
  JObj [("cell_type", JStr "code");
    ("execution_count", JNull);
    ("id", JStr "16");
    ("metadata", JObj []);
    ("outputs", JArr []);
    ("source", JArr [
      JStr (ln "depths = find_depth_vmap(spectra).block_until_ready()");
      JStr (ln "plt.scatter(depths, true_depth)");
      JStr (ln ("plt.xlabel(" ++ dq ++ "Measured depth" ++ dq ++ ")"));
      JStr ("plt.ylabel(" ++ dq ++ "True depth" ++ dq ++ ")")])].

Definition cell_17 : json :=
  JObj [("cell_type", JStr "markdown");
    ("id", JStr "17");
    ("metadata", JObj []);
    ("source", JArr [
      JStr (ln "---");
      JStr nl;
      JStr (ln "## Automatic Differentiation");
      JStr nl;
      JStr (ln "Automatic differentiation (autodiff or autograd) allows you to compute exact gradients of functions. This is generally most useful for simplifying optimization problems (and enabling faster or novel optimization methods).");
      JStr nl;
      JStr "### Example: Evaluating the gradient of a function"])].

Definition cell_18 : json :=
  JObj [("cell_type", JStr "code");
    ("execution_count", JNull);
    ("id", JStr "18");
    ("metadata", JObj []);
    ("outputs", JArr []);
    ("source", JArr [
      JStr (ln "def some_func(x, A, P):");
      JStr "    return A * jnp.cos(2 * jnp.pi * x / P)"])].

Definition cell_19 : json :=
  JObj [("cell_type", JStr "code");
    ("execution_count", JNull);
    ("id", JStr "19");
    ("metadata", JObj []);
    ("outputs", JArr []);
    ("source", JArr [
      JStr (ln "some_func_grad = jax.grad(some_func, argnums=0)");
      JStr nl;
      JStr (ln "xgrid = jnp.linspace(0, 10, 4096)");
      JStr "some_func_grad(xgrid, 1.0, 1.0)"])].

Definition cell_20 : json :=
  JObj [("cell_type", JStr "markdown");
    ("id", JStr "20");
    ("metadata", JObj []);
    ("source", JArr [
      JStr "Huh, what happened? Why did this error? `jax.grad` only works on scalar outputs. If we try to pass in an array, the output of `some_func` will be an array. Instead of the above, if we want to compute the gradient for all elements in an array, we can use `jax.vmap` to vectorize the `grad`'ed function:"])].

Definition cell_21 : json :=
  JObj [("cell_type", JStr "code");
    ("execution_count", JNull);
    ("id", JStr "21");
    ("metadata", JObj []);
    ("outputs", JArr []);
    ("source", JArr [
      JStr "some_func_grad_vmap = jax.vmap(jax.grad(some_func, argnums=0), in_axes=(0, None, None))"])].

Definition cell_22 : json :=
  JObj [("cell_type", JStr "code");
    ("execution_count", JNull);
    ("id", JStr "22");
    ("metadata", JObj []);
    ("outputs", JArr []);
    ("source", JArr [
      JStr (ln "plt.figure(figsize=(6, 4))");
      JStr (ln ("plt.plot(xgrid, some_func(xgrid, 1.0, 1.0), " ++ dq ++ "-" ++ dq ++ ", label=" ++ dq ++ "f(x)" ++ dq ++ ")"));
      JStr (ln ("plt.plot(xgrid, some_func_grad_vmap(xgrid, 1.0, 1.0), " ++ dq ++ "-" ++ dq ++ ", label=" ++ dq ++ "df/dx" ++ dq ++ ")"));
      JStr ("plt.legend(loc=" ++ dq ++ "lower right" ++ dq ++ ", fontsize=20)")])].

Definition cell_23 : json :=
  JObj [("cell_type", JStr "markdown");
    ("id", JStr "23");
    ("metadata", JObj []);
    ("source", JArr [
      JStr (ln "---");
      JStr nl;
      JStr (ln "## Pytrees");
      JStr nl;
      JStr (ln "Pytrees are JAX’s structured data containers. Think of these as dictionaries, where the data may be scalar or array valued and could be arranged hierarchically. JAX functions often take Pytrees as input and output, and they are designed to be compatible with JAX's JIT compilation and autodiff features. Pytrees are one of my favorite features of JAX!");
      JStr nl;
      JStr (ln "### Example: Computing the gradient of a function with respect to a set of parameters")])].

Definition cell_24 : json :=
  JObj [("cell_type", JStr "code");
    ("execution_count", JNull);
    ("id", JStr "24");
    ("metadata", JObj []);
    ("outputs", JArr []);
    ("source", JArr [
      JStr (ln "def model(x, a, b):");
      JStr (ln "    return a * x + b");
      JStr nl;
      JStr nl;
      JStr (ln "def objective(params, x, y, y_err):");
      JStr (ln ("    model_y = model(x, params[" ++ dq ++ "a" ++ dq ++ "], params[" ++ dq ++ "b" ++ dq ++ "])"));
      JStr "    return jnp.sum((y - model_y) ** 2 / y_err**2)  # chi2"])].

Definition cell_25 : json :=
  JObj [("cell_type", JStr "code");
    ("execution_count", JNull);
    ("id", JStr "25");
    ("metadata", JObj []);
    ("outputs", JArr []);
    ("source", JArr [
      JStr (ln "rng = np.random.default_rng(42)");
      JStr (ln "x = rng.uniform(0, 10, size=16)");
      JStr (ln "y = model(x, a=8.67, b=5.309)");
      JStr (ln "y_err = rng.uniform(0.1, 5.0, size=len(x))");
      JStr (ln "y += rng.normal(0, y_err, size=len(x))");
      JStr nl;
      JStr (ln "plt.figure(figsize=(6, 4))");
      JStr ("plt.errorbar(x, y, yerr=y_err, fmt=" ++ dq ++ "o" ++ dq ++ ", label=" ++ dq ++ "data" ++ dq ++ ")")])].

Definition cell_26 : json :=
  JObj [("cell_type", JStr "code");
    ("execution_count", JNull);
    ("id", JStr "26");
    ("metadata", JObj []);
    ("outputs", JArr []);
    ("source", JArr [
      JStr "objecive_grad = jax.grad(objective, argnums=0)"])].

Definition cell_27 : json :=
  JObj [("cell_type", JStr "code");
    ("execution_count", JNull);
    ("id", JStr "27");
    ("metadata", JObj []);
    ("outputs", JArr []);
    ("source", JArr [
      JStr ("objecive_grad({" ++ dq ++ "a" ++ dq ++ ": 1.0, " ++ dq ++ "b" ++ dq ++ ": 1.0}, x, y, y_err)")])].

Definition cell_28 : json :=
  JObj [("cell_type", JStr "markdown");
    ("id", JStr "28");
    ("metadata", JObj []);
    ("source", JArr [
      JStr (ln "### Example: Using `vmap` over a pytree of parameters");
      JStr nl;
      JStr "You can use `jax.vmap` to efficiently evaluate a function for a batch of pytree keys. Suppose we have arrays of parameter sets and we want to evaluate the function for each set of parameters:"])].

Definition cell_29 : json :=
  JObj [("cell_type", JStr "code");
    ("execution_count", JNull);
    ("id", JStr "29");
    ("metadata", JObj []);
    ("outputs", JArr []);
    ("source", JArr [
      JStr (ln "params_arr = {");
      JStr (ln ("    " ++ dq ++ "a" ++ dq ++ ": jnp.linspace(0, 10, 5),"));
      JStr (ln ("    " ++ dq ++ "b" ++ dq ++ ": jnp.linspace(-5, 5, 5),"));
      JStr (ln "}");
      JStr nl;
      JStr (ln ("objective_vmap = jax.vmap(objective, in_axes=({" ++ dq ++ "a" ++ dq ++ ": 0, " ++ dq ++ "b" ++ dq ++ ": 0}, None, None, None))"));
      JStr (ln "chi2_arr = objective_vmap(params_arr, x, y, y_err).block_until_ready()");
      JStr "chi2_arr"])].

Definition cell_30 : json :=
  JObj [("cell_type", JStr "markdown");
    ("id", JStr "30");
    ("metadata", JObj []);
    ("source", JArr [
      JStr (ln "# Sharp Bits");
      JStr nl;
      JStr (ln "## Control flow");
      JStr nl;
      JStr "In general, use `jax.lax.cond` instead of `if` statements, and `jax.lax.scan` instead of `for` loops. This is because JAX uses XLA to compile the code, and XLA needs to know the shape of the data at compile time. "])].

Definition cell_31 : json :=
  JObj [("cell_type", JStr "code");
    ("execution_count", JNull);
    ("id", JStr "31");
    ("metadata", JObj []);
    ("outputs", JArr []);
    ("source", JArr [
      JStr (ln "@jax.jit");
      JStr (ln "def func_if1(x):");
      JStr (ln "    if x > 0:");
      JStr (ln "        return x**3");
      JStr (ln "    else:");
      JStr "        return x**2"])].

Definition cell_32 : json :=
  JObj [("cell_type", JStr "code");
    ("execution_count", JNull);
    ("id", JStr "32");
    ("metadata", JObj []);
    ("outputs", JArr []);
    ("source", JArr [
      JStr "func_if1(10.0)"])].

Definition cell_33 : json :=
  JObj [("cell_type", JStr "code");
    ("execution_count", JNull);
    ("id", JStr "33");
    ("metadata", JObj []);
    ("outputs", JArr []);
    ("source", JArr [
      JStr (ln "@jax.jit");
      JStr (ln "def func_if2(x):");
      JStr "    return jax.lax.cond(x > 0, lambda: x**3, lambda: x**2)"])].

Definition cell_34 : json :=
  JObj [("cell_type", JStr "code");
    ("execution_count", JNull);
    ("id", JStr "34");
    ("metadata", JObj []);
    ("outputs", JArr []);
    ("source", JArr [
      JStr "func_if2(10.0)"])].

Definition cell_35 : json :=
  JObj [("cell_type", JStr "markdown");
    ("id", JStr "35");
    ("metadata", JObj []);
    ("source", JArr [
      JStr (ln "# Teaser: Using physical units in JAX code");
      JStr nl;
      JStr "`astropy.units` has the `Quantity` object for handling data with associated physical units. However, this is an explicit subclass of `numpy.ndarray`, so JAX does not work natively with Astropy units. Instead, in the meantime, we are building a new package called `unxt` for handling JAX tracers with physical units. This package is still in development, but it is ready for use:"])].

Definition cell_36 : json :=
  JObj [("cell_type", JStr "code");
    ("execution_count", JNull);
    ("id", JStr "36");
    ("metadata", JObj []);
    ("outputs", JArr []);
    ("source", JArr [
      JStr (ln "import unxt as u");
      JStr "import quaxed"])].

Definition cell_37 : json :=
  JObj [("cell_type", JStr "code");
    ("execution_count", JNull);
    ("id", JStr "37");
    ("metadata", JObj []);
    ("outputs", JArr []);
    ("source", JArr [
      JStr (ln ("pos = u.Quantity(jnp.arange(10.0), " ++ dq ++ "kpc" ++ dq ++ ")"));
      JStr (ln ("time = u.Quantity(5.3, " ++ dq ++ "Gyr" ++ dq ++ ")"));
      JStr nl;
      JStr (ln "result = pos / time");
      JStr "result.unit"])].

Definition cell_38 : json :=
  JObj [("cell_type", JStr "code");
    ("execution_count", JNull);
    ("id", JStr "38");
    ("metadata", JObj []);
    ("outputs", JArr []);
    ("source", JArr [
      JStr (ln "def compute_potential(r, GM, a):");
      JStr (ln "    # Gravitational potential for a Hernquist model:");
      JStr "    return -GM / (r + a)"])].

Definition cell_39 : json :=
  JObj [("cell_type", JStr "code");
    ("execution_count", JNull);
    ("id", JStr "39");
    ("metadata", JObj []);
    ("outputs", JArr []);
    ("source", JArr [
      JStr "dPhi_dr = quaxed.grad(compute_potential)"])].

Definition cell_40 : json :=
  JObj [("cell_type", JStr "code");
    ("execution_count", JNull);
    ("id", JStr "40");
    ("metadata", JObj []);
    ("outputs", JArr []);
    ("source", JArr [
      JStr (ln ("r = u.Quantity(1.0, " ++ dq ++ "kpc" ++ dq ++ ")"));
      JStr (ln ("GM = u.Quantity(1.0, " ++ dq ++ "kpc^3 / Gyr^2" ++ dq ++ ")"));
      JStr (ln ("a = u.Quantity(1.0, " ++ dq ++ "kpc" ++ dq ++ ")"));
      JStr "compute_potential(r, GM, a).block_until_ready()"])].

Definition cell_41 : json :=
  JObj [("cell_type", JStr "code");
    ("execution_count", JNull);
    ("id", JStr "41");
    ("metadata", JObj []);
    ("outputs", JArr []);
    ("source", JArr [
      JStr "dPhi_dr(r, GM, a).block_until_ready()"])].

Definition cell_42 : json :=
  JObj [("cell_type", JStr "code");
    ("execution_count", JNull);
    ("id", JStr "42");
    ("metadata", JObj []);
    ("outputs", JArr []);
    ("source", JArr [])].

Definition notebook : json :=
  JObj [("cells", JArr [
      cell_00; cell_01; cell_02; cell_03; cell_04; cell_05; cell_06; cell_07;
      cell_08; cell_09; cell_10; cell_11; cell_12; cell_13; cell_14; cell_15;
      cell_16; cell_17; cell_18; cell_19; cell_20; cell_21; cell_22; cell_23;
      cell_24; cell_25; cell_26; cell_27; cell_28; cell_29; cell_30; cell_31;
      cell_32; cell_33; cell_34; cell_35; cell_36; cell_37; cell_38; cell_39;
      cell_40; cell_41; cell_42]);
    ("metadata", JObj [("kernelspec", JObj [("display_name", JStr ".venv");
                ("language", JStr "python");
                ("name", JStr "python3")]);
          ("language_info", JObj [("codemirror_mode", JObj [("name", JStr "ipython");
                      ("version", JNum 3)]);
                ("file_extension", JStr ".py");
                ("mimetype", JStr "text/x-python");
                ("name", JStr "python");
                ("nbconvert_exporter", JStr "python");
                ("pygments_lexer", JStr "ipython3");
                ("version", JStr "3.12.7")])]);
    ("nbformat", JNum 4);
    ("nbformat_minor", JNum 5)].

End Notebook.

(** ** Reading a notebook document (nbformat 4) *)

Module Nbformat.

Definition cells (nb : json) : list json :=
  match field "cells" nb with
  | Some (JArr cs) => cs
  | _ => []
  end.

Definition cell_type (c : json) : option string :=
  match field "cell_type" c with
  | Some (JStr t) => Some t
  | _ => None
  end.

Definition cell_id (c : json) : option string :=
  match field "id" c with
  | Some (JStr i) => Some i
  | _ => None
  end.

Definition is_code (c : json) : bool :=
  match cell_type c with
  | Some t => String.eqb t "code"
  | None => false
  end.

Definition is_markdown (c : json) : bool :=
  match cell_type c with
  | Some t => String.eqb t "markdown"
  | None => false
  end.

(** The strings of a JSON array, [None] as soon as one item is not a string. *)
Fixpoint strings_of (items : list json) : option (list string) :=
  match items with
  | [] => Some []
  | JStr s :: rest =>
      match strings_of rest with
      | Some ss => Some (s :: ss)
      | None => None
      end
  | _ :: _ => None
  end.

Definition source_lines (c : json) : option (list string) :=
  match field "source" c with
  | Some (JArr items) => strings_of items
  | _ => None
  end.

(** The text of a cell: its source lines joined, as the front end shows
    and runs it. *)
Definition source_text (c : json) : string :=
  match source_lines c with
  | Some ls => String.concat EmptyString ls
  | None => EmptyString
  end.

Definition code_cells (nb : json) : list json := filter is_code (cells nb).
Definition markdown_cells (nb : json) : list json := filter is_markdown (cells nb).

(** *** Shape of a document *)

(** What every cell carries: a type tag that is markdown or code, an
    identifier, source lines, and for code an outputs list and an execution
    counter (null or a number). *)
Record cell_shape (c : json) : Prop := {
  shape_tag : cell_type c = Some "markdown" \/ cell_type c = Some "code";
  shape_id : exists i, field "id" c = Some (JStr i);
  shape_source : exists ls, source_lines c = Some ls;
  shape_code :
    cell_type c = Some "code" ->
    (exists outs, field "outputs" c = Some (JArr outs)) /\
    (field "execution_count" c = Some JNull \/
     exists n, field "execution_count" c = Some (JNum n))
}.

Record document_shape (nb : json) : Prop := {
  shape_object : exists fs, nb = JObj fs;
  shape_cells : exists cs, field "cells" nb = Some (JArr cs) /\ Forall cell_shape cs;
  shape_metadata : exists fs, field "metadata" nb = Some (JObj fs);
  shape_nbformat : exists v, field "nbformat" nb = Some (JNum v);
  shape_nbformat_minor : exists v, field "nbformat_minor" nb = Some (JNum v)
}.

(** The same shape as a check that runs. *)
Definition check_cell (c : json) : bool :=
  match cell_type c, field "id" c, source_lines c with
  | Some t, Some (JStr _), Some _ =>
      if String.eqb t "markdown" then true
      else if String.eqb t "code" then
        match field "outputs" c, field "execution_count" c with
        | Some (JArr _), Some JNull => true
        | Some (JArr _), Some (JNum _) => true
        | _, _ => false
        end
      else false
  | _, _, _ => false
  end.

Definition check_document (nb : json) : bool :=
  match nb with
  | JObj _ =>
      match field "cells" nb, field "metadata" nb,
            field "nbformat" nb, field "nbformat_minor" nb with
      | Some (JArr cs), Some (JObj _), Some (JNum _), Some (JNum _) =>
          forallb check_cell cs
      | _, _, _, _ => false
      end
  | _ => false
  end.

(** *** Stripped state *)

(** A code cell as a commit stores it: no captured output, no execution
    counter. *)
Definition stripped (c : json) : Prop :=
  field "outputs" c = Some (JArr []) /\ field "execution_count" c = Some JNull.

Definition strippedb (c : json) : bool :=
  match field "outputs" c, field "execution_count" c with
  | Some (JArr []), Some JNull => true
  | _, _ => false
  end.

(** *** Identifiers *)

Definition decimal (n : nat) : string := NilEmpty.string_of_uint (Nat.to_uint n).

Definition number_of (s : string) : option nat :=
  match NilEmpty.uint_of_string s with
  | Some u => Some (Nat.of_uint u)
  | None => None
  end.

Definition cell_ids (nb : json) : list (option string) := map cell_id (cells nb).

Definition id_number (c : json) : option nat :=
  match cell_id c with
  | Some i => number_of i
  | None => None
  end.

(** Strictly increasing lists of numbers. *)
Fixpoint increasing (l : list nat) : Prop :=
  match l with
  | [] => True
  | x :: rest =>
      match rest with
      | [] => True
      | y :: _ => x < y /\ increasing rest
      end
  end.

End Nbformat.

(** ** Text of the cells: headings and words *)

Module Text.

Import Nbformat.

(** Drop the line feed that ends a stored source line. *)
Fixpoint chomp (s : string) : string :=
  match s with
  | EmptyString => EmptyString
  | String c rest =>
      match rest with
      | EmptyString => if Ascii.eqb c (ascii_of_nat 10) then EmptyString else s
      | _ => String c (chomp rest)
      end
  end.

(** Leading number signs of a line and what follows them. *)
Fixpoint hashes (s : string) : nat * string :=
  match s with
  | String "#" rest => let (n, t) := hashes rest in (S n, t)
  | _ => (0, s)
  end.

(** An ATX heading: one to six number signs, a space, the title. *)
Definition heading (line : string) : option (nat * string) :=
  match hashes line with
  | (S n, String " "%char title) => if (n <? 6)%nat then Some (S n, chomp title) else None
  | _ => None
  end.

Fixpoint headings_of (lines : list string) : list (nat * string) :=
  match lines with
  | [] => []
  | l :: rest =>
      match heading l with
      | Some h => h :: headings_of rest
      | None => headings_of rest
      end
  end.

Definition cell_headings (c : json) : list (nat * string) :=
  if is_markdown c then
    match source_lines c with
    | Some ls => headings_of ls
    | None => []
    end
  else [].

(** Every heading of the document, in document order. *)
Definition outline (nb : json) : list (nat * string) :=
  flat_map cell_headings (cells nb).

Definition heading_eqb (a b : nat * string) : bool :=
  Nat.eqb (fst a) (fst b) && String.eqb (snd a) (snd b).

Definition heading_in (hs : list (nat * string)) (h : nat * string) : bool :=
  existsb (heading_eqb h) hs.

(** The six topics of the tutorial, by the heading that opens each. *)
Definition topics : list (nat * string) :=
  [ (2, "JIT Compilation");
    (2, "Vectorization with `vmap`");
    (2, "Automatic Differentiation");
    (2, "Pytrees");
    (2, "Control flow");
    (1, "Teaser: Using physical units in JAX code") ].

(** Position of the first occurrence of a heading in a list. *)
Fixpoint position (h : nat * string) (hs : list (nat * string)) : option nat :=
  match hs with
  | [] => None
  | h' :: rest =>
      if heading_eqb h h' then Some 0
      else match position h rest with
           | Some n => Some (S n)
           | None => None
           end
  end.

(** *** Words of a line of Python *)

Definition is_word_char (c : ascii) : bool :=
  let n := nat_of_ascii c in
  (((65 <=? n) && (n <=? 90)) || ((97 <=? n) && (n <=? 122)) ||
   ((48 <=? n) && (n <=? 57)) || (n =? 95))%nat.

Inductive lex_state : Type :=
| InCode
| InString (quote : ascii)
| Escaped (quote : ascii).


(** Maximal runs of letters, digits and underscores. *)
Fixpoint words_from (acc : string) (s : string) : list string :=
  match s with
  | EmptyString =>
      match acc with
      | EmptyString => []
      | _ => [acc]
      end
  | String c rest =>
      if is_word_char c then words_from (acc ++ String c EmptyString) rest
      else match acc with
           | EmptyString => words_from EmptyString rest
           | _ => acc :: words_from EmptyString rest
           end
  end.




Definition mem (w : string) (ws : list string) : bool :=
  existsb (String.eqb w) ws.


(** *** What the prose says about chance *)

(** The comment of a line: what follows the first number sign outside a
    string literal. *)
Fixpoint comment_part (st : lex_state) (s : string) : string :=
  match s with
  | EmptyString => EmptyString
  | String c rest =>
      match st with
      | InCode =>
          if Ascii.eqb c "#" then rest
          else if Ascii.eqb c (ascii_of_nat 34) || Ascii.eqb c "'"
          then comment_part (InString c) rest
          else comment_part InCode rest
      | InString q =>
          if Ascii.eqb c q then comment_part InCode rest
          else if Ascii.eqb c "\" then comment_part (Escaped q) rest
          else comment_part (InString q) rest
      | Escaped q => comment_part (InString q) rest
      end
  end.

Definition lower (c : ascii) : ascii :=
  let n := nat_of_ascii c in
  if ((65 <=? n) && (n <=? 90))%nat then ascii_of_nat (n + 32) else c.

Fixpoint lowercase (s : string) : string :=
  match s with
  | EmptyString => EmptyString
  | String c rest => String (lower c) (lowercase rest)
  end.

(** Words by which a text would say that a result varies from run to
    run. *)
Definition chance_words : list string :=
  ["random"; "randomly"; "randomness"; "stochastic"; "noise"; "noisy";
   "seed"; "unseeded"; "nondeterministic"; "vary"; "varies"; "differ"; "differs"].

Definition speaks_of_chance (text : string) : bool :=
  existsb (fun w => mem w chance_words) (words_from EmptyString (lowercase text)).

(** The prose that documents a code cell: its own comments, and the
    markdown cell that introduces it (the last one before it). *)
Definition comments_of (c : json) : list string :=
  match source_lines c with
  | Some ls => map (comment_part InCode) ls
  | None => []
  end.

Definition prose_of (c : json) : list string :=
  match source_lines c with
  | Some ls => ls
  | None => []
  end.

Fixpoint documentation (intro : list string) (cs : list json)
  : list (option string * list string) :=
  match cs with
  | [] => []
  | c :: rest =>
      if is_markdown c then documentation (prose_of c) rest
      else (cell_id c, (intro ++ comments_of c)%list) :: documentation intro rest
  end.

(** Whether the notebook documents the code cell [i] as stochastic. *)
Definition documented_stochastic (nb : json) (i : string) : bool :=
  existsb (fun d => match fst d with
                    | Some j => String.eqb i j && existsb speaks_of_chance (snd d)
                    | None => false
                    end) (documentation [] (cells nb)).

End Text.

(** ** The Python of the code cells *)

Module Python.

(** *** Syntax

    The constructors follow Python's [ast] module, restricted to what the
    cells use, and keep what is needed to print a cell back exactly: the
    spelling of numeric literals, comments, blank lines, the layout of a
    call or dictionary split over several lines, and the IPython magics
    [%xmode], [%timeit] and [%%time]. *)

Inductive constant : Type :=
| CNone
| CTrue
| CInt (text : string)
| CFloat (text : string)
| CStr (s : string).

Inductive binop : Type := Add | Sub | Mult | Div | Pow.

Inductive layout : Type := Inline | Exploded.

Inductive expr : Type :=
| Name (id : string)
| Constant (c : constant)
| Attribute (value : expr) (attr : string)
| Call (func : expr) (args : list expr) (keywords : list (string * expr)) (lay : layout)
| BinOp (left : expr) (op : binop) (right : expr)
| USub (operand : expr)
| Gt (left right : expr)
| Subscript (value : expr) (index : expr)
| Tuple (elts : list expr)
| Dict (items : list (string * expr)) (lay : layout)
| Lambda (params : list string) (body : expr).

Inductive stmt : Type :=
| Import (module : string) (asname : option string)
| Assign (target : string) (value : expr)
| AugAssign (target : string) (op : binop) (value : expr)
| Expr (value : expr)
| Return (value : expr)
| FunctionDef (decorators : list expr) (name : string) (params : list string)
    (body : list stmt)
| If (test : expr) (body orelse : list stmt)
| For (target : string) (iter : expr) (body : list stmt)
| Comment (text : string)
| Blank
| Trailing (s : stmt) (comment : string)
| LineMagic (name : string) (rest : string)
| MagicTimeit (s : stmt)
| CellMagicTime (body : list stmt).

(** *** Printing *)

Fixpoint join (sep : string) (parts : list string) : string :=
  match parts with
  | [] => EmptyString
  | [p] => p
  | p :: rest => p ++ sep ++ join sep rest
  end.













(** *** Short forms used to write the cells down *)

Definition int (t : string) : expr := Constant (CInt t).
Definition float (t : string) : expr := Constant (CFloat t).
Definition str (s : string) : expr := Constant (CStr s).
Definition none : expr := Constant CNone.

(** [dotted "jax" ["lax"; "cond"]] is [jax.lax.cond]. *)
Definition dotted (root : string) (path : list string) : expr :=
  fold_left Attribute path (Name root).

Definition call (f : expr) (args : list expr) : expr := Call f args [] Inline.
Definition callk (f : expr) (args : list expr) (kws : list (string * expr)) : expr :=
  Call f args kws Inline.

(** [e.block_until_ready()] *)
Definition block_until_ready (e : expr) : expr :=
  call (Attribute e "block_until_ready") [].

End Python.

(** ** The code cells as syntax trees *)

Module Cells.

Import Python.

Definition jnp (path : list string) : expr := dotted "jnp" path.
Definition jax (path : list string) : expr := dotted "jax" path.
Definition np (path : list string) : expr := dotted "np" path.
Definition plt (path : list string) : expr := dotted "plt" path.
Definition figsize_6_4 : string * expr := ("figsize", Tuple [int "6"; int "4"]).

Definition code_01 : list stmt :=
  [ Import "jax" None;
    Import "jax.numpy" (Some "jnp");
    Import "matplotlib.pyplot" (Some "plt");
    Import "numpy" (Some "np");
    Blank;
    LineMagic "xmode" "minimal" ].

Definition code_03 : list stmt :=
  [ FunctionDef [] "func" ["x"; "a"]
      [ Return
          (call (jnp ["log"])
             [BinOp
                (callk (jnp ["sum"]) [BinOp (Name "x") Pow (int "2")] [("axis", int "1")])
                Add
                (BinOp (Name "a") Pow (int "2"))]) ] ].

Definition code_04 : list stmt :=
  [ Assign "x"
      (callk (np ["random"; "normal"]) []
         [("size", Tuple [int "1_000_000"; int "3"])]) ].

Definition code_05 : list stmt :=
  [ Comment "# without JIT:";
    MagicTimeit (Expr (block_until_ready (call (Name "func") [Name "x"; float "1.0"]))) ].

Definition code_06 : list stmt :=
  [ Assign "func_jit" (call (jax ["jit"]) [Name "func"]);
    Blank;
    Comment "# this first call compiles the function";
    Expr (block_until_ready (call (Name "func_jit") [Name "x"; float "1.0"]));
    Blank;
    Comment "# with JIT:";
    MagicTimeit
      (Expr (block_until_ready (call (Name "func_jit") [Name "x"; float "1.0"]))) ].

Definition code_10 : list stmt :=
  [ Trailing (Assign "N" (int "128")) "# number of spectra to make";
    Blank;
    Assign "rng" (call (np ["random"; "default_rng"]) [int "123"]);
    Assign "pix" (call (jnp ["arange"]) [int "100"]);
    Blank;
    Assign "true_ctr"
      (callk (Attribute (Name "rng") "uniform") [int "40"; int "60"]
         [("size", Tuple [Name "N"])]);
    Assign "true_depth"
      (callk (Attribute (Name "rng") "uniform") [float "0.1"; float "0.5"]
         [("size", Tuple [Name "N"])]);
    Blank;
    Blank;
    FunctionDef [] "make_spectrum" ["pix"; "ctr"; "depth"; "scale"]
      [ Return
          (BinOp (int "1") Sub
             (BinOp (Name "depth") Mult
                (call (jnp ["exp"])
                   [BinOp
                      (BinOp (USub (float "0.5")) Mult
                         (BinOp (BinOp (Name "pix") Sub (Name "ctr")) Pow (int "2")))
                      Div
                      (BinOp (Name "scale") Pow (int "2"))]))) ];
    Blank;
    Blank;
    Comment "# we'll use vmap to simulate the spectra too ^_^";
    Assign "spectra"
      (block_until_ready
         (call
            (Call (jax ["vmap"]) [Name "make_spectrum"]
               [("in_axes", Tuple [none; int "0"; int "0"; none]);
                ("out_axes", int "0")]
               Exploded)
            [Name "pix"; Name "true_ctr"; Name "true_depth"; float "10.0"])) ].

Definition code_11 : list stmt :=
  [ Expr (callk (plt ["figure"]) [] [figsize_6_4]);
    Assign "_"
      (callk (plt ["plot"]) [Attribute (Name "spectra") "T"; str "-"]
         [("alpha", float "0.1"); ("color", str "k")]) ].

Definition code_13 : list stmt :=
  [ FunctionDef [] "find_depth" ["spectrum"]
      [ Comment "# find the minimum pixel value:";
        Assign "min_pix" (call (jnp ["argmin"]) [Name "spectrum"]);
        Blank;
        Comment "# locally fit a parabola to the spectrum to find the inter-pixel minimum";
        Assign "y"
          (call (jax ["lax"; "dynamic_slice"])
             [Name "spectrum";
              Tuple [BinOp (Name "min_pix") Sub (int "1")];
              Tuple [int "3"]]);
        Assign "x" (call (jnp ["arange"]) [USub (int "1"); int "2"]);
        Trailing
          (Assign "A"
             (callk (jnp ["vander"]) [Name "x"; int "3"] [("increasing", Constant CTrue)]))
          "# creates a matrix with columns [1, x, x**2]";
        Assign "coeffs"
          (Subscript
             (callk (jnp ["linalg"; "lstsq"]) [Name "A"; Name "y"] [("rcond", none)])
             (int "0"));
        Blank;
        Return (BinOp (int "1") Sub (Subscript (Name "coeffs") (int "0"))) ];
    Blank;
    Blank;
    Assign "find_depth_vmap"
      (callk (jax ["vmap"]) [Name "find_depth"] [("in_axes", int "0")]) ].

Definition code_14 : list stmt :=
  [ CellMagicTime
      [ For "spectrum" (Name "spectra")
          [ Expr (block_until_ready (call (Name "find_depth") [Name "spectrum"])) ] ] ].

Definition code_15 : list stmt :=
  [ CellMagicTime
      [ Expr (block_until_ready (call (Name "find_depth_vmap") [Name "spectra"])) ] ].

Definition code_16 : list stmt :=
  [ Assign "depths" (block_until_ready (call (Name "find_depth_vmap") [Name "spectra"]));
    Expr (call (plt ["scatter"]) [Name "depths"; Name "true_depth"]);
    Expr (call (plt ["xlabel"]) [str "Measured depth"]);
    Expr (call (plt ["ylabel"]) [str "True depth"]) ].

Definition code_18 : list stmt :=
  [ FunctionDef [] "some_func" ["x"; "A"; "P"]
      [ Return
          (BinOp (Name "A") Mult
             (call (jnp ["cos"])
                [BinOp
                   (BinOp (BinOp (int "2") Mult (jnp ["pi"])) Mult (Name "x"))
                   Div
                   (Name "P")])) ] ].

Definition grad_some_func : expr :=
  callk (jax ["grad"]) [Name "some_func"] [("argnums", int "0")].

Definition code_19 : list stmt :=
  [ Assign "some_func_grad" grad_some_func;
    Blank;
    Assign "xgrid" (call (jnp ["linspace"]) [int "0"; int "10"; int "4096"]);
    Expr (call (Name "some_func_grad") [Name "xgrid"; float "1.0"; float "1.0"]) ].

Definition code_21 : list stmt :=
  [ Assign "some_func_grad_vmap"
      (callk (jax ["vmap"]) [grad_some_func]
         [("in_axes", Tuple [int "0"; none; none])]) ].

Definition code_22 : list stmt :=
  [ Expr (callk (plt ["figure"]) [] [figsize_6_4]);
    Expr
      (callk (plt ["plot"])
         [Name "xgrid";
          call (Name "some_func") [Name "xgrid"; float "1.0"; float "1.0"];
          str "-"]
         [("label", str "f(x)")]);
    Expr
      (callk (plt ["plot"])
         [Name "xgrid";
          call (Name "some_func_grad_vmap") [Name "xgrid"; float "1.0"; float "1.0"];
          str "-"]
         [("label", str "df/dx")]);
    Expr
      (callk (plt ["legend"]) []
         [("loc", str "lower right"); ("fontsize", int "20")]) ].

Definition code_24 : list stmt :=
  [ FunctionDef [] "model" ["x"; "a"; "b"]
      [ Return (BinOp (BinOp (Name "a") Mult (Name "x")) Add (Name "b")) ];
    Blank;
    Blank;
    FunctionDef [] "objective" ["params"; "x"; "y"; "y_err"]
      [ Assign "model_y"
          (call (Name "model")
             [Name "x";
              Subscript (Name "params") (str "a");
              Subscript (Name "params") (str "b")]);
        Trailing
          (Return
             (call (jnp ["sum"])
                [BinOp
                   (BinOp (BinOp (Name "y") Sub (Name "model_y")) Pow (int "2"))
                   Div
                   (BinOp (Name "y_err") Pow (int "2"))]))
          "# chi2" ] ].

Definition len_x : expr := call (Name "len") [Name "x"].

Definition code_25 : list stmt :=
  [ Assign "rng" (call (np ["random"; "default_rng"]) [int "42"]);
    Assign "x"
      (callk (Attribute (Name "rng") "uniform") [int "0"; int "10"] [("size", int "16")]);
    Assign "y"
      (callk (Name "model") [Name "x"] [("a", float "8.67"); ("b", float "5.309")]);
    Assign "y_err"
      (callk (Attribute (Name "rng") "uniform") [float "0.1"; float "5.0"]
         [("size", len_x)]);
    AugAssign "y" Add
      (callk (Attribute (Name "rng") "normal") [int "0"; Name "y_err"] [("size", len_x)]);
    Blank;
    Expr (callk (plt ["figure"]) [] [figsize_6_4]);
    Expr
      (callk (plt ["errorbar"]) [Name "x"; Name "y"]
         [("yerr", Name "y_err"); ("fmt", str "o"); ("label", str "data")]) ].

Definition code_26 : list stmt :=
  [ Assign "objecive_grad"
      (callk (jax ["grad"]) [Name "objective"] [("argnums", int "0")]) ].

Definition code_27 : list stmt :=
  [ Expr
      (call (Name "objecive_grad")
         [Dict [("a", float "1.0"); ("b", float "1.0")] Inline;
          Name "x"; Name "y"; Name "y_err"]) ].

Definition code_29 : list stmt :=
  [ Assign "params_arr"
      (Dict
         [("a", call (jnp ["linspace"]) [int "0"; int "10"; int "5"]);
          ("b", call (jnp ["linspace"]) [USub (int "5"); int "5"; int "5"])]
         Exploded);
    Blank;
    Assign "objective_vmap"
      (callk (jax ["vmap"]) [Name "objective"]
         [("in_axes",
           Tuple [Dict [("a", int "0"); ("b", int "0")] Inline; none; none; none])]);
    Assign "chi2_arr"
      (block_until_ready
         (call (Name "objective_vmap")
            [Name "params_arr"; Name "x"; Name "y"; Name "y_err"]));
    Expr (Name "chi2_arr") ].

Definition code_31 : list stmt :=
  [ FunctionDef [jax ["jit"]] "func_if1" ["x"]
      [ If (Gt (Name "x") (int "0"))
          [ Return (BinOp (Name "x") Pow (int "3")) ]
          [ Return (BinOp (Name "x") Pow (int "2")) ] ] ].

Definition code_32 : list stmt :=
  [ Expr (call (Name "func_if1") [float "10.0"]) ].

Definition code_33 : list stmt :=
  [ FunctionDef [jax ["jit"]] "func_if2" ["x"]
      [ Return
          (call (jax ["lax"; "cond"])
             [Gt (Name "x") (int "0");
              Lambda [] (BinOp (Name "x") Pow (int "3"));
              Lambda [] (BinOp (Name "x") Pow (int "2"))]) ] ].

Definition code_34 : list stmt :=
  [ Expr (call (Name "func_if2") [float "10.0"]) ].

Definition code_36 : list stmt :=
  [ Import "unxt" (Some "u");
    Import "quaxed" None ].

Definition quantity (value : expr) (unit : string) : expr :=
  call (dotted "u" ["Quantity"]) [value; str unit].

Definition code_37 : list stmt :=
  [ Assign "pos" (quantity (call (jnp ["arange"]) [float "10.0"]) "kpc");
    Assign "time" (quantity (float "5.3") "Gyr");
    Blank;
    Assign "result" (BinOp (Name "pos") Div (Name "time"));
    Expr (Attribute (Name "result") "unit") ].

Definition code_38 : list stmt :=
  [ FunctionDef [] "compute_potential" ["r"; "GM"; "a"]
      [ Comment "# Gravitational potential for a Hernquist model:";
        Return
          (BinOp (USub (Name "GM")) Div (BinOp (Name "r") Add (Name "a"))) ] ].

Definition code_39 : list stmt :=
  [ Assign "dPhi_dr" (call (dotted "quaxed" ["grad"]) [Name "compute_potential"]) ].

Definition code_40 : list stmt :=
  [ Assign "r" (quantity (float "1.0") "kpc");
    Assign "GM" (quantity (float "1.0") "kpc^3 / Gyr^2");
    Assign "a" (quantity (float "1.0") "kpc");
    Expr
      (block_until_ready
         (call (Name "compute_potential") [Name "r"; Name "GM"; Name "a"])) ].

Definition code_41 : list stmt :=
  [ Expr (block_until_ready (call (Name "dPhi_dr") [Name "r"; Name "GM"; Name "a"])) ].

Definition code_42 : list stmt := [].

(** The syntax tree of each code cell, by cell identifier. *)
Definition programs : list (string * list stmt) :=
  [ ("1", code_01); ("3", code_03); ("4", code_04); ("5", code_05); ("6", code_06);
    ("10", code_10); ("11", code_11); ("13", code_13); ("14", code_14);
    ("15", code_15); ("16", code_16); ("18", code_18); ("19", code_19);
    ("21", code_21); ("22", code_22); ("24", code_24); ("25", code_25);
    ("26", code_26); ("27", code_27); ("29", code_29); ("31", code_31);
    ("32", code_32); ("33", code_33); ("34", code_34); ("36", code_36);
    ("37", code_37); ("38", code_38); ("39", code_39); ("40", code_40);
    ("41", code_41); ("42", code_42) ].

Definition program_of (c : json) : option (list stmt) :=
  match Nbformat.cell_id c with
  | Some i => assoc i programs
  | None => None
  end.


(** The code cells of a notebook in document order, each with its
    identifier and its syntax tree. *)
Definition cell_programs (cs : list json) : list (string * list stmt) :=
  flat_map (fun c => match Nbformat.cell_id c, program_of c with
                     | Some i, Some body => [(i, body)]
                     | _, _ => []
                     end) cs.

End Cells.

(** ** The hook configuration [.pre-commit-config.yaml] *)

Module Config.

(** *** YAML trees

    Scalars keep their quoting and sequences their style, so that the tree
    prints back to the lines of the file. *)

Inductive style : Type := Plain | Quoted.

Inductive yaml : Type :=
| Scalar (st : style) (s : string)
| FlowSeq (items : list yaml)
| BlockSeq (items : list yaml)
| Mapping (fields : list (string * yaml)).

Definition plain (s : string) : yaml := Scalar Plain s.
Definition quoted (s : string) : yaml := Scalar Quoted s.

(** A hook that only names its identifier. *)
Definition hook (id : string) : yaml := Mapping [("id", plain id)].

(** A hook with further keys. *)
Definition hook_with (id : string) (more : list (string * yaml)) : yaml :=
  Mapping (("id", plain id) :: more).

Definition repository (url : string) (rev : yaml) (hooks : list yaml) : yaml :=
  Mapping [("repo", plain url); ("rev", rev); ("hooks", BlockSeq hooks)].

Definition config : yaml :=
  Mapping
    [ ("ci",
       Mapping
         [ ("autoupdate_commit_msg", quoted "chore: update pre-commit hooks");
           ("autofix_commit_msg", quoted "style: pre-commit fixes") ]);
      ("exclude", plain "^.cruft.json|.copier-answers.yml$");
      ("repos",
       BlockSeq
         [ repository "https://github.com/pre-commit/pre-commit-hooks" (quoted "v5.0.0")
             [ hook "check-added-large-files";
               hook "check-case-conflict";
               hook "check-merge-conflict";
               hook "check-symlinks";
               hook "check-yaml";
               hook "end-of-file-fixer";
               hook "mixed-line-ending";
               hook_with "name-tests-test"
                 [("args", FlowSeq [quoted "--pytest-test-first"])];
               hook "requirements-txt-fixer";
               hook "trailing-whitespace" ];
           repository "https://github.com/rbubley/mirrors-prettier" (quoted "v3.4.2")
             [ hook_with "prettier"
                 [ ("types_or",
                    FlowSeq
                      [ plain "yaml"; plain "markdown"; plain "html"; plain "css";
                        plain "scss"; plain "javascript"; plain "json" ]);
                   ("args", FlowSeq [plain "--prose-wrap=always"]) ] ];
           repository "https://github.com/astral-sh/ruff-pre-commit" (quoted "v0.9.5")
             [ hook_with "ruff"
                 [ ("args", FlowSeq [quoted "--fix"; quoted "--show-fixes"]);
                   ("types_or", FlowSeq [plain "python"; plain "jupyter"]) ];
               hook_with "ruff-format"
                 [ ("types_or", FlowSeq [plain "python"; plain "jupyter"]) ] ];
           repository "https://github.com/shellcheck-py/shellcheck-py" (quoted "v0.10.0.1")
             [ hook "shellcheck" ];
           repository "https://github.com/abravalheri/validate-pyproject" (quoted "v0.23")
             [ hook_with "validate-pyproject"
                 [ ("additional_dependencies",
                    FlowSeq [quoted "validate-pyproject-schema-store[all]"]) ] ];
           repository "https://github.com/kynan/nbstripout" (plain "0.8.1")
             [ hook "nbstripout" ] ]) ].

(** *** The file, line by line, down to its last hook declaration *)

Definition file_lines : list string :=
  [ "ci:";
    "  autoupdate_commit_msg: " ++ dq ++ "chore: update pre-commit hooks" ++ dq;
    "  autofix_commit_msg: " ++ dq ++ "style: pre-commit fixes" ++ dq;
    EmptyString;
    "exclude: ^.cruft.json|.copier-answers.yml$";
    EmptyString;
    "repos:";
    "  - repo: https://github.com/pre-commit/pre-commit-hooks";
    "    rev: " ++ dq ++ "v5.0.0" ++ dq;
    "    hooks:";
    "      - id: check-added-large-files";
    "      - id: check-case-conflict";
    "      - id: check-merge-conflict";
    "      - id: check-symlinks";
    "      - id: check-yaml";
    "      - id: end-of-file-fixer";
    "      - id: mixed-line-ending";
    "      - id: name-tests-test";
    "        args: [" ++ dq ++ "--pytest-test-first" ++ dq ++ "]";
    "      - id: requirements-txt-fixer";
    "      - id: trailing-whitespace";
    EmptyString;
    "  - repo: https://github.com/rbubley/mirrors-prettier";
    "    rev: " ++ dq ++ "v3.4.2" ++ dq;
    "    hooks:";
    "      - id: prettier";
    "        types_or: [yaml, markdown, html, css, scss, javascript, json]";
    "        args: [--prose-wrap=always]";
    EmptyString;
    "  - repo: https://github.com/astral-sh/ruff-pre-commit";
    "    rev: " ++ dq ++ "v0.9.5" ++ dq;
    "    hooks:";
    "      - id: ruff";
    "        args: [" ++ dq ++ "--fix" ++ dq ++ ", " ++ dq ++ "--show-fixes" ++ dq ++ "]";
    "        types_or: [python, jupyter]";
    "      - id: ruff-format";
    "        types_or: [python, jupyter]";
    EmptyString;
    "  - repo: https://github.com/shellcheck-py/shellcheck-py";
    "    rev: " ++ dq ++ "v0.10.0.1" ++ dq;
    "    hooks:";
    "      - id: shellcheck";
    EmptyString;
    "  - repo: https://github.com/abravalheri/validate-pyproject";
    "    rev: " ++ dq ++ "v0.23" ++ dq;
    "    hooks:";
    "      - id: validate-pyproject";
    "        additional_dependencies: [" ++ dq ++ "validate-pyproject-schema-store[all]" ++ dq ++ "]";
    EmptyString;
    "  - repo: https://github.com/kynan/nbstripout";
    "    rev: 0.8.1";
    "    hooks:";
    "      - id: nbstripout" ].

(** *** Printing a tree in the layout of the file *)

Definition print_scalar (st : style) (s : string) : string :=
  match st with
  | Plain => s
  | Quoted => dq ++ s ++ dq
  end.

(** A value written on the line of its key, when it fits there. *)
Definition print_flow (y : yaml) : option string :=
  match y with
  | Scalar st s => Some (print_scalar st s)
  | FlowSeq items =>
      Some ("[" ++
            Python.join ", "
              (map (fun i => match i with
                             | Scalar st s => print_scalar st s
                             | _ => EmptyString
                             end) items) ++ "]")
  | _ => None
  end.

(** Prefix the first line with [first] and the others with [other]. *)
Definition prefix_lines (first other : string) (lines : list string) : list string :=
  match lines with
  | [] => []
  | l :: rest => (first ++ l) :: map (fun r => other ++ r) rest
  end.

(** Lines of a block, without indentation; [gap] separates the entries of
    the outermost mapping and sequence by an empty line. *)
Fixpoint print_block (gap : bool) (y : yaml) {struct y} : list string :=
  let separate (blocks : list (list string)) : list string :=
    (fix go (bs : list (list string)) : list string :=
       match bs with
       | [] => []
       | [b] => b
       | b :: rest => (b ++ (if gap then [EmptyString] else []) ++ go rest)%list
       end) blocks in
  let indent (w : string) (lines : list string) : list string :=
    map (fun l => match l with
                  | EmptyString => EmptyString
                  | _ => w ++ l
                  end) lines in
  match y with
  | Scalar st s => [print_scalar st s]
  | FlowSeq _ =>
      match print_flow y with
      | Some s => [s]
      | None => []
      end
  | BlockSeq items =>
      separate
        (map (fun i => prefix_lines "- " "  " (print_block false i)) items)
  | Mapping fields =>
      separate
        (map (fun kv =>
                match print_flow (snd kv) with
                | Some s => [fst kv ++ ": " ++ s]
                | None =>
                    (fst kv ++ ":") ::
                    indent "  "
                      (print_block
                         (gap && match snd kv with
                                 | BlockSeq _ => true
                                 | _ => false
                                 end) (snd kv))
                end) fields)
  end.

(** *** Reading the configuration as the hook runner does *)

Definition entry (k : string) (y : yaml) : option yaml :=
  match y with
  | Mapping fs => assoc k fs
  | _ => None
  end.

Definition scalar (y : option yaml) : option string :=
  match y with
  | Some (Scalar _ s) => Some s
  | _ => None
  end.

Definition items (y : option yaml) : list yaml :=
  match y with
  | Some (FlowSeq l) => l
  | Some (BlockSeq l) => l
  | _ => []
  end.

Definition repos (cfg : yaml) : list yaml := items (entry "repos" cfg).
Definition hooks (repo : yaml) : list yaml := items (entry "hooks" repo).
Definition revision (repo : yaml) : option string := scalar (entry "rev" repo).
Definition hook_id (h : yaml) : option string := scalar (entry "id" h).

(** Every hook declaration with the repository block it stands in. *)
Definition hook_declarations (cfg : yaml) : list (yaml * yaml) :=
  flat_map (fun r => map (fun h => (r, h)) (hooks r)) (repos cfg).

(** The keys by which a hook declaration restricts the files it applies
    to: path patterns and file types. *)
Definition filter_keys : list string :=
  ["files"; "exclude"; "types"; "types_or"; "exclude_types"].

Definition filters (h : yaml) : list (string * yaml) :=
  match h with
  | Mapping fs => filter (fun kv => Text.mem (fst kv) filter_keys) fs
  | _ => []
  end.

Definition names_filters (h : yaml) : bool :=
  match filters h with
  | [] => false
  | _ :: _ => true
  end.

Definition names_revision (repo : yaml) : bool :=
  match revision repo with
  | Some _ => true
  | None => false
  end.

Definition file_types (h : yaml) : list string :=
  flat_map (fun i => match i with
                     | Scalar _ s => [s]
                     | _ => []
                     end) (items (entry "types_or" h)).

End Config.

(** ** The exclude pattern, read as the hook runner reads it *)

(** The runner compiles [exclude] with Python's [re] and drops every path
    on which [search] finds a match.  The pattern uses four kinds of items
    only: literal characters, [.], [^] and [$], joined by [|]. *)

Module Regex.





















End Regex.

(** ** Names read and bound by the cells *)

Module Names.

Import Python.

Definition mem := Text.mem.

(** [minus known names]: the names that are not known. *)
Definition minus (known names : list string) : list string :=
  filter (fun n => negb (mem n known)) names.

(** Names an expression loads from the scope it stands in. *)
Fixpoint loads (e : expr) : list string :=
  match e with
  | Name id => [id]
  | Constant _ => []
  | Attribute v _ => loads v
  | Call f args kws _ =>
      (loads f ++ flat_map loads args ++ flat_map (fun kv => loads (snd kv)) kws)%list
  | BinOp l _ r => (loads l ++ loads r)%list
  | USub x => loads x
  | Gt l r => (loads l ++ loads r)%list
  | Subscript v i => (loads v ++ loads i)%list
  | Tuple elts => flat_map loads elts
  | Dict items _ => flat_map (fun kv => loads (snd kv)) items
  | Lambda ps b => minus ps (loads b)
  end.

(** [import a.b] binds [a]; [import a.b as c] binds [c]. *)
Fixpoint package (m : string) : string :=
  match m with
  | EmptyString => EmptyString
  | String c rest => if Ascii.eqb c "." then EmptyString else String c (package rest)
  end.

(** Names a statement binds in the scope it stands in.  A function body is
    a scope of its own, and [%timeit] runs its statement in a scratch
    scope. *)
Fixpoint stores (s : stmt) : list string :=
  match s with
  | Import m None => [package m]
  | Import _ (Some a) => [a]
  | Assign t _ => [t]
  | AugAssign t _ _ => [t]
  | FunctionDef _ name _ _ => [name]
  | If _ body orelse => (flat_map stores body ++ flat_map stores orelse)%list
  | For t _ body => t :: flat_map stores body
  | Trailing s' _ => stores s'
  | CellMagicTime body => flat_map stores body
  | Expr _ | Return _ | Comment _ | Blank | LineMagic _ _ | MagicTimeit _ => []
  end.

(** Names a statement reads from the scope it stands in: what it loads when
    it runs, and for a function definition what its body loads from outside
    the function when it is called. *)
Fixpoint reads (s : stmt) : list string :=
  match s with
  | Import _ _ => []
  | Assign _ v => loads v
  | AugAssign t _ v => t :: loads v
  | Expr v => loads v
  | Return v => loads v
  | FunctionDef decs _ ps body =>
      (flat_map loads decs ++
       minus (ps ++ flat_map stores body) (flat_map reads body))%list
  | If test body orelse =>
      (loads test ++ flat_map reads body ++ flat_map reads orelse)%list
  | For t iter body => (loads iter ++ minus [t] (flat_map reads body))%list
  | Trailing s' _ => reads s'
  | MagicTimeit s' => reads s'
  | CellMagicTime body => flat_map reads body
  | Comment _ | Blank | LineMagic _ _ => []
  end.

(** Reads of a block that nothing has bound by the time they happen:
    [scope] holds the names bound before the block, and each statement adds
    the names it binds for the statements after it. *)
Fixpoint dangling (scope : list string) (body : list stmt) : list string :=
  match body with
  | [] => []
  | s :: rest => (minus scope (reads s) ++ dangling (stores s ++ scope) rest)%list
  end.

(** Names of Python's builtin scope that the cells use. *)
Definition builtins : list string := ["len"].

(** The cells in document order: for each the reads that neither an
    earlier cell nor the cell itself has bound. *)
Fixpoint dangling_cells (scope : list string) (cells : list (string * list stmt))
  : list (string * list string) :=
  match cells with
  | [] => []
  | (i, body) :: rest =>
      (i, dangling scope body) ::
      dangling_cells (flat_map stores body ++ scope) rest
  end.

Definition cell_reads (body : list stmt) : list string := flat_map reads body.
Definition cell_stores (body : list stmt) : list string := flat_map stores body.

(** Every read of every cell is a builtin, bound in the cell, or bound by a
    cell before it. *)
Fixpoint linear (scope : list string) (cells : list (string * list stmt)) : bool :=
  match cells with
  | [] => true
  | (_, body) :: rest =>
      match dangling scope body with
      | [] => linear (cell_stores body ++ scope) rest
      | _ :: _ => false
      end
  end.

End Names.

(** ** Running the cells: values *)

(** The numerical work of the cells is done by NumPy, JAX, Matplotlib, unxt
    and quaxed.  Their functions are modelled by what they accept and what
    they give back, at the level on which a call succeeds or raises: an
    array is its library, the kind of its elements, its shape, whether it is
    a concrete array or a tracer, and where its numbers come from.  The
    numbers themselves are not carried, nor are the figures of a timing
    report or the memory address in the text form of an object. *)

Module Kernel.

Import Python.

Inductive owner : Type := NumPy | Jax.

Inductive kind : Type := KBool | KInt | KFloat.

(** Where the numbers of a value come from: [Fixed] when the text of the
    notebook determines them (literals, seeded generators, arithmetic on
    such), [Entropy seed] when they are drawn from NumPy's global generator,
    which a fresh kernel seeds from the operating system. *)
Inductive origin : Type :=
| Fixed
| Entropy (seed : Z).

Record array : Type := Array {
  lib : owner;
  dtype : kind;
  shape : list Z;
  source : origin;
  concrete : bool
}.

(** Units of a quantity, kept as written and combined symbolically. *)
Inductive unit_expr : Type :=
| UnitOf (text : string)
| UnitDiv (a b : unit_expr)
| UnitMul (a b : unit_expr).

Inductive exception : Type :=
| NameError (name : string)
| UnboundLocalError (name : string)
| AttributeError (attr : string)
| ModuleNotFoundError (name : string)
| TypeError (why : string)
| ValueError (why : string)
| IndexError
| KeyError (key : string)
| UnitConversionError
| OverflowError (why : string)
| TracerBoolConversionError.

Inductive value : Type :=
| VNone
| VBool (b : bool)
| VInt (n : Z)
| VFloat (literal : option string)
| VStr (s : string)
| VTuple (items : list value)
| VDict (entries : list (string * value))
| VArray (a : array)
| VQuantity (a : array) (u : unit_expr)
| VUnit (u : unit_expr)
| VModule (name : string)
| VGenerator (src : origin)
| VDef (name : string) (params : list string) (body : list stmt)
| VLambda (params : list string) (body : expr) (captured : list (string * value))
| VLib (name : string)
| VMethod (self : value) (name : string)
| VJit (f : value)
| VGrad (f : value) (argnum : Z)
| VVmap (f : value) (in_axes : value)
| VQuaxGrad (f : value)
| VArtist (what : string) (src : origin).

(** What a call comes to: a value, a Python exception, a situation the
    model does not cover, or an exhausted evaluation depth. *)
Inductive result (A : Type) : Type :=
| Ok (a : A)
| Raise (e : exception)
| Stuck (why : string)
| OutOfFuel.

Arguments Ok {A} a.
Arguments Raise {A} e.
Arguments Stuck {A} why.
Arguments OutOfFuel {A}.

Definition rbind {A B : Type} (r : result A) (k : A -> result B) : result B :=
  match r with
  | Ok a => k a
  | Raise e => Raise e
  | Stuck why => Stuck why
  | OutOfFuel => OutOfFuel
  end.

Notation "x <~ r ;; k" := (rbind r (fun x => k))
  (at level 61, r at next level, right associativity).

Definition rmap {A B : Type} (f : A -> result B) : list A -> result (list B) :=
  fix go (l : list A) : result (list B) :=
    match l with
    | [] => Ok []
    | x :: rest => rbind (f x) (fun y => rbind (go rest) (fun ys => Ok (y :: ys)))
    end.

(** *** Origins, kinds, shapes *)

Definition join (a b : origin) : origin :=
  match a with
  | Fixed => b
  | Entropy _ => a
  end.

Definition kind_rank (k : kind) : nat :=
  match k with
  | KBool => 0
  | KInt => 1
  | KFloat => 2
  end.

Definition promote (a b : kind) : kind :=
  if (kind_rank a <=? kind_rank b)%nat then b else a.

Definition owner_of (a b : owner) : owner :=
  match a, b with
  | NumPy, NumPy => NumPy
  | _, _ => Jax
  end.

(** NumPy broadcasting of two shapes, aligned at the last axis. *)
Fixpoint broadcast_rev (a b : list Z) : option (list Z) :=
  match a, b with
  | [], _ => Some b
  | _, [] => Some a
  | x :: a', y :: b' =>
      match broadcast_rev a' b' with
      | Some rest =>
          if (x =? y)%Z then Some (x :: rest)
          else if (x =? 1)%Z then Some (y :: rest)
          else if (y =? 1)%Z then Some (x :: rest)
          else None
      | None => None
      end
  end.

Definition broadcast (a b : list Z) : option (list Z) :=
  match broadcast_rev (rev a) (rev b) with
  | Some r => Some (rev r)
  | None => None
  end.

Definition size (sh : list Z) : Z := fold_right Z.mul 1%Z sh.

Definition ndim (a : array) : nat := List.length (shape a).

Fixpoint shape_eqb (a b : list Z) : bool :=
  match a, b with
  | [], [] => true
  | x :: a', y :: b' => (x =? y)%Z && shape_eqb a' b'
  | _, _ => false
  end.

Definition kind_eqb (a b : kind) : bool := Nat.eqb (kind_rank a) (kind_rank b).

Fixpoint unit_eqb (a b : unit_expr) : bool :=
  match a, b with
  | UnitOf s, UnitOf t => String.eqb s t
  | UnitDiv a1 a2, UnitDiv b1 b2 => unit_eqb a1 b1 && unit_eqb a2 b2
  | UnitMul a1 a2, UnitMul b1 b2 => unit_eqb a1 b1 && unit_eqb a2 b2
  | _, _ => false
  end.

(** A Python number seen as a zero-dimensional JAX array. *)
Definition scalar (k : kind) : array :=
  {| lib := Jax; dtype := k; shape := []; source := Fixed; concrete := true |}.

(** What JAX and NumPy accept where they expect an array. *)
Definition as_array (v : value) : option array :=
  match v with
  | VBool _ => Some (scalar KBool)
  | VInt _ => Some (scalar KInt)
  | VFloat _ => Some (scalar KFloat)
  | VArray a => Some a
  | _ => None
  end.

(** Whether a value is a plain Python number. *)
Definition python_number (v : value) : bool :=
  match v with
  | VBool _ | VInt _ | VFloat _ => true
  | _ => false
  end.

(** *** Literals *)

Definition digit (c : ascii) : option Z :=
  let n := nat_of_ascii c in
  if ((48 <=? n) && (n <=? 57))%nat then Some (Z.of_nat (n - 48)) else None.

(** An integer literal; underscores group digits. *)
Fixpoint int_literal (acc : Z) (s : string) : option Z :=
  match s with
  | EmptyString => Some acc
  | String c rest =>
      if Ascii.eqb c "_" then int_literal acc rest
      else match digit c with
           | Some d => int_literal (acc * 10 + d) rest
           | None => None
           end
  end.

Definition int_value (text : string) : option Z :=
  match text with
  | EmptyString => None
  | _ => int_literal 0 text
  end.

(** The smallest integer not below a float literal [digits.digits]. *)
Fixpoint split_point (whole : string) (s : string) : string * string :=
  match s with
  | EmptyString => (whole, EmptyString)
  | String c rest =>
      if Ascii.eqb c "." then (whole, rest)
      else split_point (whole ++ String c EmptyString) rest
  end.

Fixpoint all_zero (s : string) : bool :=
  match s with
  | EmptyString => true
  | String c rest => Ascii.eqb c "0" && all_zero rest
  end.

Definition float_ceiling (text : string) : option Z :=
  let (whole, fraction) := split_point EmptyString text in
  match int_value whole, int_literal 0 fraction with
  | Some n, Some _ => Some (if all_zero fraction then n else n + 1)%Z
  | _, _ => None
  end.

(** A float literal between two integers: [lo <= x < hi].  The literal is
    digits with an optional point and an optional exponent. *)
Fixpoint split_exponent (mantissa : string) (s : string) : string * option string :=
  match s with
  | EmptyString => (mantissa, None)
  | String c rest =>
      if Ascii.eqb c "e" || Ascii.eqb c "E" then (mantissa, Some rest)
      else split_exponent (mantissa ++ String c EmptyString) rest
  end.

Definition exponent_value (s : string) : option Z :=
  match s with
  | String c rest =>
      if Ascii.eqb c "+" then int_value rest
      else if Ascii.eqb c "-" then option_map Z.opp (int_value rest)
      else int_value s
  | EmptyString => None
  end.

Definition float_whole (text : string) : option Z :=
  let (whole, fraction) := split_point EmptyString text in
  match int_value whole, int_literal 0 fraction with
  | Some n, Some _ => Some n
  | _, _ => None
  end.

Definition float_bounds (text : string) : option (Z * Z) :=
  let (mantissa, exponent) := split_exponent EmptyString text in
  match float_whole mantissa, exponent with
  | Some n, None => Some (n, n + 1)%Z
  | Some n, Some e =>
      match exponent_value e with
      | Some k =>
          if (0 <=? k)%Z then Some (n * 10 ^ k, (n + 1) * 10 ^ k)%Z
          else Some (0, n + 1)%Z
      | None => None
      end
  | None, _ => None
  end.

(** Python's own power of a float: the result is a float when it is
    finite, and [OverflowError] is raised when it is beyond the largest
    float (just below [2 ^ 1024]).  The two tests are safe bounds by the
    literal: what lies between them, and a float that was computed, is left
    open. *)
Definition power_is_finite (literal : option string) (b : Z) : bool :=
  match literal with
  | Some text =>
      match float_bounds text with
      | Some (_, hi) => (hi ^ b <? 2 ^ 1023)%Z
      | None => false
      end
  | None => false
  end.

Definition power_overflows (literal : option string) (b : Z) : bool :=
  match literal with
  | Some text =>
      match float_bounds text with
      | Some (lo, hi) => ((hi <? 2 ^ 1023) && (2 ^ 1025 <=? lo ^ b))%Z
      | None => false
      end
  | None => false
  end.

Definition float_power (literal : option string) (b : Z) : result value :=
  if power_is_finite literal b then Ok (VFloat None)
  else if power_overflows literal b
       then Raise (OverflowError "Numerical result out of range")
       else Stuck "power of a float of unknown size".

Definition constant_value (c : constant) : result value :=
  match c with
  | CNone => Ok VNone
  | CTrue => Ok (VBool true)
  | CInt t =>
      match int_value t with
      | Some n => Ok (VInt n)
      | None => Stuck "integer literal"
      end
  | CFloat t => Ok (VFloat (Some t))
  | CStr s => Ok (VStr s)
  end.

(** *** Arithmetic *)

Definition array_op (op : binop) (a b : array) : result value :=
  match broadcast (shape a) (shape b) with
  | Some sh =>
      Ok (VArray
            {| lib := owner_of (lib a) (lib b);
               dtype := match op with
                        | Div => KFloat
                        | _ => promote (dtype a) (dtype b)
                        end;
               shape := sh;
               source := join (source a) (source b);
               concrete := concrete a && concrete b |})
  | None =>
      match owner_of (lib a) (lib b) with
      | NumPy => Raise (ValueError "operands could not be broadcast together")
      | Jax => Raise (TypeError "incompatible shapes for broadcasting")
      end
  end.

(** A Python number next to an array takes the array's library. *)
Definition beside (a : array) (v : value) : option array :=
  match as_array v with
  | Some s => if python_number v
              then Some {| lib := lib a; dtype := dtype s; shape := [];
                           source := Fixed; concrete := true |}
              else Some s
  | None => None
  end.

(** An integer that Python converts to a float without overflow. *)
Definition float_sized (n : Z) : bool := (Z.abs n <? 2 ^ 1023)%Z.

(** Python's arithmetic of two of its own numbers.  Integers are exact;
    an integer beside a float is converted to a float first; sums,
    differences and products of floats are floats, infinite when they go
    beyond the range; divisions by zero, powers to a float or to a negative
    integer and the arithmetic of Booleans are left open. *)
Definition number_op (op : binop) (x y : value) : result value :=
  match x, y with
  | VInt a, VInt b =>
      match op with
      | Add => Ok (VInt (a + b))
      | Sub => Ok (VInt (a - b))
      | Mult => Ok (VInt (a * b))
      | Div =>
          if (b =? 0)%Z then Stuck "division by zero"
          else if float_sized a then Ok (VFloat None)
          else Stuck "integer beyond the floats"
      | Pow => if (0 <=? b)%Z then Ok (VInt (a ^ b)) else Stuck "negative power of an integer"
      end
  | VFloat literal, VInt b =>
      if float_sized b then
        match op with
        | Div => if (b =? 0)%Z then Stuck "division by zero" else Ok (VFloat None)
        | Pow => if (0 <=? b)%Z then float_power literal b else Stuck "negative power of a float"
        | _ => Ok (VFloat None)
        end
      else Stuck "integer beyond the floats"
  | VInt a, VFloat _ =>
      if float_sized a then
        match op with
        | Div => Stuck "division by a float"
        | Pow => Stuck "power to a float"
        | _ => Ok (VFloat None)
        end
      else Stuck "integer beyond the floats"
  | VFloat _, VFloat _ =>
      match op with
      | Div => Stuck "division by a float"
      | Pow => Stuck "power to a float"
      | _ => Ok (VFloat None)
      end
  | _, _ => Stuck "arithmetic of a Boolean"
  end.

Definition quantity_op (op : binop) (x y : value) : result value :=
  match x, y with
  | VQuantity a u, VQuantity b v =>
      rbind (array_op op a b) (fun r =>
        match r, op with
        | VArray c, Add | VArray c, Sub =>
            if unit_eqb u v then Ok (VQuantity c u) else Stuck "unit conversion"
        | VArray c, Mult => Ok (VQuantity c (UnitMul u v))
        | VArray c, Div => Ok (VQuantity c (UnitDiv u v))
        | _, _ => Stuck "power of a quantity"
        end)
  | VQuantity a u, other =>
      match beside a other, op with
      | Some b, Mult | Some b, Div =>
          rbind (array_op op a b) (fun r =>
            match r with
            | VArray c => Ok (VQuantity c u)
            | _ => Stuck "quantity"
            end)
      | Some _, Add | Some _, Sub => Raise UnitConversionError
      | _, _ => Stuck "quantity arithmetic"
      end
  | other, VQuantity b v =>
      match beside b other, op with
      | Some a, Mult =>
          rbind (array_op op a b) (fun r =>
            match r with
            | VArray c => Ok (VQuantity c v)
            | _ => Stuck "quantity"
            end)
      | Some _, Add | Some _, Sub => Raise UnitConversionError
      | _, _ => Stuck "quantity arithmetic"
      end
  | _, _ => Stuck "quantity arithmetic"
  end.

Definition is_quantity (v : value) : bool :=
  match v with
  | VQuantity _ _ => true
  | _ => false
  end.

(** The two operands of an operation on arrays, when one of them is an
    array and the other an array or a Python number. *)
Definition operands (x y : value) : option (array * array) :=
  match x with
  | VArray a =>
      match beside a y with
      | Some b => Some (a, b)
      | None => None
      end
  | _ =>
      match y with
      | VArray b =>
          match beside b x with
          | Some a => Some (a, b)
          | None => None
          end
      | _ => None
      end
  end.

Definition binary (op : binop) (x y : value) : result value :=
  if is_quantity x || is_quantity y then quantity_op op x y
  else if python_number x && python_number y then number_op op x y
  else
    match operands x y with
    | Some (a, b) => array_op op a b
    | None => Raise (TypeError "unsupported operand type")
    end.

Definition negate (x : value) : result value :=
  match x with
  | VBool b => Ok (VInt (if b then -1 else 0))
  | VInt n => Ok (VInt (- n))
  | VFloat _ => Ok (VFloat None)
  | VArray a => Ok (VArray a)
  | VQuantity a u => Ok (VQuantity a u)
  | VNone | VStr _ | VTuple _ | VDict _ => Raise (TypeError "bad operand type for unary -")
  | _ => Stuck "negation"
  end.

Definition with_kind (k : kind) (v : value) : value :=
  match v with
  | VArray a =>
      VArray {| lib := lib a; dtype := k; shape := shape a;
                source := source a; concrete := concrete a |}
  | _ => v
  end.

Definition greater_arrays (x y : value) : result value :=
  if python_number x && python_number y then Stuck "comparison of floats"
  else
    match operands x y with
    | Some (a, b) => rbind (array_op Sub a b) (fun r => Ok (with_kind KBool r))
    | None => Raise (TypeError "comparison not supported")
    end.

Definition greater (x y : value) : result value :=
  match x, y with
  | VInt a, VInt b => Ok (VBool (b <? a)%Z)
  | _, _ => greater_arrays x y
  end.

(** [container[index]] *)
Definition subscript (container index : value) : result value :=
  match container, index with
  | VTuple items, VInt i =>
      if ((0 <=? i) && (i <? Z.of_nat (List.length items)))%Z
      then match nth_error items (Z.to_nat i) with
           | Some v => Ok v
           | None => Raise IndexError
           end
      else Raise IndexError
  | VDict entries, VStr k =>
      match assoc k entries with
      | Some v => Ok v
      | None => Raise (KeyError k)
      end
  | VArray a, VInt i =>
      match shape a with
      | [] => Raise IndexError
      | n :: rest =>
          if ((0 <=? i) && (i <? n))%Z
          then Ok (VArray {| lib := lib a; dtype := dtype a; shape := rest;
                             source := source a; concrete := concrete a |})
          else Raise IndexError
      end
  | _, _ => Stuck "subscript"
  end.


(** *** Attributes and library functions without callbacks *)

(** The modules the environment provides, with the names the cells take
    from them: [(module, attribute)]. *)
Definition library_functions : list (string * string) :=
  [ ("jax", "jit"); ("jax", "grad"); ("jax", "vmap");
    ("jax.lax", "dynamic_slice"); ("jax.lax", "cond");
    ("jax.numpy", "log"); ("jax.numpy", "exp"); ("jax.numpy", "cos");
    ("jax.numpy", "sum"); ("jax.numpy", "arange"); ("jax.numpy", "argmin");
    ("jax.numpy", "vander"); ("jax.numpy", "linspace");
    ("jax.numpy.linalg", "lstsq");
    ("numpy.random", "normal"); ("numpy.random", "default_rng");
    ("matplotlib.pyplot", "figure"); ("matplotlib.pyplot", "plot");
    ("matplotlib.pyplot", "scatter"); ("matplotlib.pyplot", "xlabel");
    ("matplotlib.pyplot", "ylabel"); ("matplotlib.pyplot", "legend");
    ("matplotlib.pyplot", "errorbar");
    ("unxt", "Quantity");
    ("quaxed", "grad") ].

Definition submodules : list (string * string) :=
  [ ("jax", "numpy"); ("jax", "lax"); ("jax.numpy", "linalg"); ("numpy", "random") ].

Definition modules : list string :=
  ["jax"; "jax.numpy"; "jax.lax"; "jax.numpy.linalg"; "numpy"; "numpy.random";
   "matplotlib"; "matplotlib.pyplot"; "unxt"; "quaxed"].

Definition listed (m a : string) (table : list (string * string)) : bool :=
  existsb (fun p => String.eqb m (fst p) && String.eqb a (snd p)) table.

Definition qualified (m a : string) : string := m ++ "." ++ a.

Definition transpose (a : array) : array :=
  {| lib := lib a; dtype := dtype a; shape := rev (shape a);
     source := source a; concrete := concrete a |}.

(** [v.a] *)
Definition attribute (v : value) (a : string) : result value :=
  match v with
  | VModule m =>
      if listed m a library_functions then Ok (VLib (qualified m a))
      else if listed m a submodules then Ok (VModule (qualified m a))
      else if String.eqb m "jax.numpy" && String.eqb a "pi" then Ok (VFloat None)
      else Raise (AttributeError a)
  | VArray arr =>
      if String.eqb a "T" then Ok (VArray (transpose arr))
      else if String.eqb a "block_until_ready" then
        match lib arr with
        | Jax => Ok (VMethod v a)
        | NumPy => Raise (AttributeError a)
        end
      else Raise (AttributeError a)
  | VQuantity arr u =>
      if String.eqb a "unit" then Ok (VUnit u)
      else if String.eqb a "block_until_ready" then Ok (VMethod v a)
      else Raise (AttributeError a)
  | VGenerator _ =>
      if String.eqb a "uniform" || String.eqb a "normal" then Ok (VMethod v a)
      else Raise (AttributeError a)
  | _ => Raise (AttributeError a)
  end.

Definition keyword (k : string) (kws : list (string * value)) : option value :=
  assoc k kws.

Definition only_keywords (allowed : list string) (kws : list (string * value)) : bool :=
  forallb (fun kv => Text.mem (fst kv) allowed) kws.

(** The [size] of a draw: an integer or a tuple of integers. *)
Definition shape_of_size (v : option value) : result (list Z) :=
  match v with
  | None => Ok []
  | Some VNone => Ok []
  | Some (VInt n) =>
      if (0 <=? n)%Z then Ok [n] else Raise (ValueError "negative dimensions are not allowed")
  | Some (VTuple items) =>
      rmap (fun i => match i with
                     | VInt n =>
                         if (0 <=? n)%Z then Ok n
                         else Raise (ValueError "negative dimensions are not allowed")
                     | _ => Raise (TypeError "size must be integers")
                     end) items
  | Some _ => Raise (TypeError "size must be an integer or a tuple of integers")
  end.

Definition jax_array (k : kind) (sh : list Z) (src : origin) (c : bool) : value :=
  VArray {| lib := Jax; dtype := k; shape := sh; source := src; concrete := c |}.

(** Remove axis [k] of a shape. *)
Fixpoint drop_axis (k : nat) (sh : list Z) : option (list Z) :=
  match k, sh with
  | O, _ :: rest => Some rest
  | S k', d :: rest =>
      match drop_axis k' rest with
      | Some r => Some (d :: r)
      | None => None
      end
  | _, [] => None
  end.

(** [jnp.log], [jnp.exp], [jnp.cos]: element by element. *)
Definition elementwise (args : list value) (kws : list (string * value)) : result value :=
  match args, kws with
  | [v], [] =>
      match as_array v with
      | Some a => Ok (jax_array KFloat (shape a) (source a) (concrete a))
      | None => Raise (TypeError "requires ndarray or scalar arguments")
      end
  | _, _ => Raise (TypeError "takes exactly one argument")
  end.

(** [jnp.sum(a, axis=None)] *)
Definition jnp_sum (args : list value) (kws : list (string * value)) : result value :=
  match args with
  | [v] =>
      if only_keywords ["axis"] kws then
        match as_array v with
        | Some a =>
            let k := match dtype a with
                     | KFloat => KFloat
                     | _ => KInt
                     end in
            match keyword "axis" kws with
            | None | Some VNone => Ok (jax_array k [] (source a) (concrete a))
            | Some (VInt ax) =>
                let n := Z.of_nat (ndim a) in
                let ax' := if (ax <? 0)%Z then (ax + n)%Z else ax in
                if ((0 <=? ax') && (ax' <? n))%Z then
                  match drop_axis (Z.to_nat ax') (shape a) with
                  | Some sh => Ok (jax_array k sh (source a) (concrete a))
                  | None => Raise (ValueError "axis is out of bounds")
                  end
                else Raise (ValueError "axis is out of bounds")
            | Some _ => Stuck "axis"
            end
        | None => Raise (TypeError "requires ndarray or scalar arguments")
        end
      else Raise (TypeError "unexpected keyword argument")
  | _ => Raise (TypeError "takes exactly one positional argument")
  end.

(** [jnp.arange(stop)] and [jnp.arange(start, stop)] *)
Definition jnp_arange (args : list value) (kws : list (string * value)) : result value :=
  match args, kws with
  | [VInt stop], [] => Ok (jax_array KInt [Z.max 0 stop] Fixed true)
  | [VInt start; VInt stop], [] => Ok (jax_array KInt [Z.max 0 (stop - start)] Fixed true)
  | [VFloat (Some text)], [] =>
      match float_ceiling text with
      | Some n => Ok (jax_array KFloat [Z.max 0 n] Fixed true)
      | None => Stuck "float literal"
      end
  | [VArray a], [] =>
      if concrete a then Stuck "arange of an array"
      else Raise (TypeError "arange requires concrete arguments")
  | _, _ => Stuck "arange"
  end.

(** [jnp.argmin(a)]: the index into the flattened array. *)
Definition jnp_argmin (args : list value) (kws : list (string * value)) : result value :=
  match args, kws with
  | [VArray a], [] =>
      if (0 <? size (shape a))%Z then Ok (jax_array KInt [] (source a) (concrete a))
      else Raise (ValueError "attempt to get argmin of an empty sequence")
  | _, _ => Stuck "argmin"
  end.

(** [jnp.vander(x, N, increasing=False)] *)
Definition jnp_vander (args : list value) (kws : list (string * value)) : result value :=
  match args with
  | [VArray x; VInt n] =>
      if only_keywords ["increasing"] kws then
        match shape x with
        | [len] =>
            if (0 <=? n)%Z then Ok (jax_array (dtype x) [len; n] (source x) (concrete x))
            else Raise (ValueError "N must be nonnegative")
        | _ => Raise (ValueError "x must be a one-dimensional array")
        end
      else Raise (TypeError "unexpected keyword argument")
  | _ => Stuck "vander"
  end.

(** [jnp.linspace(start, stop, num)] *)
Definition jnp_linspace (args : list value) (kws : list (string * value)) : result value :=
  match args, kws with
  | [start; stop; VInt num], [] =>
      if python_number start && python_number stop then
        if (0 <=? num)%Z then Ok (jax_array KFloat [num] Fixed true)
        else Raise (ValueError "Number of samples cannot be negative")
      else Stuck "linspace"
  | _, _ => Stuck "linspace"
  end.

(** [jnp.linalg.lstsq(a, b, rcond=None)]: the solution, the residuals, the
    rank and the singular values. *)
Definition jnp_lstsq (args : list value) (kws : list (string * value)) : result value :=
  match args with
  | [VArray a; VArray b] =>
      if only_keywords ["rcond"] kws then
        let src := join (source a) (source b) in
        let c := concrete a && concrete b in
        match shape a, shape b with
        | [m; n], [m'] =>
            if (m =? m')%Z then
              Ok (VTuple [jax_array KFloat [n] src c; jax_array KFloat [1%Z] src c;
                          jax_array KInt [] src c; jax_array KFloat [Z.min m n] src c])
            else Raise (ValueError "the number of rows of a and b must match")
        | [m; n], [m'; k] =>
            if (m =? m')%Z then
              Ok (VTuple [jax_array KFloat [n; k] src c; jax_array KFloat [k] src c;
                          jax_array KInt [] src c; jax_array KFloat [Z.min m n] src c])
            else Raise (ValueError "the number of rows of a and b must match")
        | _, _ => Raise (TypeError "a must be two-dimensional and b one- or two-dimensional")
        end
      else Raise (TypeError "unexpected keyword argument")
  | _ => Stuck "lstsq"
  end.

(** A start index of a slice: an integer or a zero-dimensional integer
    array; gives whether it is concrete and where it comes from. *)
Definition slice_start (v : value) : result (bool * origin) :=
  match v with
  | VInt _ => Ok (true, Fixed)
  | VArray a =>
      match shape a, dtype a with
      | [], KInt => Ok (concrete a, source a)
      | [], _ => Raise (TypeError "index arguments to dynamic_slice must be integers")
      | _ :: _, _ => Stuck "start index with axes"
      end
  | _ => Stuck "start index"
  end.

(** The sizes of a slice, integers. *)
Definition slice_sizes (items : list value) : result (list Z) :=
  rmap (fun i => match i with
                 | VInt n => Ok n
                 | VNone | VFloat _ | VStr _ =>
                     Raise (TypeError "Shapes must be 1D sequences of concrete values of integer type")
                 | _ => Stuck "slice size"
                 end) items.

Fixpoint sizes_fit (sizes dims : list Z) : bool :=
  match sizes, dims with
  | [], [] => true
  | s :: sizes', d :: dims' => (0 <=? s)%Z && (s <=? d)%Z && sizes_fit sizes' dims'
  | _, _ => false
  end.

(** [jax.lax.dynamic_slice(operand, start_indices, slice_sizes)] *)
Definition lax_dynamic_slice (args : list value) (kws : list (string * value))
  : result value :=
  match args, kws with
  | [VArray a; VTuple starts; VTuple sizes], [] =>
      if Nat.eqb (List.length starts) (ndim a) then
        rbind (slice_sizes sizes) (fun sh =>
          if sizes_fit sh (shape a) then
            rbind (rmap slice_start starts) (fun ss =>
              Ok (jax_array (dtype a) sh
                    (fold_left join (map snd ss) (source a))
                    (forallb fst ss && concrete a)))
          else Raise (TypeError "slice sizes must fit the operand"))
      else Raise (ValueError "Length of slice indices must match number of operand dimensions")
  | _, _ => Stuck "dynamic_slice"
  end.

(** [len(x)] *)
Definition builtin_len (args : list value) (kws : list (string * value)) : result value :=
  match args, kws with
  | [VArray a], [] =>
      match shape a with
      | n :: _ => Ok (VInt n)
      | [] => Raise (TypeError "len() of unsized object")
      end
  | [VTuple items], [] => Ok (VInt (Z.of_nat (List.length items)))
  | [VDict entries], [] => Ok (VInt (Z.of_nat (List.length entries)))
  | [VStr s], [] => Ok (VInt (Z.of_nat (String.length s)))
  | _, _ => Raise (TypeError "object has no len()")
  end.

(** [Generator.uniform(low, high, size)] and [Generator.normal(loc, scale,
    size)]: every argument must broadcast to the requested shape. *)
Definition draw (src : origin) (args : list value) (kws : list (string * value))
  : result value :=
  if only_keywords ["size"] kws then
    rbind (shape_of_size (keyword "size" kws)) (fun sh =>
    rbind (rmap (fun v => match as_array v with
                          | Some a => Ok a
                          | None => Raise (TypeError "a number or an array is required")
                          end) args) (fun params =>
      if forallb (fun a => match broadcast (shape a) sh with
                           | Some sh' => shape_eqb sh' sh
                           | None => false
                           end) params
      then Ok (VArray {| lib := NumPy; dtype := KFloat; shape := sh;
                         source := fold_left join (map source params) src;
                         concrete := true |})
      else Raise (ValueError "shape mismatch: objects cannot be broadcast to a single shape")))
  else Raise (TypeError "unexpected keyword argument").

(** [unxt.Quantity(value, unit)] *)
Definition make_quantity (args : list value) (kws : list (string * value)) : result value :=
  match args, kws with
  | [v; VStr unit], [] =>
      match as_array v with
      | Some a =>
          Ok (VQuantity {| lib := Jax; dtype := dtype a; shape := shape a;
                           source := source a; concrete := concrete a |}
                (UnitOf unit))
      | None => Raise (TypeError "a number or an array is required")
      end
  | _, _ => Stuck "Quantity"
  end.

(** *** Matplotlib: what is drawn *)

Definition arrays_of (args : list value) : list array :=
  flat_map (fun v => match v with
                     | VArray a => [a]
                     | _ => []
                     end) args.

Definition first_dim (a : array) : Z :=
  match shape a with
  | n :: _ => n
  | [] => 1%Z
  end.

Definition drawn_from (args : list value) (kws : list (string * value)) : origin :=
  fold_left join (map source (arrays_of (args ++ map snd kws)%list)) Fixed.

(** The artist a plotting call creates; [ValueError] when the data do not
    line up. *)
Definition pyplot (name : string) (args : list value) (kws : list (string * value))
  : result value :=
  let src := drawn_from args kws in
  if String.eqb name "figure" then Ok (VArtist "Figure" Fixed)
  else if String.eqb name "plot" then
    match arrays_of args with
    | [_] => Ok (VArtist "Line2D" src)
    | [x; y] =>
        if (first_dim x =? first_dim y)%Z then Ok (VArtist "Line2D" src)
        else Raise (ValueError "x and y must have same first dimension")
    | _ => Stuck "plot"
    end
  else if String.eqb name "scatter" then
    match args with
    | [VArray x; VArray y] =>
        if (size (shape x) =? size (shape y))%Z then Ok (VArtist "PathCollection" src)
        else Raise (ValueError "x and y must be the same size")
    | _ => Stuck "scatter"
    end
  else if String.eqb name "errorbar" then
    match args, keyword "yerr" kws with
    | [VArray x; VArray y], Some (VArray err) =>
        if (first_dim x =? first_dim y)%Z then
          match broadcast (shape err) (shape y) with
          | Some sh => if shape_eqb sh (shape y)
                       then Ok (VArtist "ErrorbarContainer" src)
                       else Raise (ValueError "'yerr' must not be larger than 'y'")
          | None => Raise (ValueError "'yerr' must not be larger than 'y'")
          end
        else Raise (ValueError "x and y must have same first dimension")
    | _, _ => Stuck "errorbar"
    end
  else if String.eqb name "xlabel" || String.eqb name "ylabel" then
    match args with
    | [VStr _] => Ok (VArtist "Text" Fixed)
    | _ => Stuck "label"
    end
  else if String.eqb name "legend" then Ok (VArtist "Legend" Fixed)
  else Stuck "pyplot".

(** *** The kernel and its monad *)

(** What a cell leaves on the page. *)
Inductive output : Type :=
| Timing (magic : string)
| Printed (line : string)
| Shown (v : value)
| Figure (artists : list value)
| Traceback (e : exception).

Record world : Type := World {
  globals : list (string * value);
  entropy : Z;
  canvas : list value;
  outputs : list output
}.

(** A fresh kernel: an empty namespace; [seed] is what the operating
    system hands to NumPy's global generator. *)
Definition fresh (seed : Z) : world :=
  {| globals := []; entropy := seed; canvas := []; outputs := [] |}.

Definition M (A : Type) : Type := world -> result A * world.

Definition ret {A : Type} (a : A) : M A := fun w => (Ok a, w).

(** Sequencing: whatever is not a value ends the computation and is handed
    on as it is. *)
Definition bind {A B : Type} (m : M A) (k : A -> M B) : M B :=
  fun w =>
    match m w with
    | (Ok a, w') => k a w'
    | (Raise e, w') => (Raise e, w')
    | (Stuck why, w') => (Stuck why, w')
    | (OutOfFuel, w') => (OutOfFuel, w')
    end.

Notation "x <- m ;; k" := (bind m (fun x => k))
  (at level 61, m at next level, right associativity).

Definition lift {A : Type} (r : result A) : M A := fun w => (r, w).

Definition raise {A : Type} (e : exception) : M A := lift (Raise e).

Definition mapM {A B : Type} (f : A -> M B) : list A -> M (list B) :=
  fix go (l : list A) : M (list B) :=
    match l with
    | [] => ret []
    | x :: rest => y <- f x ;; ys <- go rest ;; ret (y :: ys)
    end.

Definition emit (o : output) : M unit :=
  fun w => (Ok tt, {| globals := globals w; entropy := entropy w;
                      canvas := canvas w; outputs := (outputs w ++ [o])%list |}).

Definition paint (artist : value) : M unit :=
  fun w => (Ok tt, {| globals := globals w; entropy := entropy w;
                      canvas := (canvas w ++ [artist])%list; outputs := outputs w |}).

(** Rebind a name where it stands, or bind it after the others. *)
Fixpoint update (name : string) (v : value) (l : list (string * value))
  : list (string * value) :=
  match l with
  | [] => [(name, v)]
  | (n, old) :: rest =>
      if String.eqb name n then (n, v) :: rest else (n, old) :: update name v rest
  end.

Definition set_global (name : string) (v : value) : M unit :=
  fun w => (Ok tt, {| globals := update name v (globals w); entropy := entropy w;
                      canvas := canvas w; outputs := outputs w |}).

(** The locals of a running function: the names the function binds
    anywhere in its body, and those bound so far. *)
Record frame : Type := Frame {
  local_names : list string;
  bound : list (string * value)
}.

Inductive signal : Type :=
| Normal
| Returned (v : value).

Definition lookup (loc : option frame) (name : string) : M value :=
  fun w =>
    let global :=
      match assoc name (globals w) with
      | Some v => Ok v
      | None => if Text.mem name Names.builtins then Ok (VLib name)
                else Raise (NameError name)
      end in
    match loc with
    | None => (global, w)
    | Some f =>
        match assoc name (bound f) with
        | Some v => (Ok v, w)
        | None => if Text.mem name (local_names f)
                  then (Raise (UnboundLocalError name), w)
                  else (global, w)
        end
    end.

Definition store (loc : option frame) (name : string) (v : value) : M (option frame) :=
  match loc with
  | None => _ <- set_global name v ;; ret None
  | Some f => ret (Some {| local_names := local_names f;
                           bound := update name v (bound f) |})
  end.

(** Parameters bound to positional and keyword arguments. *)
Fixpoint bind_params (params : list string) (args : list value)
    (kws : list (string * value)) : result (list (string * value)) :=
  match params, args with
  | [], [] =>
      match kws with
      | [] => Ok []
      | _ :: _ => Raise (TypeError "got an unexpected keyword argument")
      end
  | [], _ :: _ => Raise (TypeError "takes fewer positional arguments")
  | p :: params', a :: args' =>
      if Text.mem p (map fst kws)
      then Raise (TypeError "got multiple values for an argument")
      else rbind (bind_params params' args' kws) (fun rest => Ok ((p, a) :: rest))
  | p :: params', [] =>
      match assoc p kws with
      | Some v =>
          rbind (bind_params params' []
                   (filter (fun kv => negb (String.eqb p (fst kv))) kws))
                (fun rest => Ok ((p, v) :: rest))
      | None => Raise (TypeError "missing a required positional argument")
      end
  end.

(** *** Tracing *)

Definition retag (o : owner) (c : bool) (a : array) : array :=
  {| lib := o; dtype := dtype a; shape := shape a; source := source a; concrete := c |}.

(** The Python integers that fit JAX's default integer type. *)
Definition int32 (n : Z) : bool := ((- 2 ^ 31 <=? n) && (n <? 2 ^ 31))%Z.

(** Whether a value is not a Python integer beyond that type. *)
Definition in_int32 (v : value) : bool :=
  match v with
  | VInt n => int32 n
  | _ => true
  end.

(** The leaves of an argument replaced by tracers, as [jit] does; a Python
    integer must fit the default integer type. *)
Fixpoint traced (v : value) : result value :=
  match v with
  | VNone => Ok VNone
  | VInt n =>
      if int32 n then Ok (VArray (retag Jax false (scalar KInt)))
      else Raise (OverflowError "Python int too large to convert to int32")
  | VBool _ | VFloat _ =>
      match as_array v with
      | Some a => Ok (VArray (retag Jax false a))
      | None => Stuck "number"
      end
  | VArray a => Ok (VArray (retag Jax false a))
  | VQuantity a u => Ok (VQuantity (retag Jax false a) u)
  | VTuple items => rbind (rmap traced items) (fun vs => Ok (VTuple vs))
  | VDict entries =>
      rbind (rmap (fun kv => rbind (traced (snd kv)) (fun v' => Ok (fst kv, v'))) entries)
            (fun es => Ok (VDict es))
  | _ => Raise (TypeError "not a valid JAX type")
  end.

(** Whether no leaf of a value is a tracer. *)
Fixpoint is_concrete (v : value) : bool :=
  match v with
  | VArray a => concrete a
  | VQuantity a _ => concrete a
  | VTuple items => forallb is_concrete items
  | VDict entries => forallb (fun kv => is_concrete (snd kv)) entries
  | _ => true
  end.

(** The result of a transformed function: JAX arrays, concrete when the
    call was made on concrete arguments. *)
Fixpoint settle (c : bool) (v : value) : value :=
  match v with
  | VBool _ | VInt _ | VFloat _ =>
      match as_array v with
      | Some a => VArray (retag Jax c a)
      | None => v
      end
  | VArray a => VArray (retag Jax c a)
  | VQuantity a u => VQuantity (retag Jax c a) u
  | VTuple items => VTuple (map (settle c) items)
  | VDict entries => VDict (map (fun kv => (fst kv, settle c (snd kv))) entries)
  | _ => v
  end.

(** [grad] differentiates with respect to floats only. *)
Fixpoint differentiable (v : value) : bool :=
  match v with
  | VFloat _ => true
  | VArray a => kind_eqb (dtype a) KFloat
  | VQuantity a _ => kind_eqb (dtype a) KFloat
  | VTuple items => forallb differentiable items
  | VDict entries => forallb (fun kv => differentiable (snd kv)) entries
  | _ => false
  end.

(** The argument as [grad] hands it to the function. *)
Fixpoint lifted (v : value) : value :=
  match v with
  | VFloat _ => VArray (scalar KFloat)
  | VArray a => VArray (retag Jax (concrete a) a)
  | VTuple items => VTuple (map lifted items)
  | VDict entries => VDict (map (fun kv => (fst kv, lifted (snd kv))) entries)
  | _ => v
  end.

(** The gradient has the structure of the argument. *)
Fixpoint gradient (src : origin) (c : bool) (v : value) : value :=
  match v with
  | VFloat _ => jax_array KFloat [] src c
  | VArray a => jax_array KFloat (shape a) (join src (source a)) (c && concrete a)
  | VTuple items => VTuple (map (gradient src c) items)
  | VDict entries => VDict (map (fun kv => (fst kv, gradient src c (snd kv))) entries)
  | _ => v
  end.

Fixpoint replace_nth (n : nat) (v : value) (l : list value) : list value :=
  match n, l with
  | _, [] => []
  | O, _ :: rest => v :: rest
  | S n', x :: rest => x :: replace_nth n' v rest
  end.

(** One example of a batched argument under an [in_axes] entry, with the
    batch sizes met on the way. *)
Fixpoint unbatch (spec : value) (v : value) {struct v} : result (value * list Z) :=
  let rank_error :=
    Raise (ValueError "vmap was requested to map its argument along axis 0, which implies that its rank should be at least 1") in
  match spec with
  | VNone => Ok (v, [])
  | VInt 0 =>
      match v with
      | VArray a =>
          match shape a with
          | n :: rest =>
              Ok (VArray {| lib := Jax; dtype := dtype a; shape := rest;
                            source := source a; concrete := false |}, [n])
          | [] => rank_error
          end
      | VBool _ | VInt _ | VFloat _ => rank_error
      | VTuple items =>
          rbind (rmap (unbatch spec) items) (fun rs =>
            Ok (VTuple (map fst rs), flat_map snd rs))
      | VDict entries =>
          rbind (rmap (fun kv => rbind (unbatch spec (snd kv))
                                   (fun r => Ok ((fst kv, fst r), snd r))) entries)
                (fun rs => Ok (VDict (map fst rs), flat_map snd rs))
      | _ => Raise (TypeError "not a valid JAX type")
      end
  | VDict specs =>
      match v with
      | VDict entries =>
          rbind (rmap (fun kv =>
                         match assoc (fst kv) specs with
                         | Some s => rbind (unbatch s (snd kv))
                                       (fun r => Ok ((fst kv, fst r), snd r))
                         | None => Raise (ValueError "in_axes does not match the argument")
                         end) entries)
                (fun rs =>
                   if Nat.eqb (List.length specs) (List.length entries)
                   then Ok (VDict (map fst rs), flat_map snd rs)
                   else Raise (ValueError "in_axes does not match the argument"))
      | _ => Raise (ValueError "in_axes does not match the argument")
      end
  | _ => Stuck "in_axes"
  end.

(** The results of the examples stacked along a new first axis. *)
Fixpoint batched (n : Z) (c : bool) (v : value) : value :=
  let stack (a : array) : array :=
    {| lib := Jax; dtype := dtype a; shape := n :: shape a;
       source := source a; concrete := c |} in
  match v with
  | VBool _ | VInt _ | VFloat _ =>
      match as_array v with
      | Some a => VArray (stack a)
      | None => v
      end
  | VArray a => VArray (stack a)
  | VQuantity a u => VQuantity (stack a) u
  | VTuple items => VTuple (map (batched n c) items)
  | VDict entries => VDict (map (fun kv => (fst kv, batched n c (snd kv))) entries)
  | _ => v
  end.

(** The [in_axes] entry of each positional argument. *)
Definition axes_for (spec : value) (args : list value) : result (list value) :=
  match spec with
  | VTuple specs =>
      if Nat.eqb (List.length specs) (List.length args) then Ok specs
      else Raise (ValueError "vmap in_axes must match the positional arguments")
  | _ => Ok (map (fun _ => spec) args)
  end.

Fixpoint zip {A B : Type} (a : list A) (b : list B) : list (A * B) :=
  match a, b with
  | x :: a', y :: b' => (x, y) :: zip a' b'
  | _, _ => []
  end.

(** Why an array of no or of several elements has no truth value. *)
Definition ambiguous (n : Z) : exception :=
  if (1 <? n)%Z
  then ValueError "The truth value of an array with more than one element is ambiguous"
  else ValueError "The truth value of an empty array is ambiguous".

(** The truth of a value where Python needs one.  Only an array of one
    element can have one, and a tracer of one element has none. *)
Definition truth (v : value) : result bool :=
  match v with
  | VNone => Ok false
  | VBool b => Ok b
  | VInt n => Ok (negb (n =? 0)%Z)
  | VArray a =>
      if (size (shape a) =? 1)%Z then
        if concrete a then Stuck "truth of a computed number"
        else Raise TracerBoolConversionError
      else if concrete a && (size (shape a) <? 1)%Z
           then Stuck "truth of an empty array"
      else Raise (ambiguous (size (shape a)))
  | _ => Stuck "truth"
  end.

(** The items a [for] loop runs over. *)
Definition iterate (v : value) : result (list value) :=
  match v with
  | VTuple items => Ok items
  | VArray a =>
      match shape a with
      | n :: rest =>
          if concrete a then
            Ok (repeat (VArray {| lib := lib a; dtype := dtype a; shape := rest;
                                  source := source a; concrete := true |})
                  (Z.to_nat n))
          else Stuck "iteration over a tracer"
      | [] => Raise (TypeError "iteration over a 0-d array")
      end
  | _ => Raise (TypeError "object is not iterable")
  end.

(** *** Library functions by name *)

Definition library (name : string) (args : list value) (kws : list (string * value))
  : M value :=
  let named (n : string) : bool := String.eqb name n in
  if named "jax.numpy.log" || named "jax.numpy.exp" || named "jax.numpy.cos"
  then lift (elementwise args kws)
  else if named "jax.numpy.sum" then lift (jnp_sum args kws)
  else if named "jax.numpy.arange" then lift (jnp_arange args kws)
  else if named "jax.numpy.argmin" then lift (jnp_argmin args kws)
  else if named "jax.numpy.vander" then lift (jnp_vander args kws)
  else if named "jax.numpy.linspace" then lift (jnp_linspace args kws)
  else if named "jax.numpy.linalg.lstsq" then lift (jnp_lstsq args kws)
  else if named "jax.lax.dynamic_slice" then lift (lax_dynamic_slice args kws)
  else if named "len" then lift (builtin_len args kws)
  else if named "unxt.Quantity" then lift (make_quantity args kws)
  else if named "jax.jit" then
    match args, kws with
    | [f], [] => ret (VJit f)
    | _, _ => lift (Stuck "jit options")
    end
  else if named "jax.grad" then
    match args with
    | [f] =>
        if only_keywords ["argnums"] kws then
          match keyword "argnums" kws with
          | None => ret (VGrad f 0)
          | Some (VInt k) => ret (VGrad f k)
          | Some _ => lift (Stuck "argnums")
          end
        else lift (Stuck "grad options")
    | _ => lift (Stuck "grad")
    end
  else if named "jax.vmap" then
    match args with
    | [f] =>
        if only_keywords ["in_axes"; "out_axes"] kws then
          match keyword "out_axes" kws with
          | None | Some (VInt 0) =>
              ret (VVmap f match keyword "in_axes" kws with
                           | Some spec => spec
                           | None => VInt 0
                           end)
          | Some _ => lift (Stuck "out_axes")
          end
        else lift (Stuck "vmap options")
    | _ => lift (Stuck "vmap")
    end
  else if named "quaxed.grad" then
    match args, kws with
    | [f], [] => ret (VQuaxGrad f)
    | _, _ => lift (Stuck "grad options")
    end
  else if named "numpy.random.normal" then
    fun w => (draw (Entropy (entropy w)) args kws, w)
  else if named "numpy.random.default_rng" then
    match args, kws with
    | [VInt _], [] => ret (VGenerator Fixed)
    | [], [] => fun w => (Ok (VGenerator (Entropy (entropy w))), w)
    | _, _ => lift (Stuck "default_rng")
    end
  else if String.prefix "matplotlib.pyplot." name then
    artist <- lift (pyplot (String.substring 18 (String.length name) name) args kws) ;;
    _ <- paint artist ;;
    ret artist
  else lift (Stuck "library").

(** Methods of generators, arrays and quantities. *)
Definition method (self : value) (name : string) (args : list value)
    (kws : list (string * value)) : M value :=
  match self with
  | VGenerator src => lift (draw src args kws)
  | VArray _ | VQuantity _ _ =>
      match args, kws with
      | [], [] => ret self
      | _, _ => raise (TypeError "block_until_ready() takes no arguments")
      end
  | _ => lift (Stuck "method")
  end.

(** What [grad] makes of the value [r] the function returned for the
    argument [x]: the output must be a real scalar. *)
Definition grad_result (x r : value) : result value :=
  match r with
  | VArray a =>
      match shape a with
      | [] =>
          if kind_eqb (dtype a) KFloat
          then Ok (gradient (source a) (concrete a) x)
          else Raise (TypeError "grad requires real-valued outputs")
      | _ :: _ => Raise (TypeError "Gradient only defined for scalar-output functions")
      end
  | VFloat _ => Ok (gradient Fixed true x)
  | _ => Raise (TypeError "Gradient only defined for scalar-output functions")
  end.

(** What [cond] makes of the values of its two branches: they must have
    the same shape and kind. *)
Definition cond_result (p : array) (r1 r2 : value) : result value :=
  match as_array r1, as_array r2 with
  | Some a, Some b =>
      if shape_eqb (shape a) (shape b) && kind_eqb (dtype a) (dtype b)
      then Ok (jax_array (dtype a) (shape a)
                 (join (source p) (join (source a) (source b)))
                 (concrete p && concrete a && concrete b))
      else Raise (TypeError "true_fun and false_fun output must have identical types")
  | _, _ => Stuck "branches of cond"
  end.

(** *** Expressions, calls and statements *)

Definition out_of_fuel {A : Type} : M A := lift OutOfFuel.

Definition block (step : option frame -> stmt -> M (option frame * signal))
  : option frame -> list stmt -> M (option frame * signal) :=
  fix go (loc : option frame) (body : list stmt) : M (option frame * signal) :=
    match body with
    | [] => ret (loc, Normal)
    | s :: rest =>
        r <- step loc s ;;
        match snd r with
        | Normal => go (fst r) rest
        | Returned _ => ret r
        end
    end.

(** A cell body: like a block, but a last statement that is an expression
    has its value shown, unless the value is [None]. *)
Definition cell_block (step : option frame -> stmt -> M (option frame * signal))
    (show : option frame -> expr -> M unit)
  : option frame -> list stmt -> M (option frame * signal) :=
  fix go (loc : option frame) (body : list stmt) : M (option frame * signal) :=
    match body with
    | [] => ret (loc, Normal)
    | [Expr e] => _ <- show loc e ;; ret (loc, Normal)
    | s :: rest =>
        r <- step loc s ;;
        match snd r with
        | Normal => go (fst r) rest
        | Returned _ => ret r
        end
    end.

(** Comments and blank lines are not statements. *)
Definition statements (body : list stmt) : list stmt :=
  filter (fun s => match s with
                   | Comment _ | Blank => false
                   | _ => true
                   end) body.

(** A loop: bind the target to each item in turn and run the body, until
    the items are used up or the body returns. *)
Definition for_each (bind_item : option frame -> value -> M (option frame))
    (body : option frame -> M (option frame * signal))
  : option frame -> list value -> M (option frame * signal) :=
  fix go (loc : option frame) (l : list value) : M (option frame * signal) :=
    match l with
    | [] => ret (loc, Normal)
    | x :: rest =>
        loc1 <- bind_item loc x ;;
        r <- body loc1 ;;
        match snd r with
        | Normal => go (fst r) rest
        | Returned _ => ret r
        end
    end.

Fixpoint ends_with_expression (body : list stmt) : bool :=
  match body with
  | [] => false
  | [Expr _] => true
  | _ :: rest => ends_with_expression rest
  end.

Definition foldM {A B : Type} (f : B -> A -> M B) : list A -> B -> M B :=
  fix go (l : list A) (b : B) : M B :=
    match l with
    | [] => ret b
    | x :: rest => b' <- f b x ;; go rest b'
    end.

Definition captured_by (loc : option frame) : list (string * value) :=
  match loc with
  | Some f => bound f
  | None => []
  end.

(** A word with its first letter in upper case. *)
Definition capitalized (s : string) : string :=
  match s with
  | String c rest =>
      let n := nat_of_ascii c in
      String (if ((97 <=? n) && (n <=? 122))%nat then ascii_of_nat (n - 32) else c) rest
  | EmptyString => EmptyString
  end.

(** What [%xmode] prints for the mode it is given. *)
Definition xmode_report (mode : string) : option string :=
  if Text.mem mode ["plain"; "context"; "verbose"; "minimal"]
  then Some ("Exception reporting mode: " ++ capitalized mode)
  else None.

Fixpoint eval (fuel : nat) (loc : option frame) (e : expr) {struct fuel} : M value :=
  match fuel with
  | O => out_of_fuel
  | S fuel' =>
      match e with
      | Name id => lookup loc id
      | Constant c => lift (constant_value c)
      | Attribute v a => x <- eval fuel' loc v ;; lift (attribute x a)
      | Call f args kws _ =>
          fv <- eval fuel' loc f ;;
          avs <- mapM (eval fuel' loc) args ;;
          kvs <- mapM (fun kv => v <- eval fuel' loc (snd kv) ;; ret (fst kv, v)) kws ;;
          apply fuel' fv avs kvs
      | BinOp l op r =>
          x <- eval fuel' loc l ;; y <- eval fuel' loc r ;; lift (binary op x y)
      | USub x => v <- eval fuel' loc x ;; lift (negate v)
      | Gt l r => x <- eval fuel' loc l ;; y <- eval fuel' loc r ;; lift (greater x y)
      | Subscript v i =>
          x <- eval fuel' loc v ;; y <- eval fuel' loc i ;; lift (subscript x y)
      | Tuple elts => vs <- mapM (eval fuel' loc) elts ;; ret (VTuple vs)
      | Dict items _ =>
          es <- mapM (fun kv => v <- eval fuel' loc (snd kv) ;; ret (fst kv, v)) items ;;
          ret (VDict es)
      | Lambda ps b => ret (VLambda ps b (captured_by loc))
      end
  end

with apply (fuel : nat) (f : value) (args : list value) (kws : list (string * value))
    {struct fuel} : M value :=
  match fuel with
  | O => out_of_fuel
  | S fuel' =>
      match f with
      | VDef _ params body =>
          locals <- lift (bind_params params args kws) ;;
          r <- block (exec fuel')
                 (Some {| local_names := (params ++ flat_map Names.stores body)%list;
                          bound := locals |})
                 (statements body) ;;
          match snd r with
          | Returned v => ret v
          | Normal => ret VNone
          end
      | VLambda ps b env =>
          locals <- lift (bind_params ps args kws) ;;
          eval fuel' (Some {| local_names := ps; bound := (locals ++ env)%list |}) b
      | VMethod self name => method self name args kws
      | VJit g =>
          targs <- lift (rmap traced args) ;;
          tkws <- lift (rmap (fun kv => rbind (traced (snd kv))
                                          (fun v => Ok (fst kv, v))) kws) ;;
          r <- apply fuel' g targs tkws ;;
          ret (settle (forallb is_concrete args &&
                       forallb (fun kv => is_concrete (snd kv)) kws) r)
      | VGrad g k =>
          match nth_error args (Z.to_nat k) with
          | None => raise (TypeError "argnums exceeds the positional arguments")
          | Some x =>
              if differentiable x then
                r <- apply fuel' g (replace_nth (Z.to_nat k) (lifted x) args) kws ;;
                lift (grad_result x r)
              else raise (TypeError "grad requires real-valued inputs")
          end
      | VVmap g spec =>
          match kws with
          | _ :: _ => lift (Stuck "keyword arguments under vmap")
          | [] =>
              specs <- lift (axes_for spec args) ;;
              rs <- lift (rmap (fun sv => unbatch (fst sv) (snd sv)) (zip specs args)) ;;
              match flat_map snd rs with
              | [] => raise (ValueError "vmap must have at least one non-None value in in_axes")
              | n :: ns =>
                  if forallb (Z.eqb n) ns then
                    r <- apply fuel' g (map fst rs) [] ;;
                    ret (batched n (forallb is_concrete args) r)
                  else raise (ValueError "vmap got inconsistent sizes for array axes to be mapped")
              end
          end
      | VQuaxGrad g =>
          match args with
          | VQuantity a u :: _ =>
              if kind_eqb (dtype a) KFloat then
                r <- apply fuel' g args kws ;;
                match r with
                | VQuantity b v =>
                    match shape b with
                    | [] =>
                        ret (VQuantity
                               {| lib := Jax; dtype := KFloat; shape := shape a;
                                  source := join (source b) (source a);
                                  concrete := concrete a && concrete b |}
                               (UnitDiv v u))
                    | _ :: _ =>
                        raise (TypeError "Gradient only defined for scalar-output functions")
                    end
                | _ => lift (Stuck "gradient of a plain number by a quantity")
                end
              else raise (TypeError "grad requires real-valued inputs")
          | _ => apply fuel' (VGrad g 0) args kws
          end
      | VLib name =>
          if String.eqb name "jax.lax.cond" then
            match args, kws with
            | [pred; on_true; on_false], [] =>
                match as_array pred with
                | Some p =>
                    match shape p with
                    | [] =>
                        r1 <- apply fuel' on_true [] [] ;;
                        r2 <- apply fuel' on_false [] [] ;;
                        lift (cond_result p r1 r2)
                    | _ :: _ => raise (TypeError "Pred must be a scalar")
                    end
                | None => raise (TypeError "Pred type must be either boolean or number")
                end
            | _, _ => lift (Stuck "operands of cond")
            end
          else library name args kws
      | _ => raise (TypeError "object is not callable")
      end
  end

with exec (fuel : nat) (loc : option frame) (s : stmt) {struct fuel}
  : M (option frame * signal) :=
  match fuel with
  | O => out_of_fuel
  | S fuel' =>
      match s with
      | Import m asname =>
          if Text.mem m modules then
            loc' <- match asname with
                    | Some a => store loc a (VModule m)
                    | None => store loc (Names.package m) (VModule (Names.package m))
                    end ;;
            ret (loc', Normal)
          else raise (ModuleNotFoundError m)
      | Assign t v =>
          x <- eval fuel' loc v ;; loc' <- store loc t x ;; ret (loc', Normal)
      | AugAssign t op v =>
          old <- lookup loc t ;;
          x <- eval fuel' loc v ;;
          r <- lift (binary op old x) ;;
          loc' <- store loc t r ;;
          ret (loc', Normal)
      | Expr v => _ <- eval fuel' loc v ;; ret (loc, Normal)
      | Return v => x <- eval fuel' loc v ;; ret (loc, Returned x)
      | FunctionDef decs name ps body =>
          dvs <- mapM (eval fuel' loc) decs ;;
          f <- foldM (fun g d => apply fuel' d [g] []) (rev dvs) (VDef name ps body) ;;
          loc' <- store loc name f ;;
          ret (loc', Normal)
      | If test body orelse =>
          t <- eval fuel' loc test ;;
          b <- lift (truth t) ;;
          block (exec fuel') loc (statements (if b then body else orelse))
      | For t iter body =>
          it <- eval fuel' loc iter ;;
          items <- lift (iterate it) ;;
          for_each (fun l x => store l t x)
            (fun l => block (exec fuel') l (statements body)) loc items
      | Comment _ | Blank => ret (loc, Normal)
      | Trailing s' _ => exec fuel' loc s'
      | LineMagic name rest =>
          if String.eqb name "xmode" then
            match xmode_report rest with
            | Some line => _ <- emit (Printed line) ;; ret (loc, Normal)
            | None => lift (Stuck "exception reporting mode")
            end
          else lift (Stuck "line magic")
      | MagicTimeit s' =>
          _ <- exec fuel' (Some {| local_names := []; bound := [] |}) s' ;;
          _ <- emit (Timing "timeit") ;;
          ret (loc, Normal)
      | CellMagicTime body =>
          if ends_with_expression (statements body) then
            cell_block (exec fuel')
              (fun l e => v <- eval fuel' l e ;;
                          _ <- emit (Timing "time") ;;
                          match v with
                          | VNone => ret tt
                          | _ => emit (Shown v)
                          end)
              loc (statements body)
          else
            r <- block (exec fuel') loc (statements body) ;;
            _ <- emit (Timing "time") ;;
            ret r
      end
  end.

(** *** Cells and the notebook *)

Definition show (fuel : nat) (loc : option frame) (e : expr) : M unit :=
  v <- eval fuel loc e ;;
  match v with
  | VNone => ret tt
  | _ => emit (Shown v)
  end.

(** What running a cell comes to: how it ended, what it put on the page,
    and the value of every name it binds. *)
Record cell_run : Type := CellRun {
  status : result unit;
  page : list output;
  bindings : list (string * option value)
}.

Definition clear (w : world) : world :=
  {| globals := globals w; entropy := entropy w; canvas := []; outputs := [] |}.

(** The figure, if anything was drawn, and the traceback, if the cell
    raised. *)
Definition page_of (r : result unit) (w : world) : list output :=
  (outputs w ++
   match canvas w with
   | [] => []
   | artists => [Figure artists]
   end ++
   match r with
   | Raise e => [Traceback e]
   | _ => []
   end)%list.

Definition run_cell (fuel : nat) (body : list stmt) (w : world) : cell_run * world :=
  let (r, w') := cell_block (exec fuel) (show fuel) None (statements body) (clear w) in
  let st := rbind r (fun _ => Ok tt) in
  ({| status := st;
      page := page_of st w';
      bindings := map (fun n => (n, assoc n (globals w'))) (Names.cell_stores body) |},
   w').

(** The cells one after the other, each on the kernel the one before left,
    whether that one raised or not. *)
Fixpoint run_cells (fuel : nat) (cells : list (string * list stmt)) (w : world)
  : list (string * cell_run) :=
  match cells with
  | [] => []
  | (i, body) :: rest =>
      let (r, w') := run_cell fuel body w in
      (i, r) :: run_cells fuel rest w'
  end.

Definition depth : nat := 100.

Definition run_notebook (seed : Z) : list (string * cell_run) :=
  run_cells depth Cells.programs (fresh seed).

Definition completes (r : cell_run) : Prop := status r = Ok tt.

Definition raises (r : cell_run) (e : exception) : Prop := status r = Raise e.

(** [m'] does what [m] does wherever [m] does not run out of depth. *)
Definition refines {A : Type} (m m' : M A) : Prop :=
  forall w r w', m w = (r, w') -> r <> OutOfFuel -> m' w = (r, w').

(** Whether a run stopped for lack of evaluation depth. *)
Definition ran_out (r : cell_run) : bool :=
  match status r with
  | OutOfFuel => true
  | _ => false
  end.

(** How each code cell ends, by its identifier. *)
Definition ending (i : string) : result unit :=
  if String.eqb i "19"
  then Raise (TypeError "Gradient only defined for scalar-output functions")
  else if String.eqb i "32" then Raise TracerBoolConversionError
  else Ok tt.

(** A cell gives the same result in two runs when it ends the same way,
    leaves the same page and binds the same values. *)
Definition same_in_two_runs (seed1 seed2 : Z) (i : string) : Prop :=
  assoc i (run_notebook seed1) = assoc i (run_notebook seed2).


End Kernel.

(** ** The functions of the tutorial, written out *)

(** The functions that the two failing cells and their repairs define and
    call, as functions on values: each reads like the Python it stands
    for.  That the interpreter of the cells computes them is proved
    below. *)

Module Functions.

Import Python Kernel.

(** Cell 18: [A * jnp.cos(2 * jnp.pi * x / P)]. *)
Definition some_func (x A P : value) : result value :=
  t <~ binary Mult (VInt 2) (VFloat None) ;;
  t <~ binary Mult t x ;;
  t <~ binary Div t P ;;
  c <~ elementwise [t] [] ;;
  binary Mult A c.

(** [jax.grad(f, argnums=0)] for a function of one differentiated argument *)
Definition grad (f : value -> result value) (x : value) : result value :=
  if differentiable x then r <~ f (lifted x) ;; grad_result x r
  else Raise (TypeError "grad requires real-valued inputs").

(** [jax.vmap(f, in_axes=(0, None, ...))]: the first argument is mapped;
    [others] tells whether the other arguments are concrete. *)
Definition vmap (f : value -> result value) (x : value) (others : bool) : result value :=
  r <~ unbatch (VInt 0) x ;;
  match snd r with
  | [] => Raise (ValueError "vmap must have at least one non-None value in in_axes")
  | n :: ns =>
      if forallb (Z.eqb n) ns then
        v <~ f (fst r) ;; Ok (batched n (is_concrete x && others) v)
      else Raise (ValueError "vmap got inconsistent sizes for array axes to be mapped")
  end.

(** [jax.jit(f)] for a function of one argument *)
Definition jit (f : value -> result value) (x : value) : result value :=
  tx <~ traced x ;; r <~ f tx ;; Ok (settle (is_concrete x) r).

(** [jax.lax.cond(pred, true_fun, false_fun)] *)
Definition cond (pred : value) (true_fun false_fun : unit -> result value) : result value :=
  match as_array pred with
  | Some p =>
      match shape p with
      | [] => r1 <~ true_fun tt ;; r2 <~ false_fun tt ;; cond_result p r1 r2
      | _ :: _ => Raise (TypeError "Pred must be a scalar")
      end
  | None => Raise (TypeError "Pred type must be either boolean or number")
  end.

(** Cell 19: [jax.grad(some_func, argnums=0)]. *)
Definition some_func_grad (x A P : value) : result value :=
  grad (fun x => some_func x A P) x.

(** Cell 21: [jax.vmap(jax.grad(some_func, argnums=0), in_axes=(0, None, None))]. *)
Definition some_func_grad_vmap (x A P : value) : result value :=
  vmap (fun x => some_func_grad x A P) x (is_concrete A && is_concrete P).

(** Cell 31: [if x > 0: return x**3 else: return x**2] under [@jax.jit]. *)
Definition func_if1 : value -> result value :=
  jit (fun x =>
         t <~ greater x (VInt 0) ;;
         b <~ truth t ;;
         if b then binary Pow x (VInt 3) else binary Pow x (VInt 2)).

(** Cell 33: [jax.lax.cond(x > 0, lambda: x**3, lambda: x**2)] under [@jax.jit]. *)
Definition func_if2 : value -> result value :=
  jit (fun x =>
         p <~ greater x (VInt 0) ;;
         cond p (fun _ => binary Pow x (VInt 3)) (fun _ => binary Pow x (VInt 2))).

(** The function a cell defines under a name, before its decorators. *)
Definition definition_of (name : string) (cell : list stmt) : option value :=
  match find (fun s => match s with
                       | FunctionDef _ n _ _ => String.eqb n name
                       | _ => false
                       end) cell with
  | Some (FunctionDef _ n ps body) => Some (VDef n ps body)
  | _ => None
  end.

End Functions.
(** ** The other functions of the tutorial, written out *)

(** The functions of cells 3, 10, 13, 24 and 38 and the transformed
    functions the cells build from them, as functions on values, in the
    order in which Python evaluates their parts.  That the interpreter of
    the cells computes them is proved below. *)

Module Tutorial.

Import Python Kernel.

(** The kernel after running the cells of the notebook top to bottom on a
    fresh kernel, and the object a name is bound to in it. *)
Definition kernel : world :=
  fold_left (fun w body => snd (run_cell depth body w)) (map snd Cells.programs) (fresh 0).

Definition object (name : string) : option value := assoc name (globals kernel).


(** [jax.grad(f, argnums=0)] *)
Definition grad_of (f : list value -> result value) (args : list value) : result value :=
  match args with
  | [] => Raise (TypeError "argnums exceeds the positional arguments")
  | x :: rest =>
      if differentiable x then r <~ f (lifted x :: rest) ;; grad_result x r
      else Raise (TypeError "grad requires real-valued inputs")
  end.

(** [jax.vmap(f, in_axes=in_axes)] *)
Definition vmap_of (f : list value -> result value) (in_axes : value) (args : list value)
  : result value :=
  specs <~ axes_for in_axes args ;;
  rs <~ rmap (fun sv => unbatch (fst sv) (snd sv)) (zip specs args) ;;
  match flat_map snd rs with
  | [] => Raise (ValueError "vmap must have at least one non-None value in in_axes")
  | n :: ns =>
      if forallb (Z.eqb n) ns then
        r <~ f (map fst rs) ;; Ok (batched n (forallb is_concrete args) r)
      else Raise (ValueError "vmap got inconsistent sizes for array axes to be mapped")
  end.


(** A function of one, two, three or four positional parameters, called
    with a list of arguments. *)
Definition too_few {A : Type} : result A :=
  Raise (TypeError "missing a required positional argument").
Definition too_many {A : Type} : result A :=
  Raise (TypeError "takes fewer positional arguments").

Definition args1 (f : value -> result value) (args : list value) : result value :=
  match args with
  | [] => too_few
  | [a] => f a
  | _ => too_many
  end.



Definition args4 (f : value -> value -> value -> value -> result value)
    (args : list value) : result value :=
  match args with
  | [a; b; c; d] => f a b c d
  | _ :: _ :: _ :: _ :: _ :: _ => too_many
  | _ => too_few
  end.

(** Cell 3: [jnp.log(jnp.sum(x**2, axis=1) + a**2)]. *)
Definition func (x a : value) : result value :=
  s <~ binary Pow x (VInt 2) ;;
  t <~ jnp_sum [s] [("axis", VInt 1)] ;;
  u <~ binary Pow a (VInt 2) ;;
  v <~ binary Add t u ;;
  elementwise [v] [].



(** Cell 13, the body of [find_depth]. *)
Definition find_depth (spectrum : value) : result value :=
  min_pix <~ jnp_argmin [spectrum] [] ;;
  start <~ binary Sub min_pix (VInt 1) ;;
  y <~ lax_dynamic_slice [spectrum; VTuple [start]; VTuple [VInt 3]] [] ;;
  lo <~ negate (VInt 1) ;;
  x <~ jnp_arange [lo; VInt 2] [] ;;
  A <~ jnp_vander [x; VInt 3] [("increasing", VBool true)] ;;
  fit <~ jnp_lstsq [A; y] [("rcond", VNone)] ;;
  coeffs <~ subscript fit (VInt 0) ;;
  c0 <~ subscript coeffs (VInt 0) ;;
  binary Sub (VInt 1) c0.

(** Cell 13: [jax.vmap(find_depth, in_axes=0)]. *)
Definition find_depth_vmap (spectra : value) : result value :=
  vmap_of (args1 find_depth) (VInt 0) [spectra].

(** Cell 24: [a * x + b]. *)
Definition model (x a b : value) : result value :=
  t <~ binary Mult a x ;;
  binary Add t b.

(** Cell 24, the body of [objective]. *)
Definition objective (params x y y_err : value) : result value :=
  a <~ subscript params (VStr "a") ;;
  b <~ subscript params (VStr "b") ;;
  model_y <~ model x a b ;;
  d <~ binary Sub y model_y ;;
  q <~ binary Pow d (VInt 2) ;;
  e <~ binary Pow y_err (VInt 2) ;;
  r <~ binary Div q e ;;
  jnp_sum [r] [].

(** Cell 26: [jax.grad(objective, argnums=0)]. *)
Definition objecive_grad (params x y y_err : value) : result value :=
  grad_of (args4 objective) [params; x; y; y_err].




End Tutorial.

(** ** The functions and the lines of the notebook, surveyed *)

Module Survey.

Import Python.

(** The statements of all code cells, in document order. *)
Definition statements : list stmt := flat_map snd Cells.programs.

Definition is_definition (s : stmt) : bool :=
  match s with
  | FunctionDef _ _ _ _ => true
  | _ => false
  end.

(** The function definitions of the notebook. *)
Definition definitions : list stmt := filter is_definition statements.

Definition defined_name (s : stmt) : string :=
  match s with
  | FunctionDef _ name _ _ => name
  | _ => EmptyString
  end.

(** The names the body of a function reads from outside the function:
    neither parameters nor names the body binds. *)
Definition free_names (s : stmt) : list string :=
  match s with
  | FunctionDef _ _ ps body =>
      Names.minus (ps ++ flat_map Names.stores body)%list (flat_map Names.reads body)
  | _ => []
  end.

(** A list without repetitions, in the order of first occurrences. *)
Fixpoint distinct (l : list string) : list string :=
  match l with
  | [] => []
  | x :: rest => x :: filter (fun y => negb (String.eqb x y)) (distinct rest)
  end.

(** Whether a statement binds a name to a module or to a function. *)
Fixpoint binds_code (s : stmt) : bool :=
  match s with
  | Import _ _ | FunctionDef _ _ _ _ => true
  | Trailing s' _ => binds_code s'
  | _ => false
  end.

(** The statements of the notebook that bind a name. *)
Definition binders (name : string) : list stmt :=
  filter (fun s => Text.mem name (Names.stores s)) statements.

(** A text cut after each of its line feeds, as nbformat stores it. *)
Fixpoint split_lines_from (cur : string) (s : string) : list string :=
  match s with
  | EmptyString =>
      match cur with
      | EmptyString => []
      | _ => [cur]
      end
  | String c rest =>
      if Ascii.eqb c (ascii_of_nat 10)
      then (cur ++ String c EmptyString) :: split_lines_from EmptyString rest
      else split_lines_from (cur ++ String c EmptyString) rest
  end.

Definition split_lines (s : string) : list string := split_lines_from EmptyString s.

(** The identifiers of the hooks and the addresses of the repositories
    of the configuration, in file order. *)
Definition hook_ids (cfg : Config.yaml) : list (option string) :=
  map (fun d => Config.hook_id (snd d)) (Config.hook_declarations cfg).

Definition repository_urls (cfg : Config.yaml) : list (option string) :=
  map (fun r => Config.scalar (Config.entry "repo" r)) (Config.repos cfg).

End Survey.

(** * Theorems *)

(** ** The notebook as a document *)

Section NotebookDocument.

Import Nbformat.

Lemma strings_of_some items ls :
  strings_of items = Some ls -> items = map JStr ls.
Proof.
  revert ls; induction items as [|j rest IH]; intros ls H; simpl in H.
  - injection H as <-. reflexivity.
  - destruct j; try discriminate.
    destruct (strings_of rest) as [ss|] eqn:E; [|discriminate].
    injection H as <-. simpl. f_equal. now apply IH.
Qed.

Lemma check_cell_sound c : check_cell c = true -> cell_shape c.
Proof.
  unfold check_cell. intros H.
  destruct (cell_type c) as [t|] eqn:Et; [|discriminate].
  destruct (field "id" c) as [[| | |i| |]|] eqn:Ei; try discriminate.
  destruct (source_lines c) as [ls|] eqn:Es; [|discriminate].
  destruct (String.eqb t "markdown") eqn:Em.
  - apply String.eqb_eq in Em; subst t.
    constructor; eauto. intros Hc; rewrite Et in Hc; discriminate.
  - destruct (String.eqb t "code") eqn:Ec; [|discriminate].
    apply String.eqb_eq in Ec; subst t.
    constructor; eauto. intros _.
    destruct (field "outputs" c) as [[| | | |outs|]|]; try discriminate.
    destruct (field "execution_count" c) as [[| |n| | |]|]; try discriminate;
      split; eauto.
Qed.

Lemma check_document_sound nb : check_document nb = true -> document_shape nb.
Proof.
  unfold check_document. intros H.
  destruct nb as [| | | | |fs]; try discriminate.
  destruct (field "cells" (JObj fs)) as [[| | | |cs|]|] eqn:Ec; try discriminate.
  destruct (field "metadata" (JObj fs)) as [[| | | | |m]|] eqn:Em; try discriminate.
  destruct (field "nbformat" (JObj fs)) as [[| |v| | |]|] eqn:Ev; try discriminate.
  destruct (field "nbformat_minor" (JObj fs)) as [[| |w| | |]|] eqn:Ew; try discriminate.
  constructor; eauto.
  exists cs. split; [exact Ec|].
  apply Forall_forall. intros c Hin.
  apply check_cell_sound.
  rewrite forallb_forall in H. now apply H.
Qed.

(** C3.  The notebook is a JSON object with a cell list, a metadata object
    and a format version ([nbformat], [nbformat_minor]); every cell carries
    a type tag that is markdown or code, an identifier, source lines, and,
    when it is a code cell, an outputs list and an execution counter. *)
Theorem notebook_document_shape : document_shape Notebook.notebook.
Proof. apply check_document_sound. vm_compute. reflexivity. Qed.

Lemma strippedb_sound c : strippedb c = true -> stripped c.
Proof.
  unfold strippedb, stripped. intros H.
  destruct (field "outputs" c) as [[| | | |[|o outs]|]|]; try discriminate.
  destruct (field "execution_count" c) as [[| | | | |]|]; try discriminate.
  split; reflexivity.
Qed.

End NotebookDocument.

(** ** Stripped state and identifiers *)

Section NotebookCells.

Import Nbformat.

(** C8.  Every code cell is stored stripped, with an empty outputs list and
    a null execution counter, and the configuration runs the [nbstripout]
    hook (pinned at 0.8.1) that puts cells into this state before a
    commit. *)
Theorem code_cells_stripped :
  Forall stripped (code_cells Notebook.notebook) /\
  exists repo hook,
    In (repo, hook) (Config.hook_declarations Config.config) /\
    Config.hook_id hook = Some "nbstripout" /\
    Config.revision repo = Some "0.8.1".
Proof.
  split.
  - apply Forall_forall. intros c Hin. apply strippedb_sound.
    assert (H : forallb strippedb (code_cells Notebook.notebook) = true)
      by (vm_compute; reflexivity).
    rewrite forallb_forall in H. now apply H.
  - exists (Config.repository "https://github.com/kynan/nbstripout" (Config.plain "0.8.1")
              [Config.hook "nbstripout"]), (Config.hook "nbstripout").
    split; [|split; reflexivity].
    vm_compute. do 15 right. left. reflexivity.
Qed.

Lemma increasing_lt x l :
  increasing (x :: l) -> Forall (fun y => x < y) l.
Proof.
  revert x; induction l as [|y l IH]; intros x H; [constructor|].
  destruct H as [Hxy Hrest]. constructor; [exact Hxy|].
  specialize (IH y Hrest).
  eapply Forall_impl; [|exact IH]. simpl. intros z Hz. lia.
Qed.

Lemma increasing_NoDup l : increasing l -> NoDup l.
Proof.
  induction l as [|x l IH]; intros H; constructor.
  - intros Hin. pose proof (increasing_lt _ _ H) as Hlt.
    rewrite Forall_forall in Hlt. specialize (Hlt _ Hin). lia.
  - apply IH. destruct l; [exact I|]. exact (proj2 H).
Qed.

Lemma increasing_seq start len : increasing (seq start len).
Proof.
  revert start; induction len as [|len IH]; intros start; [exact I|].
  simpl. destruct len; [exact I|]. split; [simpl; lia|]. apply (IH (S start)).
Qed.

Lemma NoDup_map_injective {A B : Type} (f : A -> B) (l : list A) :
  (forall x y, f x = f y -> x = y) -> NoDup l -> NoDup (map f l).
Proof.
  intros Hinj Hnd. induction Hnd as [|x l Hnotin Hnd IH]; simpl; constructor.
  - intros Hin. apply in_map_iff in Hin. destruct Hin as [y [Hy Hin]].
    apply Hinj in Hy. subst y. contradiction.
  - exact IH.
Qed.

(** C10.  In document order the cell identifiers are the decimal strings
    of 0, 1, ..., 42: they are pairwise distinct and their numbers increase
    strictly. *)
Theorem cell_identifiers :
  cell_ids Notebook.notebook = map (fun n => Some (decimal n)) (seq 0 43) /\
  NoDup (cell_ids Notebook.notebook) /\
  exists numbers,
    map id_number (cells Notebook.notebook) = map Some numbers /\
    numbers = seq 0 43 /\
    increasing numbers.
Proof.
  assert (Hnum : map id_number (cells Notebook.notebook) = map Some (seq 0 43))
    by (vm_compute; reflexivity).
  split; [vm_compute; reflexivity|]. split.
  - assert (Hids : cell_ids Notebook.notebook =
                   map (fun n => Some (decimal n)) (seq 0 43))
      by (vm_compute; reflexivity).
    rewrite Hids.
    apply NoDup_map_injective.
    + intros x y Hxy. injection Hxy as Hxy.
      apply (f_equal NilEmpty.uint_of_string) in Hxy. unfold decimal in Hxy.
      rewrite !NilEmpty.usu in Hxy. injection Hxy as Hxy.
      apply (f_equal Nat.of_uint) in Hxy. now rewrite !DecimalNat.Unsigned.of_to in Hxy.
    + apply increasing_NoDup, increasing_seq.
  - exists (seq 0 43). split; [exact Hnum|]. split; [reflexivity|].
    apply increasing_seq.
Qed.

End NotebookCells.

(** ** Headings and exception handling *)

Section NotebookText.

Import Nbformat Text.

(** C6.  The headings that open the six topics occur exactly once each and
    in the narrative order: JIT compilation, vectorisation with vmap,
    automatic differentiation, pytrees, control flow, the units teaser.
    The whole outline is given with them: the title first, the examples as
    third-level headings, and "Sharp Bits" above "Control flow". *)
Theorem topics_in_narrative_order :
  filter (heading_in topics) (outline Notebook.notebook) = topics /\
  map (fun h => position h (outline Notebook.notebook)) topics =
    [Some 1; Some 3; Some 5; Some 7; Some 11; Some 12] /\
  filter (fun h => fst h <=? 2)%nat (outline Notebook.notebook) =
    [ (1, "Intro to JAX");
      (2, "JIT Compilation");
      (2, "Vectorization with `vmap`");
      (2, "Automatic Differentiation");
      (2, "Pytrees");
      (1, "Sharp Bits");
      (2, "Control flow");
      (1, "Teaser: Using physical units in JAX code") ].
Proof. repeat split; vm_compute; reflexivity. Qed.

End NotebookText.

(** ** The syntax trees are the stored text *)

Section Transcription.

Import Nbformat.


(** The table of syntax trees lists the code cells in document order. *)
Lemma programs_in_document_order :
  Cells.cell_programs (code_cells Notebook.notebook) = Cells.programs.
Proof. vm_compute. reflexivity. Qed.

(** The configuration tree prints to the lines of the file. *)
Lemma config_transcribed :
  Config.print_block true Config.config = Config.file_lines.
Proof. vm_compute. reflexivity. Qed.

End Transcription.

(** ** Hook declarations *)

Section Hooks.

Import Config.

(** C4, as stated, fails: a hook declaration need not name any filter.
    The [shellcheck] hook (like twelve others) has no [types_or], [types],
    [files] or [exclude] key. *)
Lemma hooks_without_filters :
  ~ Forall (fun d => names_revision (fst d) = true /\ names_filters (snd d) = true)
      (hook_declarations config).
Proof.
  intros H. rewrite Forall_forall in H.
  destruct (H (repository "https://github.com/shellcheck-py/shellcheck-py"
                 (quoted "v0.10.0.1") [hook "shellcheck"],
               hook "shellcheck")) as [_ Hf].
  - vm_compute. do 13 right. left. reflexivity.
  - discriminate Hf.
Qed.

(** C4, amended.  Every hook declaration names its identifier and stands in
    a repository block that pins the tool revision.  File filters are
    optional: of the sixteen hooks exactly [prettier], [ruff] and
    [ruff-format] name one, a [types_or] list of file types each; the other
    thirteen name none, and no hook names a path filter. *)
Theorem hooks_pin_revision_filters_optional :
  Forall (fun d => (exists rev, revision (fst d) = Some rev) /\
                   (exists id, hook_id (snd d) = Some id) /\
                   (filters (snd d) = [] \/
                    exists types, filters (snd d) = [("types_or", FlowSeq types)]))
    (hook_declarations config) /\
  map (fun d => (hook_id (snd d), file_types (snd d)))
      (filter (fun d => names_filters (snd d)) (hook_declarations config)) =
    [ (Some "prettier",
       ["yaml"; "markdown"; "html"; "css"; "scss"; "javascript"; "json"]);
      (Some "ruff", ["python"; "jupyter"]);
      (Some "ruff-format", ["python"; "jupyter"]) ] /\
  List.length (hook_declarations config) = 16 /\
  List.length (filter (fun d => negb (names_filters (snd d))) (hook_declarations config)) = 13.
Proof.
  split; [|repeat split; vm_compute; reflexivity].
  unfold hook_declarations, repos, config. simpl.
  repeat (constructor;
          [ split; [eexists; reflexivity|];
            split; [eexists; reflexivity|];
            first [ left; reflexivity | right; eexists; reflexivity ] | ]).
  constructor.
Qed.

End Hooks.

(** ** Names *)

Section NameFlow.

Import Names.

Lemma mem_In n l : Text.mem n l = true -> In n l.
Proof.
  unfold Text.mem. rewrite existsb_exists. intros [x [Hin Heq]].
  apply String.eqb_eq in Heq. now subst x.
Qed.

Lemma minus_nil known names :
  minus known names = [] -> forall n, In n names -> In n known.
Proof.
  unfold minus. induction names as [|m names IH]; intros H n Hin; [destruct Hin|].
  simpl in H. destruct (mem m known) eqn:Hm; simpl in H; [|discriminate].
  destruct Hin as [<-|Hin]; [now apply mem_In|now apply IH].
Qed.

Lemma dangling_nil body : forall scope,
  dangling scope body = [] ->
  forall n, In n (cell_reads body) -> In n scope \/ In n (cell_stores body).
Proof.
  induction body as [|s rest IH]; intros scope H n Hin; [destruct Hin|].
  simpl in H. apply app_eq_nil in H. destruct H as [Hs Hrest].
  unfold cell_reads, cell_stores in *. simpl in Hin |- *.
  apply in_app_or in Hin. destruct Hin as [Hin|Hin].
  - left. eapply minus_nil; eassumption.
  - destruct (IH _ Hrest n Hin) as [Hsc|Hst].
    + apply in_app_or in Hsc. destruct Hsc as [Hsc|Hsc].
      * right. apply in_or_app. now left.
      * now left.
    + right. apply in_or_app. now right.
Qed.

Lemma linear_sound cells : forall scope,
  linear scope cells = true ->
  forall before i body after,
    cells = (before ++ (i, body) :: after)%list ->
    forall n, In n (cell_reads body) ->
      In n scope \/ In n (cell_stores body) \/
      exists j b, In (j, b) before /\ In n (cell_stores b).
Proof.
  induction cells as [|[k kb] cells IH]; intros scope H before i body after Heq n Hin.
  - destruct before; discriminate.
  - simpl in H. destruct (dangling scope kb) eqn:Hd; [|discriminate].
    destruct before as [|[j b] before]; simpl in Heq.
    + injection Heq as -> -> ->.
      destruct (dangling_nil _ _ Hd n Hin) as [Hs|Hs]; auto.
    + injection Heq as -> -> ->.
      destruct (IH _ H before i body after eq_refl n Hin) as [Hs|[Hs|[j' [b' [Hj Hb]]]]].
      * apply in_app_or in Hs. destruct Hs as [Hs|Hs]; [|now left].
        right; right. exists j, b. split; [now left|exact Hs].
      * right; now left.
      * right; right. exists j', b'. split; [now right|exact Hb].
Qed.

Lemma cell_programs_app a b :
  Cells.cell_programs (a ++ b) = (Cells.cell_programs a ++ Cells.cell_programs b)%list.
Proof. unfold Cells.cell_programs. apply flat_map_app. Qed.

Lemma cell_programs_In j b cs :
  In (j, b) (Cells.cell_programs cs) ->
  exists c, In c cs /\ Cells.program_of c = Some b.
Proof.
  unfold Cells.cell_programs. rewrite in_flat_map. intros [c [Hc Hin]].
  exists c. split; [exact Hc|].
  destruct (Nbformat.cell_id c); [|destruct Hin].
  destruct (Cells.program_of c); [|destruct Hin].
  destruct Hin as [Heq|[]]. congruence.
Qed.

Lemma In_mem n l : In n l -> Text.mem n l = true.
Proof.
  intros H. unfold Text.mem. rewrite existsb_exists.
  exists n. split; [exact H|apply String.eqb_refl].
Qed.

(** C5, as stated, fails: cell 25 reads [len] ([size=len(x)]), a name that
    neither cell 25 nor any of the sixteen code cells before it binds; it
    is a builtin of Python. *)
Lemma cell_25_reads_len :
  ~ (forall before c after body,
       Nbformat.code_cells Notebook.notebook = (before ++ c :: after)%list ->
       Cells.program_of c = Some body ->
       forall n, In n (cell_reads body) ->
         In n (cell_stores body) \/
         exists c' body', In c' before /\ Cells.program_of c' = Some body' /\
                          In n (cell_stores body')).
Proof.
  intros H.
  assert (Hearlier :
            forallb (fun c' => match Cells.program_of c' with
                               | Some body' => negb (Text.mem "len" (cell_stores body'))
                               | None => true
                               end)
              (firstn 16 (Nbformat.code_cells Notebook.notebook)) = true)
    by (vm_compute; reflexivity).
  rewrite forallb_forall in Hearlier.
  destruct (H (firstn 16 (Nbformat.code_cells Notebook.notebook))
              Notebook.cell_25
              (skipn 17 (Nbformat.code_cells Notebook.notebook))
              Cells.code_25) with (n := "len"%string)
    as [Hself|[c' [body' [Hc' [Hp Hs]]]]].
  - vm_compute. reflexivity.
  - vm_compute. reflexivity.
  - apply mem_In. vm_compute. reflexivity.
  - apply In_mem in Hself. vm_compute in Hself. discriminate Hself.
  - specialize (Hearlier c' Hc'). rewrite Hp in Hearlier.
    apply In_mem in Hs. rewrite Hs in Hearlier. discriminate Hearlier.
Qed.

(** C5, amended.  Take any code cell of the notebook and any name its code
    reads.  The name is bound in the cell itself or by a code cell that
    comes earlier in the document, or it is Python's builtin [len]; so no
    cell reads a name that only a later cell defines. *)
Theorem cells_read_only_earlier_names :
  forall before c after body,
    Nbformat.code_cells Notebook.notebook = (before ++ c :: after)%list ->
    Cells.program_of c = Some body ->
    forall n, In n (cell_reads body) ->
      In n builtins \/
      In n (cell_stores body) \/
      exists c' body', In c' before /\ Cells.program_of c' = Some body' /\
                       In n (cell_stores body').
Proof.
  intros before c after body Hsplit Hprog n Hin.
  assert (Hlin : linear builtins Cells.programs = true) by (vm_compute; reflexivity).
  pose proof programs_in_document_order as Hord.
  rewrite Hsplit, cell_programs_app in Hord. simpl in Hord.
  fold (Cells.cell_programs after) in Hord.
  assert (Hid : exists i, Nbformat.cell_id c = Some i).
  { unfold Cells.program_of in Hprog. destruct (Nbformat.cell_id c); eauto. discriminate. }
  destruct Hid as [i Hi]. rewrite Hi, Hprog in Hord. simpl in Hord.
  destruct (linear_sound _ _ Hlin _ _ _ _ (eq_sym Hord) n Hin) as [H|[H|[j [b [Hj Hb]]]]].
  - now left.
  - right; now left.
  - right; right. apply cell_programs_In in Hj. destruct Hj as [c' [Hc' Hp]].
    exists c', b. auto.
Qed.

(** The statement applied to cell 15 and the name [find_depth_vmap], which
    cell 13 binds. *)
Lemma cells_read_only_earlier_names_witness :
  In "find_depth_vmap" builtins \/
  In "find_depth_vmap" (cell_stores Cells.code_15) \/
  exists c' body',
    In c' (firstn 9 (Nbformat.code_cells Notebook.notebook)) /\
    Cells.program_of c' = Some body' /\
    In "find_depth_vmap" (cell_stores body').
Proof.
  apply (cells_read_only_earlier_names
           (firstn 9 (Nbformat.code_cells Notebook.notebook))
           Notebook.cell_15
           (skipn 10 (Nbformat.code_cells Notebook.notebook))
           Cells.code_15).
  - vm_compute. reflexivity.
  - vm_compute. reflexivity.
  - vm_compute. left. reflexivity.
Defined.

(** No read is left dangling even inside a cell: by the time a statement
    runs, an earlier cell or an earlier statement of the same cell has bound
    every name it reads. *)
Lemma no_dangling_reads :
  Forall (fun r => snd r = []) (dangling_cells builtins Cells.programs).
Proof. vm_compute. repeat constructor. Qed.

End NameFlow.

(** ** The exclude pattern *)

Section ExcludePattern.

Import Regex.

Lemma append_assoc (a b c : string) : (a ++ b) ++ c = a ++ (b ++ c).
Proof. induction a as [|x a IH]; simpl; [reflexivity|]. now rewrite IH. Qed.
















End ExcludePattern.

(** ** Evaluation depth *)

(** The interpreter counts down a depth.  More depth never changes a
    result that was reached: a computation that ends otherwise than by
    running out of depth ends the same way, on the same kernel, at every
    greater depth. *)

Section Depth.

Import Python Kernel.

Lemma refines_refl {A : Type} (m : M A) : refines m m.
Proof. intros w r w' H _. exact H. Qed.

Lemma refines_bind {A B : Type} (m m' : M A) (k k' : A -> M B) :
  refines m m' -> (forall a, refines (k a) (k' a)) ->
  refines (bind m k) (bind m' k').
Proof.
  intros Hm Hk w r w' H Hr. unfold bind in *.
  destruct (m w) as [[a|e|why|] w1] eqn:E.
  - rewrite (Hm _ _ _ E) by discriminate. now apply Hk.
  - rewrite (Hm _ _ _ E) by discriminate. exact H.
  - rewrite (Hm _ _ _ E) by discriminate. exact H.
  - injection H as <- <-. contradiction.
Qed.

Lemma refines_mapM {A B : Type} (f g : A -> M B) (l : list A) :
  (forall x, refines (f x) (g x)) -> refines (mapM f l) (mapM g l).
Proof.
  intros Hf. induction l as [|x l IH]; simpl.
  - apply refines_refl.
  - apply refines_bind; [apply Hf|]. intros y.
    apply refines_bind; [exact IH|]. intros ys. apply refines_refl.
Qed.

Lemma refines_foldM {A B : Type} (f g : B -> A -> M B) (l : list A) :
  (forall b x, refines (f b x) (g b x)) ->
  forall b, refines (foldM f l b) (foldM g l b).
Proof.
  intros Hf. induction l as [|x l IH]; intros b; simpl.
  - apply refines_refl.
  - apply refines_bind; [apply Hf|]. intros b'. apply IH.
Qed.

Lemma refines_block (f g : option frame -> stmt -> M (option frame * signal)) body :
  (forall loc s, refines (f loc s) (g loc s)) ->
  forall loc, refines (block f loc body) (block g loc body).
Proof.
  intros Hf. induction body as [|s body IH]; intros loc; simpl.
  - apply refines_refl.
  - apply refines_bind; [apply Hf|]. intros r.
    destruct (snd r); [apply IH|apply refines_refl].
Qed.

Lemma refines_cell_block
    (f g : option frame -> stmt -> M (option frame * signal))
    (sf sg : option frame -> expr -> M unit) body :
  (forall loc s, refines (f loc s) (g loc s)) ->
  (forall loc e, refines (sf loc e) (sg loc e)) ->
  forall loc, refines (cell_block f sf loc body) (cell_block g sg loc body).
Proof.
  intros Hf Hs. induction body as [|s body IH]; intros loc.
  - apply refines_refl.
  - assert (Hstep : refines
              (r <- f loc s ;;
               match snd r with
               | Normal => cell_block f sf (fst r) body
               | Returned _ => ret r
               end)
              (r <- g loc s ;;
               match snd r with
               | Normal => cell_block g sg (fst r) body
               | Returned _ => ret r
               end)).
    { apply refines_bind; [apply Hf|]. intros r.
      destruct (snd r); [apply IH|apply refines_refl]. }
    destruct s; try exact Hstep.
    destruct body; [|exact Hstep].
    simpl. apply refines_bind; [apply Hs|]. intros ?. apply refines_refl.
Qed.

Lemma refines_for_each (bf bg : option frame -> value -> M (option frame))
    (f g : option frame -> M (option frame * signal)) items :
  (forall loc x, refines (bf loc x) (bg loc x)) ->
  (forall loc, refines (f loc) (g loc)) ->
  forall loc, refines (for_each bf f loc items) (for_each bg g loc items).
Proof.
  intros Hb Hf. induction items as [|x items IH]; intros loc; simpl.
  - apply refines_refl.
  - apply refines_bind; [apply Hb|]. intros loc1.
    apply refines_bind; [apply Hf|]. intros r.
    destruct (snd r); [apply IH|apply refines_refl].
Qed.

Ltac deeper_step IHe IHa IHx :=
  first
    [ apply refines_refl
    | apply IHe
    | apply IHa
    | apply IHx
    | apply refines_bind; [|intros ?]
    | apply refines_mapM; intros ?
    | apply refines_foldM; intros ? ?
    | apply refines_block; intros ? ?
    | apply refines_cell_block; intros ? ?
    | apply refines_for_each; [intros ? ?|intros ?]
    | match goal with
      | |- refines (match ?x with _ => _ end) _ => destruct x
      | |- refines (if ?x then _ else _) _ => destruct x
      end ].

Lemma deeper fuel : forall fuel', fuel <= fuel' ->
  (forall loc e, refines (eval fuel loc e) (eval fuel' loc e)) /\
  (forall f args kws, refines (apply fuel f args kws) (apply fuel' f args kws)) /\
  (forall loc s, refines (exec fuel loc s) (exec fuel' loc s)).
Proof.
  induction fuel as [|fuel IH]; intros fuel' Hle.
  - repeat split; intros; intros w r w' H Hr; simpl in H;
      injection H as <- <-; contradiction.
  - destruct fuel' as [|fuel']; [lia|].
    destruct (IH fuel' ltac:(lia)) as (IHe & IHa & IHx).
    repeat split.
    + intros loc e. destruct e; cbn [eval]; repeat deeper_step IHe IHa IHx.
    + intros f args kws. destruct f; cbn [apply]; repeat deeper_step IHe IHa IHx.
    + intros loc s. destruct s; cbn [exec]; repeat deeper_step IHe IHa IHx.
Qed.

Lemma show_deeper fuel fuel' loc e :
  fuel <= fuel' -> refines (show fuel loc e) (show fuel' loc e).
Proof.
  intros Hle. unfold show. apply refines_bind.
  - apply (deeper fuel fuel' Hle).
  - intros v. apply refines_refl.
Qed.

Lemma run_cell_deeper fuel fuel' body w :
  fuel <= fuel' ->
  ran_out (fst (run_cell fuel body w)) = false ->
  run_cell fuel' body w = run_cell fuel body w.
Proof.
  intros Hle. unfold run_cell, ran_out.
  destruct (cell_block (exec fuel) (show fuel) None (statements body) (clear w))
    as [r w'] eqn:E.
  simpl. intros Hr.
  assert (Hdeep : cell_block (exec fuel') (show fuel') None (statements body) (clear w)
                  = (r, w')).
  { apply (refines_cell_block (exec fuel) (exec fuel') (show fuel) (show fuel')).
    - intros loc s. apply (deeper fuel fuel' Hle).
    - intros loc e. now apply show_deeper.
    - exact E.
    - intros ->. discriminate Hr. }
  now rewrite Hdeep.
Qed.

Lemma run_cells_deeper fuel fuel' cells :
  fuel <= fuel' -> forall w,
  forallb (fun r => negb (ran_out (snd r))) (run_cells fuel cells w) = true ->
  run_cells fuel' cells w = run_cells fuel cells w.
Proof.
  intros Hle. induction cells as [|[i body] cells IH]; intros w H; [reflexivity|].
  simpl in *. destruct (run_cell fuel body w) as [r w'] eqn:E.
  simpl in H. apply andb_true_iff in H. destruct H as [Hr H].
  apply negb_true_iff in Hr.
  rewrite (run_cell_deeper fuel fuel' body w Hle) by (rewrite E; exact Hr).
  rewrite E. f_equal. now apply IH.
Qed.

(** The depth of [run_notebook] is enough: at any greater depth every
    cell ends the same way, with the same page and bindings. *)
Lemma depth_suffices seed fuel :
  depth <= fuel -> run_cells fuel Cells.programs (fresh seed) = run_notebook seed.
Proof.
  intros Hle. unfold run_notebook. apply run_cells_deeper; [exact Hle|].
  vm_compute. reflexivity.
Qed.

End Depth.

Section Equations.

Import Python Kernel Functions.

(** ** The equations of the interpreter *)

(** One equation for each form of expression, call and statement that the
    functions below use; each holds by unfolding the interpreter once. *)

Lemma eval_Name fuel loc id : eval (S fuel) loc (Name id) = lookup loc id.
Proof. reflexivity. Qed.
Lemma eval_Constant fuel loc c : eval (S fuel) loc (Constant c) = lift (constant_value c).
Proof. reflexivity. Qed.
Lemma eval_Attribute fuel loc v a :
  eval (S fuel) loc (Attribute v a) = bind (eval fuel loc v) (fun x => lift (attribute x a)).
Proof. reflexivity. Qed.
Lemma eval_BinOp fuel loc l op r :
  eval (S fuel) loc (BinOp l op r) =
  bind (eval fuel loc l) (fun x => bind (eval fuel loc r) (fun y => lift (binary op x y))).
Proof. reflexivity. Qed.
Lemma eval_Gt fuel loc l r :
  eval (S fuel) loc (Gt l r) =
  bind (eval fuel loc l) (fun x => bind (eval fuel loc r) (fun y => lift (greater x y))).
Proof. reflexivity. Qed.
Lemma eval_Call fuel loc f args kws lay :
  eval (S fuel) loc (Call f args kws lay) =
  bind (eval fuel loc f) (fun fv =>
  bind (mapM (eval fuel loc) args) (fun avs =>
  bind (mapM (fun kv => bind (eval fuel loc (snd kv)) (fun v => ret (fst kv, v))) kws) (fun kvs =>
  apply fuel fv avs kvs))).
Proof. reflexivity. Qed.
Lemma apply_VDef fuel name params body args kws :
  apply (S fuel) (VDef name params body) args kws =
  bind (lift (bind_params params args kws)) (fun locals =>
  bind (block (exec fuel)
         (Some {| local_names := (params ++ flat_map Names.stores body)%list;
                  bound := locals |})
         (statements body)) (fun r =>
  match snd r with
  | Returned v => ret v
  | Normal => ret VNone
  end)).
Proof. reflexivity. Qed.
Lemma exec_Return fuel loc v :
  exec (S fuel) loc (Return v) = bind (eval fuel loc v) (fun x => ret (loc, Returned x)).
Proof. reflexivity. Qed.
Lemma mapM_nil {A B} (f : A -> M B) : mapM f [] = ret [].
Proof. reflexivity. Qed.
Lemma mapM_cons {A B} (f : A -> M B) x l :
  mapM f (x :: l) = bind (f x) (fun y => bind (mapM f l) (fun ys => ret (y :: ys))).
Proof. reflexivity. Qed.
Lemma block_nil f loc : block f loc [] = ret (loc, Normal).
Proof. reflexivity. Qed.
Lemma block_cons f loc s rest :
  block f loc (s :: rest) =
  bind (f loc s) (fun r => match snd r with Normal => block f (fst r) rest | Returned _ => ret r end).
Proof. reflexivity. Qed.

(** Computations that leave the kernel as it is. *)
Lemma pure_lift {A} (r : result A) w : lift r w = (r, w).
Proof. reflexivity. Qed.
Lemma pure_ret {A} (a : A) w : ret a w = (Ok a, w).
Proof. reflexivity. Qed.
Lemma pure_bind {A B} (m : M A) (k : A -> M B) r f w :
  m w = (r, w) -> (forall a, k a w = (f a, w)) -> bind m k w = (rbind r f, w).
Proof.
  intros Hm Hk. unfold bind. rewrite Hm. destruct r; simpl; auto.
Qed.
Lemma bind_ok {A B} (m : M A) (k : A -> M B) a w res :
  m w = (Ok a, w) -> k a w = res -> bind m k w = res.
Proof. intros Hm Hk. unfold bind. now rewrite Hm. Qed.

Lemma lookup_local f name v w :
  assoc name (bound f) = Some v -> lookup (Some f) name w = (Ok v, w).
Proof. intros H. unfold lookup. now rewrite H. Qed.
Lemma lookup_global f name v w :
  assoc name (bound f) = None -> Text.mem name (local_names f) = false ->
  assoc name (globals w) = Some v -> lookup (Some f) name w = (Ok v, w).
Proof. intros H1 H2 H3. unfold lookup. now rewrite H1, H2, H3. Qed.

Lemma apply_elementwise fuel name args kws :
  Text.mem name ["jax.numpy.log"; "jax.numpy.exp"; "jax.numpy.cos"] = true ->
  apply (S fuel) (VLib name) args kws = lift (elementwise args kws).
Proof.
  intros H. unfold Text.mem in H. simpl in H.
  repeat (apply orb_true_iff in H; destruct H as [H|H]); try discriminate;
    apply String.eqb_eq in H; subst name; reflexivity.
Qed.


Lemma pure_ok {A} (m : M A) r a w :
  m w = (r, w) -> r = Ok a -> m w = (Ok a, w).
Proof. now intros -> ->. Qed.

Lemma apply_library fuel name args kws :
  String.eqb name "jax.lax.cond" = false ->
  apply (S fuel) (VLib name) args kws = library name args kws.
Proof. intros H. cbn [apply]. now rewrite H. Qed.

(** Evaluation, by the equations, of an expression that only reads names
    and calls library functions without effect. *)
Ltac ev :=
  lazymatch goal with
  | |- eval (S _) _ (Name _) _ = _ =>
      rewrite eval_Name;
      first [ apply lookup_local; reflexivity
            | eapply lookup_global; [reflexivity|reflexivity|eassumption] ]
  | |- eval (S _) _ (Constant _) _ = _ => rewrite eval_Constant; apply pure_lift
  | |- eval (S _) _ (Attribute _ _) _ = _ =>
      rewrite eval_Attribute; eapply pure_bind; [ev|intros ?; apply pure_lift]
  | |- eval (S _) _ (BinOp _ _ _) _ = _ =>
      rewrite eval_BinOp;
      eapply pure_bind; [ev|intros ?; eapply pure_bind; [ev|intros ?; apply pure_lift]]
  | |- eval (S _) _ (Gt _ _) _ = _ =>
      rewrite eval_Gt;
      eapply pure_bind; [ev|intros ?; eapply pure_bind; [ev|intros ?; apply pure_lift]]
  | |- eval (S _) _ (Call _ _ _ _) _ = _ =>
      rewrite eval_Call;
      eapply bind_ok;
      [ eapply pure_ok; [ev|vm_compute; reflexivity]
      | eapply pure_bind;
        [ evs
        | intros ?; eapply bind_ok; [reflexivity|];
          rewrite apply_library by reflexivity; apply pure_lift ] ]
  end
with evs :=
  lazymatch goal with
  | |- mapM _ [] _ = _ => rewrite mapM_nil; apply pure_ret
  | |- mapM _ (_ :: _) _ = _ =>
      rewrite mapM_cons;
      eapply pure_bind; [ev|intros ?; eapply pure_bind; [evs|intros ?; apply pure_ret]]
  end.

(** Write the expression to evaluate with constructors only. *)
Ltac spell :=
  match goal with
  | |- eval ?fuel ?loc ?e ?w = _ =>
      let e' := eval cbv in e in change (eval fuel loc e w) with (eval fuel loc e' w)
  end.

(** Results that agree once every intermediate result is named. *)
Ltac normal :=
  cbv -[binary elementwise greater truth traced settle lifted differentiable
        unbatch batched grad_result cond_result is_concrete as_array].

Ltac same_result :=
  normal;
  repeat match goal with
         | |- context [match ?r with Ok _ => _ | Raise _ => _ | Stuck _ => _ | OutOfFuel => _ end] =>
             lazymatch r with
             | match _ with _ => _ end => fail
             | _ => destruct r; normal
             end
         end;
  try reflexivity.

Lemma apply_VDef_return fuel name params body args kws locals e r w :
  bind_params params args kws = Ok locals ->
  statements body = [Return e] ->
  eval fuel (Some {| local_names := (params ++ flat_map Names.stores body)%list;
                     bound := locals |}) e w = (r, w) ->
  apply (S (S fuel)) (VDef name params body) args kws w = (r, w).
Proof.
  intros Hp Hb He. rewrite apply_VDef, Hp, Hb.
  eapply bind_ok; [reflexivity|].
  rewrite block_cons, exec_Return. unfold bind. rewrite He.
  destruct r; reflexivity.
Qed.

Lemma some_func_agrees n f x A P w :
  definition_of "some_func" Cells.code_18 = Some f ->
  assoc "jnp" (globals w) = Some (VModule "jax.numpy") ->
  apply (10 + n) f [x; A; P] [] w = (some_func x A P, w).
Proof.
  intros Hf Hjnp. injection Hf as <-.
  change (10 + n) with (S (S (S (S (S (S (S (S (S (S n)))))))))).
  eapply apply_VDef_return; [reflexivity|reflexivity|].
  spell. eapply eq_trans; [ev|].
  unfold some_func. f_equal. same_result.
Qed.

Lemma apply_VGrad fuel g k args kws :
  apply (S fuel) (VGrad g k) args kws =
  match nth_error args (Z.to_nat k) with
  | None => raise (TypeError "argnums exceeds the positional arguments")
  | Some x =>
      if differentiable x then
        bind (apply fuel g (replace_nth (Z.to_nat k) (lifted x) args) kws)
             (fun r => lift (grad_result x r))
      else raise (TypeError "grad requires real-valued inputs")
  end.
Proof. reflexivity. Qed.

Lemma apply_VJit fuel g args kws :
  apply (S fuel) (VJit g) args kws =
  bind (lift (rmap traced args)) (fun targs =>
  bind (lift (rmap (fun kv => rbind (traced (snd kv)) (fun v => Ok (fst kv, v))) kws)) (fun tkws =>
  bind (apply fuel g targs tkws) (fun r =>
  ret (settle (forallb is_concrete args && forallb (fun kv => is_concrete (snd kv)) kws) r)))).
Proof. reflexivity. Qed.

Lemma apply_VVmap fuel g spec args :
  apply (S fuel) (VVmap g spec) args [] =
  bind (lift (axes_for spec args)) (fun specs =>
  bind (lift (rmap (fun sv => unbatch (fst sv) (snd sv)) (zip specs args))) (fun rs =>
  match flat_map snd rs with
  | [] => raise (ValueError "vmap must have at least one non-None value in in_axes")
  | n :: ns =>
      if forallb (Z.eqb n) ns then
        bind (apply fuel g (map fst rs) []) (fun r =>
        ret (batched n (forallb is_concrete args) r))
      else raise (ValueError "vmap got inconsistent sizes for array axes to be mapped")
  end)).
Proof. reflexivity. Qed.

Lemma apply_VLambda fuel ps b env args kws :
  apply (S fuel) (VLambda ps b env) args kws =
  bind (lift (bind_params ps args kws)) (fun locals =>
  eval fuel (Some {| local_names := ps; bound := (locals ++ env)%list |}) b).
Proof. reflexivity. Qed.

Lemma apply_cond fuel pred on_true on_false :
  apply (S fuel) (VLib "jax.lax.cond") [pred; on_true; on_false] [] =
  match as_array pred with
  | Some p =>
      match shape p with
      | [] =>
          bind (apply fuel on_true [] []) (fun r1 =>
          bind (apply fuel on_false [] []) (fun r2 => lift (cond_result p r1 r2)))
      | _ :: _ => raise (TypeError "Pred must be a scalar")
      end
  | None => raise (TypeError "Pred type must be either boolean or number")
  end.
Proof. reflexivity. Qed.

Lemma eval_Lambda fuel loc ps b :
  eval (S fuel) loc (Lambda ps b) = ret (VLambda ps b (captured_by loc)).
Proof. reflexivity. Qed.

Lemma exec_If fuel loc test body orelse :
  exec (S fuel) loc (If test body orelse) =
  bind (eval fuel loc test) (fun t =>
  bind (lift (truth t)) (fun b =>
  block (exec fuel) loc (statements (if b then body else orelse)))).
Proof. reflexivity. Qed.

Lemma unbatch_none v : unbatch VNone v = Ok (v, []).
Proof. destruct v; reflexivity. Qed.

Lemma grad_agrees fuel g (G : value -> result value) x A P w :
  apply fuel g [lifted x; A; P] [] w = (G (lifted x), w) ->
  apply (S fuel) (VGrad g 0) [x; A; P] [] w = (grad G x, w).
Proof.
  intros H. rewrite apply_VGrad. unfold grad. cbn [Z.to_nat nth_error replace_nth].
  destruct (differentiable x); [|reflexivity].
  unfold bind. rewrite H. destruct (G (lifted x)); reflexivity.
Qed.

Lemma vmap_agrees fuel g (G : value -> result value) x A P w :
  (forall x', apply fuel g [x'; A; P] [] w = (G x', w)) ->
  apply (S fuel) (VVmap g (VTuple [VInt 0; VNone; VNone])) [x; A; P] [] w
  = (vmap G x (is_concrete A && is_concrete P), w).
Proof.
  intros H. rewrite apply_VVmap. unfold vmap.
  eapply bind_ok; [reflexivity|].
  cbn [zip rmap fst snd]. rewrite !unbatch_none.
  unfold bind, lift. destruct (unbatch (VInt 0) x) as [[x' ns]| | |]; cbn [rbind]; try reflexivity.
  cbn [flat_map map fst snd]. rewrite !app_nil_r.
  destruct ns as [|n ns]; [reflexivity|].
  destruct (forallb (Z.eqb n) ns); [|reflexivity].
  rewrite H. cbn [forallb]. rewrite andb_true_r.
  destruct (G x'); reflexivity.
Qed.

Lemma jit_agrees fuel g (G : value -> result value) x w :
  (forall tx, apply fuel g [tx] [] w = (G tx, w)) ->
  apply (S fuel) (VJit g) [x] [] w = (jit G x, w).
Proof.
  intros H. rewrite apply_VJit. unfold jit, bind, lift. cbn [rmap].
  destruct (traced x) as [tx| | |]; cbn [rbind]; try reflexivity.
  rewrite H. cbn [forallb]. rewrite !andb_true_r.
  destruct (G tx); reflexivity.
Qed.

Lemma some_func_grad_agrees n f x A P w :
  definition_of "some_func" Cells.code_18 = Some f ->
  assoc "jnp" (globals w) = Some (VModule "jax.numpy") ->
  apply (11 + n) (VGrad f 0) [x; A; P] [] w = (some_func_grad x A P, w).
Proof.
  intros Hf Hjnp. apply (grad_agrees (10 + n) f (fun x => some_func x A P)).
  now apply some_func_agrees.
Qed.

Lemma some_func_grad_vmap_agrees n f x A P w :
  definition_of "some_func" Cells.code_18 = Some f ->
  assoc "jnp" (globals w) = Some (VModule "jax.numpy") ->
  apply (12 + n) (VVmap (VGrad f 0) (VTuple [VInt 0; VNone; VNone])) [x; A; P] [] w
  = (some_func_grad_vmap x A P, w).
Proof.
  intros Hf Hjnp.
  apply (vmap_agrees (11 + n) (VGrad f 0) (fun x => some_func_grad x A P)).
  intros x'. now apply some_func_grad_agrees.
Qed.

Lemma block_return fuel loc e r w :
  eval fuel loc e w = (r, w) ->
  block (exec (S fuel)) loc [Return e] w = (rbind r (fun v => Ok (loc, Returned v)), w).
Proof.
  intros H. rewrite block_cons, exec_Return. unfold bind. rewrite H.
  destruct r; reflexivity.
Qed.

Lemma exec_if_return fuel loc test e1 e2 rt r1 r2 w :
  eval (S fuel) loc test w = (rt, w) ->
  eval fuel loc e1 w = (r1, w) ->
  eval fuel loc e2 w = (r2, w) ->
  exec (S (S fuel)) loc (If test [Return e1] [Return e2]) w =
  (rbind rt (fun t => rbind (truth t) (fun b =>
     rbind (if b then r1 else r2) (fun v => Ok (loc, Returned v)))), w).
Proof.
  intros Ht H1 H2. rewrite exec_If.
  eapply eq_trans.
  - eapply pure_bind; [exact Ht|]. intros t.
    eapply pure_bind; [apply pure_lift|]. intros b.
    instantiate (1 := fun b => rbind (if b then r1 else r2) (fun v => Ok (loc, Returned v))).
    destruct b; cbn [statements filter]; now apply block_return.
  - reflexivity.
Qed.

Lemma apply_VDef_if fuel name params body args kws locals test e1 e2 rt r1 r2 w :
  bind_params params args kws = Ok locals ->
  statements body = [If test [Return e1] [Return e2]] ->
  eval (S fuel) (Some {| local_names := (params ++ flat_map Names.stores body)%list;
                         bound := locals |}) test w = (rt, w) ->
  eval fuel (Some {| local_names := (params ++ flat_map Names.stores body)%list;
                     bound := locals |}) e1 w = (r1, w) ->
  eval fuel (Some {| local_names := (params ++ flat_map Names.stores body)%list;
                     bound := locals |}) e2 w = (r2, w) ->
  apply (S (S (S fuel))) (VDef name params body) args kws w =
  (rbind rt (fun t => rbind (truth t) (fun b => if b then r1 else r2)), w).
Proof.
  intros Hp Hb Ht H1 H2. rewrite apply_VDef, Hp, Hb.
  eapply bind_ok; [reflexivity|].
  rewrite block_cons. unfold bind.
  rewrite (exec_if_return _ _ _ _ _ _ _ _ _ Ht H1 H2).
  destruct rt as [t| | |]; try reflexivity. cbn [rbind].
  destruct (truth t) as [b| | |]; try reflexivity. cbn [rbind].
  destruct b; [destruct r1|destruct r2]; reflexivity.
Qed.

Lemma func_if1_agrees n f x w :
  definition_of "func_if1" Cells.code_31 = Some f ->
  apply (8 + n) (VJit f) [x] [] w = (func_if1 x, w).
Proof.
  intros Hf. injection Hf as <-.
  change (8 + n) with (S (S (S (S (S (S (S (S n)))))))).
  apply jit_agrees. intros tx.
  eapply eq_trans.
  - eapply apply_VDef_if; [reflexivity|reflexivity|spell; ev|spell; ev|spell; ev].
  - f_equal; same_result.
Qed.

Lemma apply_cond_lambdas fuel p b1 b2 env r1 r2 w :
  eval fuel (Some {| local_names := []; bound := env |}) b1 w = (r1, w) ->
  eval fuel (Some {| local_names := []; bound := env |}) b2 w = (r2, w) ->
  apply (S (S fuel)) (VLib "jax.lax.cond") [p; VLambda [] b1 env; VLambda [] b2 env] [] w
  = (cond p (fun _ => r1) (fun _ => r2), w).
Proof.
  intros H1 H2. rewrite apply_cond. unfold cond.
  destruct (as_array p) as [a|]; [|reflexivity].
  destruct (shape a); [|reflexivity].
  rewrite !apply_VLambda.
  eapply eq_trans.
  - eapply pure_bind.
    + eapply bind_ok; [reflexivity|]. exact H1.
    + intros v1. eapply pure_bind.
      * eapply bind_ok; [reflexivity|]. exact H2.
      * intros v2. apply pure_lift.
  - reflexivity.
Qed.

Lemma eval_cond_call fuel loc p b1 b2 lay rp r1 r2 w :
  lookup loc "jax" w = (Ok (VModule "jax"), w) ->
  eval (S (S (S fuel))) loc p w = (rp, w) ->
  eval (S fuel) (Some {| local_names := []; bound := captured_by loc |}) b1 w = (r1, w) ->
  eval (S fuel) (Some {| local_names := []; bound := captured_by loc |}) b2 w = (r2, w) ->
  eval (S (S (S (S fuel)))) loc
    (Call (Attribute (Attribute (Name "jax") "lax") "cond")
       [p; Lambda [] b1; Lambda [] b2] [] lay) w
  = (rbind rp (fun pv => cond pv (fun _ => r1) (fun _ => r2)), w).
Proof.
  intros Hjax Hp H1 H2. rewrite eval_Call.
  eapply bind_ok.
  { rewrite !eval_Attribute, eval_Name.
    eapply bind_ok; [eapply bind_ok; [exact Hjax|reflexivity]|reflexivity]. }
  rewrite !mapM_cons, !mapM_nil, !eval_Lambda.
  unfold bind at 1 2. rewrite Hp.
  destruct rp as [pv| | |]; try reflexivity.
  change (qualified (qualified "jax" "lax") "cond") with "jax.lax.cond".
  now apply apply_cond_lambdas.
Qed.

Lemma func_if2_agrees n f x w :
  definition_of "func_if2" Cells.code_33 = Some f ->
  assoc "jax" (globals w) = Some (VModule "jax") ->
  apply (10 + n) (VJit f) [x] [] w = (func_if2 x, w).
Proof.
  intros Hf Hjax. injection Hf as <-.
  change (10 + n) with (S (S (S (S (S (S (S (S (S (S n)))))))))).
  apply jit_agrees. intros tx.
  eapply apply_VDef_return; [reflexivity|reflexivity|].
  spell. eapply eq_trans.
  - eapply eval_cond_call.
    + eapply lookup_global; [reflexivity|reflexivity|exact Hjax].
    + ev.
    + ev.
    + ev.
  - f_equal; same_result.
Qed.

(** *** What the functions do, for every argument *)
Lemma broadcast_nil_l sh : broadcast [] sh = Some sh.
Proof. unfold broadcast. simpl. now rewrite rev_involutive. Qed.

Lemma broadcast_nil_r sh : broadcast sh [] = Some sh.
Proof.
  assert (H : broadcast_rev (rev sh) [] = Some (rev sh))
    by (destruct (rev sh); reflexivity).
  unfold broadcast. change (rev []) with (@nil Z). now rewrite H, rev_involutive.
Qed.

Lemma join_fixed_r s : join s Fixed = s.
Proof. now destruct s. Qed.

Lemma join_same s : join s s = s.
Proof. now destruct s. Qed.

Lemma promote_float_l k : promote KFloat k = KFloat.
Proof. now destruct k. Qed.

Lemma promote_float_r k : promote k KFloat = KFloat.
Proof. now destruct k. Qed.

Lemma owner_of_same o : owner_of o o = o.
Proof. now destruct o. Qed.

(** A float times an array, an array over a float. *)
Lemma float_times_array l a :
  binary Mult (VFloat l) (VArray a) =
  Ok (VArray {| lib := lib a; dtype := KFloat; shape := shape a;
                source := source a; concrete := concrete a |}).
Proof.
  unfold binary, operands, beside, array_op. cbn [is_quantity python_number orb andb as_array].
  cbn [shape lib dtype source concrete scalar].
  rewrite broadcast_nil_l, owner_of_same, promote_float_l. reflexivity.
Qed.

Lemma array_over_float l a :
  binary Div (VArray a) (VFloat l) =
  Ok (VArray {| lib := lib a; dtype := KFloat; shape := shape a;
                source := source a; concrete := concrete a |}).
Proof.
  unfold binary, operands, beside, array_op. cbn [is_quantity python_number orb andb as_array].
  cbn [shape lib dtype source concrete scalar].
  rewrite broadcast_nil_r, owner_of_same, join_fixed_r, andb_true_r. reflexivity.
Qed.

Lemma some_func_of_array a l1 l2 :
  some_func (VArray a) (VFloat l1) (VFloat l2) =
  Ok (jax_array KFloat (shape a) (source a) (concrete a)).
Proof.
  unfold some_func.
  change (binary Mult (VInt 2) (VFloat None)) with (Ok (VFloat None)). cbn [rbind].
  rewrite float_times_array. cbn [rbind].
  rewrite array_over_float. cbn [rbind elementwise as_array shape source concrete].
  unfold jax_array. rewrite float_times_array. reflexivity.
Qed.

(** What cell 20 says: [jax.grad] only works on scalar outputs, and the
    output of [some_func] is an array whenever [x] is. *)
Lemma some_func_grad_of_array a l1 l2 :
  dtype a = KFloat ->
  some_func_grad (VArray a) (VFloat l1) (VFloat l2) =
  match shape a with
  | [] => Ok (jax_array KFloat [] (source a) (concrete a))
  | _ :: _ => Raise (TypeError "Gradient only defined for scalar-output functions")
  end.
Proof.
  intros Hk. unfold some_func_grad, grad. cbn [differentiable lifted]. rewrite Hk.
  cbn [kind_eqb kind_rank Nat.eqb]. rewrite some_func_of_array. cbn [rbind retag shape source concrete].
  unfold jax_array, grad_result. cbn [shape dtype source concrete].
  destruct (shape a) eqn:Hs; [|reflexivity].
  cbn [kind_eqb kind_rank Nat.eqb gradient jax_array]. unfold jax_array.
  now rewrite Hs, join_same, andb_diag.
Qed.

Lemma some_func_grad_vmap_of_vector a n l1 l2 :
  dtype a = KFloat -> shape a = [n] ->
  some_func_grad_vmap (VArray a) (VFloat l1) (VFloat l2) =
  Ok (jax_array KFloat [n] (source a) (concrete a)).
Proof.
  intros Hk Hs. unfold some_func_grad_vmap, vmap. cbn [unbatch]. rewrite Hs.
  cbn [rbind fst snd forallb]. rewrite some_func_grad_of_array by exact Hk.
  cbn [shape rbind batched jax_array as_array is_concrete andb source dtype].
  unfold jax_array. now rewrite andb_true_r.
Qed.

(** A number or an array under [jit]: a tracer, unless it is a Python
    integer beyond the default integer type. *)
Lemma traced_of x a :
  as_array x = Some a ->
  traced x =
  if in_int32 x then Ok (VArray (retag Jax false a))
  else Raise (OverflowError "Python int too large to convert to int32").
Proof.
  intros Ha. destruct x; try discriminate; cbn [traced in_int32]; cbn [as_array] in *;
    try (injection Ha as <-); reflexivity.
Qed.

(** A Python [if] has no truth value to test under [jit], whatever number
    or array the function is called with: the test of an array of one
    element is a tracer without a truth value, the test of any other array
    is ambiguous. *)
Lemma func_if1_raises x a :
  as_array x = Some a ->
  func_if1 x =
  Raise (if in_int32 x then
           if (size (shape a) =? 1)%Z then TracerBoolConversionError
           else ambiguous (size (shape a))
         else OverflowError "Python int too large to convert to int32").
Proof.
  intros Ha. unfold func_if1, jit. rewrite (traced_of x a Ha).
  destruct (in_int32 x); [|reflexivity]. cbn [rbind].
  unfold greater, greater_arrays, operands, beside, array_op.
  cbn [python_number andb as_array retag shape lib dtype source concrete scalar].
  rewrite broadcast_nil_r. cbn [rbind with_kind truth concrete shape andb].
  destruct (size (shape a) =? 1)%Z; reflexivity.
Qed.

(** [jax.lax.cond] takes the traced test: for a float the two branches are
    scalars of the same kind. *)
Lemma func_if2_of_float l :
  func_if2 (VFloat l) = Ok (jax_array KFloat [] Fixed true).
Proof. reflexivity. Qed.

(** *** The two errors, on any kernel *)

(** On any kernel on which [jnp] is [jax.numpy]: the gradient of
    [some_func] at a float array raises as soon as the array is not
    zero-dimensional, as in cell 19. *)
Lemma grad_of_some_func_raises n f a l1 l2 w :
  definition_of "some_func" Cells.code_18 = Some f ->
  assoc "jnp" (globals w) = Some (VModule "jax.numpy") ->
  dtype a = KFloat -> shape a <> [] ->
  apply (11 + n) (VGrad f 0) [VArray a; VFloat l1; VFloat l2] [] w =
  (Raise (TypeError "Gradient only defined for scalar-output functions"), w).
Proof.
  intros Hf Hjnp Hk Hs.
  rewrite (some_func_grad_agrees n f _ _ _ w Hf Hjnp).
  rewrite some_func_grad_of_array by exact Hk.
  destruct (shape a); [contradiction|reflexivity].
Qed.

(** Mapped over the points of a one-dimensional float array it gives a
    gradient for each point, as in cell 22. *)
Lemma vmap_of_grad_completes n f a m l1 l2 w :
  definition_of "some_func" Cells.code_18 = Some f ->
  assoc "jnp" (globals w) = Some (VModule "jax.numpy") ->
  dtype a = KFloat -> shape a = [m] ->
  apply (12 + n) (VVmap (VGrad f 0) (VTuple [VInt 0; VNone; VNone]))
    [VArray a; VFloat l1; VFloat l2] [] w =
  (Ok (jax_array KFloat [m] (source a) (concrete a)), w).
Proof.
  intros Hf Hjnp Hk Hs.
  rewrite (some_func_grad_vmap_agrees n f _ _ _ w Hf Hjnp).
  now rewrite (some_func_grad_vmap_of_vector a m).
Qed.

(** On any kernel: the jitted [func_if1] raises as in cell 32 for every
    float, every Boolean, every integer of the default integer type and
    every array of one element. *)
Lemma jit_of_if_raises n f x a w :
  definition_of "func_if1" Cells.code_31 = Some f ->
  as_array x = Some a ->
  in_int32 x = true -> size (shape a) = 1%Z ->
  apply (8 + n) (VJit f) [x] [] w = (Raise TracerBoolConversionError, w).
Proof.
  intros Hf Ha Hi Hs. rewrite (func_if1_agrees n f x w Hf).
  now rewrite (func_if1_raises x a Ha), Hi, Hs.
Qed.

(** On any kernel on which [jax] is the module [jax]: the jitted
    [func_if2] gives a scalar for every float, as in cell 34. *)
Lemma jit_of_cond_completes n f l w :
  definition_of "func_if2" Cells.code_33 = Some f ->
  assoc "jax" (globals w) = Some (VModule "jax") ->
  apply (10 + n) (VJit f) [VFloat l] [] w = (Ok (jax_array KFloat [] Fixed true), w).
Proof.
  intros Hf Hjax. rewrite (func_if2_agrees n f _ w Hf Hjax).
  now rewrite func_if2_of_float.
Qed.

End Equations.

(** ** Exception handling *)

Section Handlers.

Import Nbformat Text.

(** Sequencing has no handler: a computation raises exactly when its first
    part raises, or its first part gives a value and the rest raises. *)
Lemma bind_raises {A B : Type} (m : Kernel.M A) (k : A -> Kernel.M B) w e w' :
  Kernel.bind m k w = (Kernel.Raise e, w') <->
  m w = (Kernel.Raise e, w') \/
  exists a w1, m w = (Kernel.Ok a, w1) /\ k a w1 = (Kernel.Raise e, w').
Proof.
  unfold Kernel.bind. destruct (m w) as [[a|e0|why|] w1]; split.
  - intros H. right. now exists a, w1.
  - intros [H|(a' & w2 & H & Hk)]; [discriminate|].
    injection H as Ha Hw. subst a' w2. exact Hk.
  - intros H. injection H as -> ->. now left.
  - intros [H|(a' & w2 & H & _)]; [|discriminate]. now injection H as -> ->.
  - discriminate.
  - intros [H|(a' & w2 & H & _)]; discriminate.
  - discriminate.
  - intros [H|(a' & w2 & H & _)]; discriminate.
Qed.



End Handlers.

(** ** Running the notebook *)

Section Runs.

Import Kernel.

Lemma assoc_In {A : Type} k (l : list (string * A)) v :
  assoc k l = Some v -> In (k, v) l.
Proof.
  induction l as [|[k' v'] l IH]; simpl; [discriminate|].
  destruct (String.eqb k k') eqn:E.
  - apply String.eqb_eq in E. subst k'. intros H. injection H as ->. now left.
  - intros H. right. now apply IH.
Qed.

(** C1, as stated, fails: run from a fresh kernel, cell 19 calls the
    gradient of [some_func] on the 4096 points of [xgrid]; the function
    returns an array, not a scalar, and [jax.grad] raises [TypeError]. *)
Lemma cell_19_raises :
  ~ (forall seed, Forall (fun r => completes (snd r)) (run_notebook seed)).
Proof.
  intros H. specialize (H 0%Z). rewrite Forall_forall in H.
  assert (Hst : option_map status (assoc "19" (run_notebook 0)) =
                Some (Raise (TypeError "Gradient only defined for scalar-output functions")))
    by (vm_compute; reflexivity).
  destruct (assoc "19" (run_notebook 0)) as [r|] eqn:Ha; [|discriminate].
  apply assoc_In in Ha. specialize (H _ Ha).
  unfold completes in H. simpl in H, Hst. rewrite H in Hst. discriminate Hst.
Qed.

(** C1, amended.  Run top to bottom from a fresh kernel, each cell on the
    state the one before left, every code cell completes without raising
    except two that show an error on purpose: cell 19 raises the
    [TypeError] of [jax.grad] on a function whose output is not a scalar,
    which the markdown cell after it takes up, and cell 32 raises
    [TracerBoolConversionError] for a Python [if] on a traced value under
    [jax.jit].  The cells that repair them (21, 22 and 33, 34) complete.
    ([depth_suffices]: the evaluation depth of [run_notebook] is enough.) *)
Theorem cells_complete_except_two_demonstrations :
  forall seed,
    map (fun r => (fst r, status (snd r))) (run_notebook seed) =
      map (fun p => (fst p, ending (fst p))) Cells.programs /\
    map fst Cells.programs =
      ["1"; "3"; "4"; "5"; "6"; "10"; "11"; "13"; "14"; "15"; "16"; "18"; "19";
       "21"; "22"; "24"; "25"; "26"; "27"; "29"; "31"; "32"; "33"; "34"; "36";
       "37"; "38"; "39"; "40"; "41"; "42"] /\
    Nbformat.cell_id Notebook.cell_20 = Some "20" /\
    Nbformat.is_markdown Notebook.cell_20 = true /\
    String.prefix "Huh, what happened? Why did this error?"
      (Nbformat.source_text Notebook.cell_20) = true.
Proof. intros seed. repeat split; vm_compute; reflexivity. Qed.

(** *** Two runs *)

(** Neither a comment of a code cell nor the markdown that introduces it
    speaks of chance, so no cell is documented as stochastic. *)
Lemma nothing_documented_stochastic i :
  Text.documented_stochastic Notebook.notebook i = false.
Proof.
  assert (H : existsb (fun d => existsb Text.speaks_of_chance (snd d))
                (Text.documentation [] (Nbformat.cells Notebook.notebook)) = false)
    by (vm_compute; reflexivity).
  unfold Text.documented_stochastic.
  induction (Text.documentation [] (Nbformat.cells Notebook.notebook)) as [|d ds IH];
    [reflexivity|].
  simpl in *. apply orb_false_iff in H. destruct H as [Hd Hds].
  rewrite (IH Hds), Hd. destruct (fst d); [|reflexivity].
  now rewrite andb_false_r.
Qed.

(** C2, as stated, fails at cell 4: [np.random.normal] draws from NumPy's
    global generator, which a fresh kernel seeds from the operating
    system, so two runs bind different arrays to [x]; and neither a
    comment of the cell nor the markdown before it says so. *)
Lemma unseeded_draw_differs :
  ~ (forall seed1 seed2 i,
       In i (map fst Cells.programs) ->
       Text.documented_stochastic Notebook.notebook i = false ->
       same_in_two_runs seed1 seed2 i).
Proof.
  intros H. specialize (H 0%Z 1%Z "4").
  assert (Hin : In "4" (map fst Cells.programs)) by (vm_compute; tauto).
  pose proof (nothing_documented_stochastic "4") as Hdoc.
  specialize (H Hin Hdoc). unfold same_in_two_runs in H.
  vm_compute in H. discriminate H.
Qed.

(** C2, amended.  In two runs from a fresh kernel every code cell other
    than cell 4 ends the same way, leaves the same page (the values shown
    and the figures; the reports of [%timeit] and [%%time] appear without
    their numbers) and binds the same values.  Cell 4 completes and shows
    nothing in both, but binds [x] to an array drawn from the generator the
    operating system seeds; of the cells before cell 25, which binds [x]
    again from a seeded generator, only 5 and 6 read it, in their timed
    calls.  No cell is documented as stochastic. *)
Theorem runs_agree_except_unseeded_draw :
  (forall seed1 seed2,
     filter (fun r => negb (String.eqb (fst r) "4")) (run_notebook seed1) =
     filter (fun r => negb (String.eqb (fst r) "4")) (run_notebook seed2)) /\
  (forall seed,
     assoc "4" (run_notebook seed) =
       Some {| status := Ok tt;
               page := [];
               bindings :=
                 [("x", Some (VArray {| lib := NumPy; dtype := KFloat;
                                        shape := [1000000%Z; 3%Z];
                                        source := Entropy seed;
                                        concrete := true |}))] |}) /\
  map fst (filter (fun p => Text.mem "x" (Names.cell_reads (snd p)))
             (firstn 16 Cells.programs)) = ["5"; "6"] /\
  map fst (firstn 17 Cells.programs) =
    ["1"; "3"; "4"; "5"; "6"; "10"; "11"; "13"; "14"; "15"; "16"; "18"; "19";
     "21"; "22"; "24"; "25"] /\
  Forall (fun p => Text.documented_stochastic Notebook.notebook (fst p) = false)
    Cells.programs.
Proof.
  split; [|split; [|split; [|split]]].
  - intros seed1 seed2. vm_compute. reflexivity.
  - intros seed. vm_compute. reflexivity.
  - vm_compute. reflexivity.
  - vm_compute. reflexivity.
  - apply Forall_forall. intros p _. apply nothing_documented_stochastic.
Qed.

End Runs.
(** ** The other functions of the tutorial *)

Section TutorialFunctions.

Import Python Kernel Functions Tutorial.

(** *** More equations of the interpreter *)

Lemma eval_USub fuel loc x :
  eval (S fuel) loc (USub x) = bind (eval fuel loc x) (fun v => lift (negate v)).
Proof. reflexivity. Qed.
Lemma eval_Subscript fuel loc v i :
  eval (S fuel) loc (Subscript v i) =
  bind (eval fuel loc v) (fun x => bind (eval fuel loc i) (fun y => lift (subscript x y))).
Proof. reflexivity. Qed.
Lemma eval_Tuple fuel loc elts :
  eval (S fuel) loc (Tuple elts) =
  bind (mapM (eval fuel loc) elts) (fun vs => ret (VTuple vs)).
Proof. reflexivity. Qed.
Lemma exec_Assign fuel loc t v :
  exec (S fuel) loc (Assign t v) =
  bind (eval fuel loc v) (fun x => bind (store loc t x) (fun loc' => ret (loc', Normal))).
Proof. reflexivity. Qed.
Lemma exec_Trailing fuel loc s c :
  exec (S fuel) loc (Trailing s c) = exec fuel loc s.
Proof. reflexivity. Qed.

(** Evaluation by the equations, with keyword arguments, subscripts,
    tuples and unary minus. *)
Ltac evx :=
  lazymatch goal with
  | |- eval (S _) _ (Name _) _ = _ =>
      rewrite eval_Name;
      first [ apply lookup_local; reflexivity
            | eapply lookup_global; [reflexivity|reflexivity|eassumption] ]
  | |- eval (S _) _ (Constant _) _ = _ => rewrite eval_Constant; apply pure_lift
  | |- eval (S _) _ (Attribute _ _) _ = _ =>
      rewrite eval_Attribute; eapply pure_bind; [evx|intros ?; apply pure_lift]
  | |- eval (S _) _ (USub _) _ = _ =>
      rewrite eval_USub; eapply pure_bind; [evx|intros ?; apply pure_lift]
  | |- eval (S _) _ (BinOp _ _ _) _ = _ =>
      rewrite eval_BinOp;
      eapply pure_bind; [evx|intros ?; eapply pure_bind; [evx|intros ?; apply pure_lift]]
  | |- eval (S _) _ (Subscript _ _) _ = _ =>
      rewrite eval_Subscript;
      eapply pure_bind; [evx|intros ?; eapply pure_bind; [evx|intros ?; apply pure_lift]]
  | |- eval (S _) _ (Gt _ _) _ = _ =>
      rewrite eval_Gt;
      eapply pure_bind; [evx|intros ?; eapply pure_bind; [evx|intros ?; apply pure_lift]]
  | |- eval (S _) _ (Tuple _) _ = _ =>
      rewrite eval_Tuple; eapply pure_bind; [evxs|intros ?; apply pure_ret]
  | |- eval (S _) _ (Call _ _ _ _) _ = _ =>
      rewrite eval_Call;
      eapply bind_ok;
      [ eapply pure_ok; [evx|vm_compute; reflexivity]
      | eapply pure_bind;
        [ evxs
        | intros ?; eapply pure_bind;
          [ evxk
          | intros ?; rewrite apply_library by reflexivity; apply pure_lift ] ] ]
  end
with evxs :=
  lazymatch goal with
  | |- mapM _ [] _ = _ => rewrite mapM_nil; apply pure_ret
  | |- mapM _ (_ :: _) _ = _ =>
      rewrite mapM_cons;
      eapply pure_bind; [evx|intros ?; eapply pure_bind; [evxs|intros ?; apply pure_ret]]
  end
with evxk :=
  lazymatch goal with
  | |- mapM _ [] _ = _ => rewrite mapM_nil; apply pure_ret
  | |- mapM _ (_ :: _) _ = _ =>
      rewrite mapM_cons; cbn [fst snd];
      eapply pure_bind;
      [ eapply pure_bind; [evx|intros ?; apply pure_ret]
      | intros ?; eapply pure_bind; [evxk|intros ?; apply pure_ret] ]
  end.

(** Write the expression to evaluate with constructors only. *)
Ltac spelled :=
  match goal with
  | |- eval ?fuel ?loc ?e ?w = _ =>
      let e' := eval cbv in e in change (eval fuel loc e w) with (eval fuel loc e' w)
  end.

Ltac plain :=
  cbv -[binary elementwise greater truth traced settle lifted differentiable
        unbatch batched grad_result cond_result is_concrete as_array
        negate subscript jnp_sum jnp_arange jnp_argmin jnp_vander jnp_lstsq
        lax_dynamic_slice].

Ltac same :=
  plain;
  repeat match goal with
         | |- context [match ?r with Ok _ => _ | Raise _ => _ | Stuck _ => _ | OutOfFuel => _ end] =>
             lazymatch r with
             | match _ with _ => _ end => fail
             | _ => destruct r; plain
             end
         end;
  try reflexivity.

Lemma func_agrees n f x a w :
  definition_of "func" Cells.code_03 = Some f ->
  assoc "jnp" (globals w) = Some (VModule "jax.numpy") ->
  apply (10 + n) f [x; a] [] w = (func x a, w).
Proof.
  intros Hf Hjnp. injection Hf as <-.
  change (10 + n) with (S (S (S (S (S (S (S (S (S (S n)))))))))).
  eapply apply_VDef_return; [reflexivity|reflexivity|].
  spelled. eapply eq_trans; [evx|].
  unfold func. f_equal; same.
Qed.


Lemma model_agrees n f x a b w :
  definition_of "model" Cells.code_24 = Some f ->
  apply (5 + n) f [x; a; b] [] w = (model x a b, w).
Proof.
  intros Hf. injection Hf as <-.
  change (5 + n) with (S (S (S (S (S n))))).
  eapply apply_VDef_return; [reflexivity|reflexivity|].
  spelled. eapply eq_trans; [evx|].
  unfold model. f_equal; same.
Qed.


(** *** Function bodies of several statements *)

Lemma block_assign fuel f t e rest r (K : value -> result (option frame * signal)) w :
  eval fuel (Some f) e w = (r, w) ->
  (forall x, block (exec (S fuel))
               (Some {| local_names := local_names f; bound := update t x (bound f) |})
               rest w = (K x, w)) ->
  block (exec (S fuel)) (Some f) (Assign t e :: rest) w = (rbind r K, w).
Proof.
  intros He Hk. rewrite block_cons, exec_Assign. unfold bind at 1 2. rewrite He.
  destruct r as [x| | |]; try reflexivity.
  cbn [store ret snd fst rbind]. apply Hk.
Qed.

Lemma block_trailing_assign fuel f t e c rest r
    (K : value -> result (option frame * signal)) w :
  eval fuel (Some f) e w = (r, w) ->
  (forall x, block (exec (S (S fuel)))
               (Some {| local_names := local_names f; bound := update t x (bound f) |})
               rest w = (K x, w)) ->
  block (exec (S (S fuel))) (Some f) (Trailing (Assign t e) c :: rest) w = (rbind r K, w).
Proof.
  intros He Hk. rewrite block_cons, exec_Trailing, exec_Assign. unfold bind at 1 2.
  rewrite He. destruct r as [x| | |]; try reflexivity.
  cbn [store ret snd fst rbind]. apply Hk.
Qed.

Lemma block_trailing_return fuel loc e c r w :
  eval fuel loc e w = (r, w) ->
  block (exec (S (S fuel))) loc [Trailing (Return e) c] w =
  (rbind r (fun v => Ok (loc, Returned v)), w).
Proof.
  intros H. rewrite block_cons, exec_Trailing, exec_Return. unfold bind. rewrite H.
  destruct r; reflexivity.
Qed.

Lemma apply_VDef_block fuel name params body args kws locals r w :
  bind_params params args kws = Ok locals ->
  block (exec fuel)
    (Some {| local_names := (params ++ flat_map Names.stores body)%list;
             bound := locals |})
    (statements body) w = (r, w) ->
  apply (S fuel) (VDef name params body) args kws w =
  (rbind r (fun s => match snd s with
                     | Returned v => Ok v
                     | Normal => Ok VNone
                     end), w).
Proof.
  intros Hp Hb. rewrite apply_VDef, Hp.
  eapply bind_ok; [reflexivity|]. unfold bind. rewrite Hb.
  destruct r as [s| | |]; try reflexivity.
  destruct s as [loc [|v]]; reflexivity.
Qed.

(** A call of a function of the notebook with three positional
    arguments. *)
Lemma eval_call3 fuel loc f e1 e2 e3 lay fv r1 r2 r3
    (G : value -> value -> value -> result value) w :
  eval fuel loc f w = (Ok fv, w) ->
  eval fuel loc e1 w = (r1, w) ->
  eval fuel loc e2 w = (r2, w) ->
  eval fuel loc e3 w = (r3, w) ->
  (forall a b c, apply fuel fv [a; b; c] [] w = (G a b c, w)) ->
  eval (S fuel) loc (Call f [e1; e2; e3] [] lay) w =
  (rbind r1 (fun a => rbind r2 (fun b => rbind r3 (fun c => G a b c))), w).
Proof.
  intros Hf H1 H2 H3 HG. rewrite eval_Call.
  eapply bind_ok; [exact Hf|].
  rewrite !mapM_cons, mapM_nil. unfold bind, ret.
  rewrite H1. destruct r1; try reflexivity.
  rewrite H2. destruct r2; try reflexivity.
  rewrite H3. destruct r3; try reflexivity.
  cbn [rbind]. apply HG.
Qed.

Lemma find_depth_agrees n f spectrum w :
  definition_of "find_depth" Cells.code_13 = Some f ->
  assoc "jnp" (globals w) = Some (VModule "jax.numpy") ->
  assoc "jax" (globals w) = Some (VModule "jax") ->
  apply (10 + n) f [spectrum] [] w = (find_depth spectrum, w).
Proof.
  intros Hf Hjnp Hjax. injection Hf as <-.
  change (10 + n) with (S (S (S (S (S (S (S (S (S (S n)))))))))).
  eapply eq_trans.
  - eapply apply_VDef_block; [reflexivity|].
    cbn [statements filter].
    eapply block_assign; [spelled; evx|intros min_pix].
    eapply block_assign; [spelled; evx|intros y].
    eapply block_assign; [spelled; evx|intros x].
    eapply block_trailing_assign; [spelled; evx|intros A].
    eapply block_assign; [spelled; evx|intros coeffs].
    eapply block_return. spelled; evx.
  - unfold find_depth. f_equal; same.
Qed.

Lemma objective_agrees n f m params x y y_err w :
  definition_of "objective" Cells.code_24 = Some f ->
  definition_of "model" Cells.code_24 = Some m ->
  assoc "jnp" (globals w) = Some (VModule "jax.numpy") ->
  assoc "model" (globals w) = Some m ->
  apply (12 + n) f [params; x; y; y_err] [] w = (objective params x y y_err, w).
Proof.
  intros Hf Hm Hjnp Hmodel. injection Hf as <-.
  change (12 + n) with (S (S (S (S (S (S (S (S (S (S (S (S n)))))))))))).
  eapply eq_trans.
  - eapply apply_VDef_block; [reflexivity|].
    cbn [statements filter].
    eapply block_assign.
    { spelled. eapply eval_call3; [evx|evx|evx|evx|].
      intros a b c. exact (model_agrees _ m a b c w Hm). }
    intros model_y.
    eapply block_trailing_return. spelled; evx.
  - unfold objective. f_equal; same.
Qed.

End TutorialFunctions.

Section Transformations.

Import Python Kernel Functions Tutorial.

(** *** [jit], [grad] and [vmap] of a function of the notebook *)

Lemma rmap_length {A B : Type} (f : A -> result B) l : forall l',
  rmap f l = Ok l' -> List.length l' = List.length l.
Proof.
  induction l as [|x l IH]; intros l' H; cbn [rmap] in H.
  - injection H as <-. reflexivity.
  - destruct (f x) as [y| | |]; try discriminate. cbn [rbind] in H.
    destruct (rmap f l) as [ys| | |]; try discriminate. cbn [rbind] in H.
    injection H as <-. cbn [List.length]. now rewrite (IH ys).
Qed.

Lemma zip_length {A B : Type} (a : list A) : forall b : list B,
  List.length a = List.length b -> List.length (zip a b) = List.length b.
Proof.
  induction a as [|x a IH]; intros [|y b] H; try discriminate; [reflexivity|].
  cbn [zip List.length]. injection H as H. now rewrite (IH b H).
Qed.

Lemma axes_for_length spec args specs :
  axes_for spec args = Ok specs -> List.length specs = List.length args.
Proof.
  unfold axes_for. destruct spec; intros H; try (injection H as <-; apply length_map).
  destruct (Nat.eqb (List.length items) (List.length args)) eqn:E; [|discriminate].
  injection H as <-. now apply Nat.eqb_eq.
Qed.


Lemma grad_of_agrees fuel g (G : list value -> result value) args w :
  (forall args', List.length args' = List.length args ->
                 apply fuel g args' [] w = (G args', w)) ->
  apply (S fuel) (VGrad g 0) args [] w = (grad_of G args, w).
Proof.
  intros H. rewrite apply_VGrad. unfold grad_of.
  destruct args as [|x rest]; [reflexivity|].
  cbn [Z.to_nat nth_error replace_nth].
  destruct (differentiable x); [|reflexivity].
  unfold bind. rewrite H by reflexivity.
  destruct (G (lifted x :: rest)); reflexivity.
Qed.

Lemma vmap_of_agrees fuel g (G : list value -> result value) spec args w :
  (forall args', List.length args' = List.length args ->
                 apply fuel g args' [] w = (G args', w)) ->
  apply (S fuel) (VVmap g spec) args [] w = (vmap_of G spec args, w).
Proof.
  intros H. rewrite apply_VVmap. unfold vmap_of, bind, lift.
  destruct (axes_for spec args) as [specs| | |] eqn:Ea; cbn [rbind]; try reflexivity.
  destruct (rmap (fun sv => unbatch (fst sv) (snd sv)) (zip specs args))
    as [rs| | |] eqn:Er; cbn [rbind]; try reflexivity.
  destruct (flat_map snd rs) as [|k ks]; [reflexivity|].
  destruct (forallb (Z.eqb k) ks); [|reflexivity].
  rewrite H.
  - destruct (G (map fst rs)); reflexivity.
  - rewrite length_map, (rmap_length _ _ _ Er).
    apply zip_length. exact (axes_for_length _ _ _ Ea).
Qed.

End Transformations.

Section Shapes.

Import Python Kernel Functions Tutorial.

(** *** Arithmetic of an array and a number *)

Lemma array_op_scalar_r op a b :
  shape b = [] ->
  array_op op a b =
  Ok (VArray {| lib := owner_of (lib a) (lib b);
                dtype := match op with
                         | Div => KFloat
                         | _ => promote (dtype a) (dtype b)
                         end;
                shape := shape a;
                source := join (source a) (source b);
                concrete := concrete a && concrete b |}).
Proof. intros H. unfold array_op. now rewrite H, broadcast_nil_r. Qed.

Lemma array_op_scalar_l op a b :
  shape a = [] ->
  array_op op a b =
  Ok (VArray {| lib := owner_of (lib a) (lib b);
                dtype := match op with
                         | Div => KFloat
                         | _ => promote (dtype a) (dtype b)
                         end;
                shape := shape b;
                source := join (source a) (source b);
                concrete := concrete a && concrete b |}).
Proof. intros H. unfold array_op. now rewrite H, broadcast_nil_l. Qed.

Lemma binary_array_int op a k :
  binary op (VArray a) (VInt k) =
  Ok (VArray {| lib := lib a;
                dtype := match op with
                         | Div => KFloat
                         | _ => promote (dtype a) KInt
                         end;
                shape := shape a; source := source a; concrete := concrete a |}).
Proof.
  unfold binary, operands, beside.
  cbn [is_quantity python_number orb andb as_array scalar dtype].
  rewrite array_op_scalar_r by reflexivity.
  cbn [lib dtype source concrete]. now rewrite owner_of_same, join_fixed_r, andb_true_r.
Qed.

Lemma binary_array_float op a l :
  binary op (VArray a) (VFloat l) =
  Ok (VArray {| lib := lib a; dtype := KFloat;
                shape := shape a; source := source a; concrete := concrete a |}).
Proof.
  unfold binary, operands, beside.
  cbn [is_quantity python_number orb andb as_array scalar dtype].
  rewrite array_op_scalar_r by reflexivity.
  cbn [lib dtype source concrete].
  rewrite owner_of_same, join_fixed_r, andb_true_r, promote_float_r. now destruct op.
Qed.


Lemma binary_float_array op l a :
  binary op (VFloat l) (VArray a) =
  Ok (VArray {| lib := lib a; dtype := KFloat;
                shape := shape a; source := source a; concrete := concrete a |}).
Proof.
  unfold binary, operands, beside.
  cbn [is_quantity python_number orb andb as_array scalar dtype].
  rewrite array_op_scalar_l by reflexivity.
  cbn [lib dtype source concrete].
  rewrite owner_of_same, promote_float_l. now destruct op.
Qed.

(** Python's own square of a float: a float, or [OverflowError]. *)
Lemma float_squared l : binary Pow (VFloat l) (VInt 2) = float_power l 2.
Proof. reflexivity. Qed.

Lemma float_power_decided l b :
  power_is_finite l b = true \/ power_overflows l b = true ->
  float_power l b =
  if power_is_finite l b then Ok (VFloat None)
  else Raise (OverflowError "Numerical result out of range").
Proof.
  intros H. unfold float_power. destruct (power_is_finite l b); [reflexivity|].
  destruct H as [H|H]; [discriminate H|]. now rewrite H.
Qed.

(** *** [func], cell 3 *)

Lemma func_of_array a l :
  power_is_finite l 2 = true \/ power_overflows l 2 = true ->
  func (VArray a) (VFloat l) =
  match shape a with
  | n :: _ :: rest =>
      if power_is_finite l 2
      then Ok (jax_array KFloat (n :: rest) (source a) (concrete a))
      else Raise (OverflowError "Numerical result out of range")
  | _ => Raise (ValueError "axis is out of bounds")
  end.
Proof.
  intros Hl. unfold func. rewrite binary_array_int. cbn [rbind].
  unfold jnp_sum. cbn [only_keywords forallb fst Text.mem existsb String.eqb Ascii.eqb
                       Bool.eqb orb andb as_array keyword assoc ndim shape dtype
                       source concrete].
  cbn [Z.ltb Z.compare].
  destruct (shape a) as [|n [|m rest]]; try reflexivity.
  unfold ndim. cbn [shape List.length].
  assert (H : ((0 <=? 1) && (1 <? Z.of_nat (S (S (List.length rest)))))%Z = true).
  { apply andb_true_intro. split; [reflexivity|]. apply Z.ltb_lt. lia. }
  rewrite H. change (Z.to_nat 1) with 1%nat. cbn [drop_axis rbind].
  rewrite float_squared, (float_power_decided l 2 Hl).
  destruct (power_is_finite l 2); [|reflexivity]. cbn [rbind]. unfold jax_array.
  rewrite binary_array_float. reflexivity.
Qed.



End Shapes.

Section Spectra.

Import Python Kernel Functions Tutorial.

Lemma binary_arrays op a b : binary op (VArray a) (VArray b) = array_op op a b.
Proof. reflexivity. Qed.


Lemma owner_of_jax_l o : owner_of Jax o = Jax.
Proof. reflexivity. Qed.

(** *** [make_spectrum], cell 10 *)




End Spectra.

Section Depths.

Import Python Kernel Functions Tutorial.

(** *** [find_depth], cell 13 *)

Lemma find_depth_of_spectrum a len :
  shape a = [len] ->
  find_depth (VArray a) =
  if (len <? 1)%Z then Raise (ValueError "attempt to get argmin of an empty sequence")
  else if (len <? 3)%Z then Raise (TypeError "slice sizes must fit the operand")
  else Ok (jax_array KFloat [] (source a) (concrete a)).
Proof.
  intros Hs. unfold find_depth, jnp_argmin. rewrite Hs. unfold size. cbn [fold_right].
  replace (0 <? len * 1)%Z with (negb (len <? 1)%Z)
    by (destruct (Z.ltb_spec len 1), (Z.ltb_spec 0 (len * 1)); try reflexivity; lia).
  destruct (len <? 1)%Z; [reflexivity|]. cbn [negb rbind]. unfold jax_array.
  rewrite binary_array_int. cbn [rbind shape lib dtype source concrete promote kind_rank Nat.leb].
  unfold lax_dynamic_slice, ndim. rewrite Hs.
  cbn [rmap slice_start slice_sizes shape dtype rbind shape_of_size Z.leb Z.compare map fst snd
       List.length Nat.eqb andb sizes_fit fold_left forallb source concrete].
  replace (3 <=? len)%Z with (negb (len <? 3)%Z)
    by (destruct (Z.ltb_spec len 3), (Z.leb_spec 3 len); try reflexivity; lia).
  destruct (len <? 3)%Z; [reflexivity|]. cbn [negb andb rbind negate].
  destruct (source a), (concrete a); reflexivity.
Qed.

Lemma find_depth_of_matrix a rows len rest :
  shape a = rows :: len :: rest ->
  exists e, find_depth (VArray a) = Raise e.
Proof.
  intros Hs. unfold find_depth, jnp_argmin.
  destruct (0 <? size (shape a))%Z; [|eexists; reflexivity]. cbn [rbind]. unfold jax_array.
  rewrite binary_array_int. cbn [rbind shape lib dtype source concrete promote kind_rank Nat.leb].
  unfold lax_dynamic_slice, ndim. rewrite Hs.
  cbn [rmap slice_start slice_sizes shape dtype rbind shape_of_size Z.leb Z.compare map fst snd
       List.length Nat.eqb andb sizes_fit fold_left forallb source concrete].
  eexists; reflexivity.
Qed.

Lemma find_depth_vmap_agrees n f x w :
  definition_of "find_depth" Cells.code_13 = Some f ->
  assoc "jnp" (globals w) = Some (VModule "jax.numpy") ->
  assoc "jax" (globals w) = Some (VModule "jax") ->
  apply (11 + n) (VVmap f (VInt 0)) [x] [] w =
  (find_depth_vmap x, w).
Proof.
  intros Hf Hjnp Hjax. apply (vmap_of_agrees (10 + n)).
  intros [|s [|? ?]] Hl; try discriminate Hl.
  now apply find_depth_agrees.
Qed.

Lemma find_depth_vmap_of_spectra a rows len :
  shape a = [rows; len] ->
  find_depth_vmap (VArray a) =
  if (len <? 1)%Z then Raise (ValueError "attempt to get argmin of an empty sequence")
  else if (len <? 3)%Z then Raise (TypeError "slice sizes must fit the operand")
  else Ok (jax_array KFloat [rows] (source a) (concrete a)).
Proof.
  intros Hs. unfold find_depth_vmap, vmap_of.
  cbn [axes_for map rbind zip rmap fst snd unbatch]. rewrite Hs.
  cbn [rbind map fst snd flat_map app forallb args1].
  rewrite (find_depth_of_spectrum _ len) by reflexivity.
  destruct (len <? 1)%Z; [reflexivity|]. destruct (len <? 3)%Z; [reflexivity|].
  cbn [rbind batched jax_array shape source concrete dtype is_concrete].
  unfold jax_array. now rewrite andb_true_r.
Qed.

End Depths.

Section Objective.

Import Python Kernel Functions Tutorial.

(** *** [model] and [objective], cell 24 *)

Lemma broadcast_rev_same sh : broadcast_rev sh sh = Some sh.
Proof.
  induction sh as [|x sh IH]; [reflexivity|].
  cbn [broadcast_rev]. now rewrite IH, Z.eqb_refl.
Qed.

Lemma broadcast_same sh : broadcast sh sh = Some sh.
Proof. unfold broadcast. now rewrite broadcast_rev_same, rev_involutive. Qed.

Lemma array_op_same_shape op a b :
  shape b = shape a ->
  array_op op a b =
  Ok (VArray {| lib := owner_of (lib a) (lib b);
                dtype := match op with
                         | Div => KFloat
                         | _ => promote (dtype a) (dtype b)
                         end;
                shape := shape a;
                source := join (source a) (source b);
                concrete := concrete a && concrete b |}).
Proof. intros H. unfold array_op. now rewrite H, broadcast_same. Qed.

Lemma assoc_map_values {A B : Type} (g : A -> B) k (l : list (string * A)) :
  assoc k (map (fun kv => (fst kv, g (snd kv))) l) = option_map g (assoc k l).
Proof.
  induction l as [|[k' v] l IH]; [reflexivity|].
  cbn [map assoc fst snd]. destruct (String.eqb k k'); [reflexivity|exact IH].
Qed.

(** A parameter the objective reads must be in [params]. *)
Lemma objective_missing_key entries x y y_err :
  objective (VDict entries) x y y_err =
  match assoc "a" entries, assoc "b" entries with
  | None, _ => Raise (KeyError "a")
  | Some _, None => Raise (KeyError "b")
  | Some a, Some b =>
      model_y <~ model x a b ;;
      d <~ binary Sub y model_y ;;
      q <~ binary Pow d (VInt 2) ;;
      e <~ binary Pow y_err (VInt 2) ;;
      r <~ binary Div q e ;;
      jnp_sum [r] []
  end.
Proof.
  unfold objective. cbn [subscript].
  destruct (assoc "a" entries); [|reflexivity]. cbn [rbind].
  destruct (assoc "b" entries); reflexivity.
Qed.

(** The sum of squares for data of one shape: two parameters that are
    Python floats, and two that are zero-dimensional arrays. *)
Lemma objective_of_floats entries la lb x y e :
  assoc "a" entries = Some (VFloat la) -> assoc "b" entries = Some (VFloat lb) ->
  shape y = shape x -> shape e = shape x ->
  objective (VDict entries) (VArray x) (VArray y) (VArray e) =
  Ok (jax_array KFloat [] (join (join (source y) (source x)) (source e))
        (concrete y && concrete x && concrete e)).
Proof.
  intros Ha Hb Hy He. rewrite objective_missing_key, Ha, Hb.
  unfold model. rewrite binary_float_array. cbn [rbind].
  rewrite binary_array_float. cbn [rbind].
  rewrite binary_arrays, array_op_same_shape by (symmetry; exact Hy).
  cbn [rbind lib dtype shape source concrete].
  rewrite binary_array_int. cbn [rbind lib dtype shape source concrete].
  rewrite binary_array_int. cbn [rbind lib dtype shape source concrete].
  rewrite binary_arrays, array_op_same_shape by (cbn [shape]; congruence).
  cbn [rbind lib dtype shape source concrete].
  reflexivity.
Qed.

Lemma objective_of_scalars entries a b x y e :
  assoc "a" entries = Some (VArray a) -> assoc "b" entries = Some (VArray b) ->
  shape a = [] -> shape b = [] ->
  shape y = shape x -> shape e = shape x ->
  objective (VDict entries) (VArray x) (VArray y) (VArray e) =
  Ok (jax_array KFloat []
        (join (join (source y) (join (join (source a) (source x)) (source b))) (source e))
        (concrete y && (concrete a && concrete x && concrete b) && concrete e)).
Proof.
  intros Ha Hb Hsa Hsb Hy He. rewrite objective_missing_key, Ha, Hb.
  unfold model. rewrite binary_arrays, array_op_scalar_l by exact Hsa. cbn [rbind].
  rewrite binary_arrays, array_op_scalar_r by exact Hsb. cbn [rbind].
  rewrite binary_arrays, array_op_same_shape by (symmetry; exact Hy).
  cbn [rbind lib dtype shape source concrete].
  rewrite binary_array_int. cbn [rbind lib dtype shape source concrete].
  rewrite binary_array_int. cbn [rbind lib dtype shape source concrete].
  rewrite binary_arrays, array_op_same_shape by (cbn [shape]; congruence).
  cbn [rbind lib dtype shape source concrete].
  reflexivity.
Qed.

Lemma objective_grad_agrees n f m params x y y_err w :
  definition_of "objective" Cells.code_24 = Some f ->
  definition_of "model" Cells.code_24 = Some m ->
  assoc "jnp" (globals w) = Some (VModule "jax.numpy") ->
  assoc "model" (globals w) = Some m ->
  apply (13 + n) (VGrad f 0) [params; x; y; y_err] [] w =
  (objecive_grad params x y y_err, w).
Proof.
  intros Hf Hm Hjnp Hmodel. apply (grad_of_agrees (12 + n)).
  intros [|p [|x' [|y' [|e' [|? ?]]]]] Hl; try discriminate Hl.
  now apply (objective_agrees n f m).
Qed.


Lemma floats_differentiable entries :
  Forall (fun kv => exists l, snd kv = VFloat l) entries ->
  forallb (fun kv : string * value => differentiable (snd kv)) entries = true.
Proof.
  intros H. apply forallb_forall. intros kv Hin.
  rewrite Forall_forall in H. destruct (H kv Hin) as [l ->]. reflexivity.
Qed.

Lemma gradient_of_floats src c entries :
  Forall (fun kv => exists l, snd kv = VFloat l) entries ->
  map (fun kv : string * value => (fst kv, gradient src c (snd kv))) entries =
  map (fun kv => (fst kv, jax_array KFloat [] src c)) entries.
Proof.
  intros H. apply map_ext_in. intros kv Hin.
  rewrite Forall_forall in H. destruct (H kv Hin) as [l ->]. reflexivity.
Qed.

Lemma objective_grad_of_floats entries la lb x y e :
  Forall (fun kv => exists l, snd kv = VFloat l) entries ->
  assoc "a" entries = Some (VFloat la) -> assoc "b" entries = Some (VFloat lb) ->
  shape y = shape x -> shape e = shape x ->
  objecive_grad (VDict entries) (VArray x) (VArray y) (VArray e) =
  Ok (VDict (map (fun kv => (fst kv,
                             jax_array KFloat []
                               (join (join (source y) (source x)) (source e))
                               (concrete y && concrete x && concrete e)))
               entries)).
Proof.
  intros Hall Ha Hb Hy He. unfold objecive_grad, grad_of. cbn [differentiable].
  rewrite (floats_differentiable entries Hall). cbn [lifted args4].
  rewrite (objective_of_scalars _ (scalar KFloat) (scalar KFloat)); try assumption;
    try reflexivity;
    try (rewrite (assoc_map_values lifted); (rewrite Ha || rewrite Hb); reflexivity).
  cbn [rbind grad_result jax_array shape dtype kind_eqb kind_rank Nat.eqb source
       concrete scalar join andb gradient].
  rewrite join_fixed_r, andb_true_r.
  now rewrite (gradient_of_floats _ _ entries Hall).
Qed.


End Objective.

Section SharpBits.

Import Python Kernel Functions Tutorial.

(** *** [func_if2], cell 33 *)

Lemma is_concrete_number_or_array x a :
  as_array x = Some a -> is_concrete x = concrete a.
Proof.
  intros Ha. destruct x; try discriminate; cbn [as_array] in Ha;
    injection Ha as <-; reflexivity.
Qed.

Lemma promote_same k : promote k k = k.
Proof. now destruct k. Qed.

Lemma func_if2_of_number_or_array x a :
  as_array x = Some a ->
  func_if2 x =
  if in_int32 x then
    match shape a with
    | [] => Ok (jax_array (promote (dtype a) KInt) [] (source a) (concrete a))
    | _ :: _ => Raise (TypeError "Pred must be a scalar")
    end
  else Raise (OverflowError "Python int too large to convert to int32").
Proof.
  intros Ha. unfold func_if2, jit. rewrite (traced_of x a Ha).
  destruct (in_int32 x); [|reflexivity]. cbn [rbind]. unfold greater, greater_arrays, operands, beside.
  cbn [python_number andb as_array].
  rewrite array_op_scalar_r by reflexivity.
  cbn [rbind with_kind retag lib dtype shape source concrete].
  unfold cond. cbn [as_array shape].
  destruct (shape a) eqn:Hs; [|reflexivity].
  rewrite !binary_array_int.
  cbn [rbind cond_result as_array retag shape dtype source concrete].
  rewrite Hs. cbn [shape_eqb andb]. unfold kind_eqb. rewrite Nat.eqb_refl.
  cbn [settle jax_array retag lib dtype shape source concrete].
  rewrite (is_concrete_number_or_array x a Ha).
  unfold jax_array. now rewrite !join_fixed_r, !join_same.
Qed.

(** *** The gradient of [some_func], cells 19 and 21 *)

Lemma differentiable_number_or_array x a :
  as_array x = Some a -> differentiable x = kind_eqb (dtype a) KFloat.
Proof.
  intros Ha. destruct x; try discriminate; cbn [as_array] in Ha;
    injection Ha as <-; reflexivity.
Qed.

Lemma some_func_grad_of_number_or_array x a l1 l2 :
  as_array x = Some a ->
  some_func_grad x (VFloat l1) (VFloat l2) =
  if kind_eqb (dtype a) KFloat then
    match shape a with
    | [] => Ok (jax_array KFloat [] (source a) (concrete a))
    | _ :: _ => Raise (TypeError "Gradient only defined for scalar-output functions")
    end
  else Raise (TypeError "grad requires real-valued inputs").
Proof.
  intros Ha. destruct x; try discriminate; cbn [as_array] in Ha; injection Ha as <-;
    try reflexivity.
  destruct (kind_eqb (dtype a0) KFloat) eqn:Hk.
  - apply some_func_grad_of_array. destruct (dtype a0); try discriminate. reflexivity.
  - unfold some_func_grad, grad. cbn [differentiable]. now rewrite Hk.
Qed.

Lemma some_func_grad_vmap_of_array a l1 l2 :
  some_func_grad_vmap (VArray a) (VFloat l1) (VFloat l2) =
  match shape a with
  | [] => Raise (ValueError "vmap was requested to map its argument along axis 0, which implies that its rank should be at least 1")
  | [n] =>
      if kind_eqb (dtype a) KFloat
      then Ok (jax_array KFloat [n] (source a) (concrete a))
      else Raise (TypeError "grad requires real-valued inputs")
  | _ :: _ :: _ =>
      if kind_eqb (dtype a) KFloat
      then Raise (TypeError "Gradient only defined for scalar-output functions")
      else Raise (TypeError "grad requires real-valued inputs")
  end.
Proof.
  unfold some_func_grad_vmap, vmap. cbn [unbatch].
  destruct (shape a) as [|n rest] eqn:Hs; [reflexivity|].
  cbn [rbind fst snd forallb].
  erewrite some_func_grad_of_number_or_array by reflexivity.
  cbn [dtype shape source concrete].
  destruct (kind_eqb (dtype a) KFloat); [|destruct rest; reflexivity].
  destruct rest; [|reflexivity].
  cbn [rbind batched jax_array as_array is_concrete andb source dtype shape concrete].
  unfold jax_array. now rewrite andb_true_r.
Qed.

End SharpBits.

Section Units.

Import Python Kernel Functions Tutorial.

(** *** [compute_potential] and [dPhi_dr], cells 38 and 39 *)







End Units.

Section Objects.

Import Python Kernel Functions Tutorial.

(** ** What the cells bind the names of the functions to *)

(** After a run of the notebook every function name is bound to the
    function its cell defines, transformed as the cell says. *)
Lemma object_func :
  object "func" =
  definition_of "func" Cells.code_03.
Proof. vm_compute. reflexivity. Qed.



Lemma object_find_depth :
  object "find_depth" =
  definition_of "find_depth" Cells.code_13.
Proof. vm_compute. reflexivity. Qed.

Lemma object_find_depth_vmap :
  object "find_depth_vmap" =
  option_map (fun f => VVmap f (VInt 0)) (definition_of "find_depth" Cells.code_13).
Proof. vm_compute. reflexivity. Qed.

Lemma object_some_func :
  object "some_func" =
  definition_of "some_func" Cells.code_18.
Proof. vm_compute. reflexivity. Qed.


Lemma object_some_func_grad_vmap :
  object "some_func_grad_vmap" =
  option_map (fun f => VVmap (VGrad f 0) (VTuple [VInt 0; VNone; VNone]))
    (definition_of "some_func" Cells.code_18).
Proof. vm_compute. reflexivity. Qed.

Lemma object_model :
  object "model" =
  definition_of "model" Cells.code_24.
Proof. vm_compute. reflexivity. Qed.

Lemma object_objective :
  object "objective" =
  definition_of "objective" Cells.code_24.
Proof. vm_compute. reflexivity. Qed.

Lemma object_objecive_grad :
  object "objecive_grad" =
  option_map (fun f => VGrad f 0) (definition_of "objective" Cells.code_24).
Proof. vm_compute. reflexivity. Qed.


Lemma object_func_if1 :
  object "func_if1" =
  option_map VJit (definition_of "func_if1" Cells.code_31).
Proof. vm_compute. reflexivity. Qed.

Lemma object_func_if2 :
  object "func_if2" =
  option_map VJit (definition_of "func_if2" Cells.code_33).
Proof. vm_compute. reflexivity. Qed.



Lemma kernel_jax : assoc "jax" (globals kernel) = Some (VModule "jax").
Proof. vm_compute. reflexivity. Qed.

Lemma kernel_jnp : assoc "jnp" (globals kernel) = Some (VModule "jax.numpy").
Proof. vm_compute. reflexivity. Qed.

End Objects.

(** ** What the functions of the tutorial do, for every argument *)

Section TutorialProperties.

Import Python Kernel Functions Tutorial.

(** The function under the transformation a name is bound to. *)
Ltac under H :=
  match type of H with
  | option_map _ ?d = Some _ =>
      let Hd := fresh "Hd" in
      destruct d eqn:Hd; [cbn [option_map] in H; injection H as <-|discriminate H]
  end.

(** X1.  [func] of cell 3, called at any evaluation depth from 10 on with
    an array and a float literal on a kernel where [jnp] is [jax.numpy]:
    the sum runs over axis 1, so an array with fewer than two axes raises
    [ValueError]; for an array with the axes [rows, columns, ...] Python
    then squares the float itself, which gives a float array with the axes
    [rows, ...] when the square is finite and raises [OverflowError] when
    it is beyond the largest float.  (The literal decides which: a float
    whose square is neither surely finite nor surely too large is left
    out.) *)
Theorem func_sums_over_axis_1 n f a l w :
  object "func" = Some f ->
  assoc "jnp" (globals w) = Some (VModule "jax.numpy") ->
  power_is_finite l 2 = true \/ power_overflows l 2 = true ->
  apply (10 + n) f [VArray a; VFloat l] [] w =
  (match shape a with
   | rows :: _ :: rest =>
       if power_is_finite l 2
       then Ok (jax_array KFloat (rows :: rest) (source a) (concrete a))
       else Raise (OverflowError "Numerical result out of range")
   | _ => Raise (ValueError "axis is out of bounds")
   end, w).
Proof.
  intros Hf Hjnp Hl. rewrite object_func in Hf.
  rewrite (func_agrees n f _ _ w Hf Hjnp). now rewrite (func_of_array a l Hl).
Qed.

(** The call of cell 5. *)
Lemma func_sums_over_axis_1_witness :
  exists f,
    object "func" = Some f /\
    apply 10 f
      [VArray {| lib := NumPy; dtype := KFloat; shape := [1000000%Z; 3%Z];
                 source := Entropy 0; concrete := true |};
       VFloat (Some "1.0")] [] kernel =
    (Ok (jax_array KFloat [1000000%Z] (Entropy 0) true), kernel).
Proof.
  eexists. split; [vm_compute; reflexivity|].
  eapply eq_trans; [apply (func_sums_over_axis_1 0)|].
  - vm_compute; reflexivity.
  - vm_compute; reflexivity.
  - left. vm_compute; reflexivity.
  - vm_compute; reflexivity.
Defined.







(** X5.  [find_depth] of cell 13 on one spectrum, a one-dimensional array
    of [len] pixels: it returns a float scalar when there are at least three
    pixels, raises [ValueError] (no minimum of an empty sequence) when there
    is none, and raises [TypeError] (a slice of three does not fit) when
    there are one or two. *)
Theorem find_depth_of_one_spectrum n f a len w :
  object "find_depth" = Some f ->
  assoc "jnp" (globals w) = Some (VModule "jax.numpy") ->
  assoc "jax" (globals w) = Some (VModule "jax") ->
  shape a = [len] ->
  apply (10 + n) f [VArray a] [] w =
  (if (len <? 1)%Z then Raise (ValueError "attempt to get argmin of an empty sequence")
   else if (len <? 3)%Z then Raise (TypeError "slice sizes must fit the operand")
   else Ok (jax_array KFloat [] (source a) (concrete a)), w).
Proof.
  intros Hf Hjnp Hjax Hs. rewrite object_find_depth in Hf.
  rewrite (find_depth_agrees n f _ w Hf Hjnp Hjax).
  now rewrite (find_depth_of_spectrum a len Hs).
Qed.

(** A spectrum of two pixels. *)
Lemma find_depth_of_one_spectrum_witness :
  exists f,
    object "find_depth" = Some f /\
    apply 10 f [VArray {| lib := Jax; dtype := KFloat; shape := [2%Z];
                          source := Fixed; concrete := true |}] [] kernel =
    (Raise (TypeError "slice sizes must fit the operand"), kernel).
Proof.
  eexists. split; [vm_compute; reflexivity|].
  eapply eq_trans; [apply (find_depth_of_one_spectrum 0 _ _ 2)|];
    vm_compute; reflexivity.
Defined.

(** X6.  A stack of spectra, an array with the axes [rows, len, ...],
    cannot be handed to [find_depth] itself: the call raises, at every
    evaluation depth from 10 on. *)
Theorem find_depth_of_stack_raises n f a rows len rest w :
  object "find_depth" = Some f ->
  assoc "jnp" (globals w) = Some (VModule "jax.numpy") ->
  assoc "jax" (globals w) = Some (VModule "jax") ->
  shape a = rows :: len :: rest ->
  exists e, apply (10 + n) f [VArray a] [] w = (Raise e, w).
Proof.
  intros Hf Hjnp Hjax Hs. rewrite object_find_depth in Hf.
  destruct (find_depth_of_matrix a rows len rest Hs) as [e He].
  exists e. rewrite <- He.
  exact (find_depth_agrees n f _ w Hf Hjnp Hjax).
Qed.

(** The spectra of cell 10. *)
Lemma find_depth_of_stack_raises_witness :
  exists f,
    object "find_depth" = Some f /\
    exists e,
      apply 10 f [VArray {| lib := Jax; dtype := KFloat; shape := [128%Z; 100%Z];
                            source := Fixed; concrete := true |}] [] kernel =
      (Raise e, kernel).
Proof.
  eexists. split; [vm_compute; reflexivity|].
  apply (find_depth_of_stack_raises 0 _ _ 128 100 []); vm_compute; reflexivity.
Defined.

(** X7.  [find_depth_vmap] of cell 13 on a stack of spectra, an array with
    the axes [rows, len]: every row is treated as [find_depth] treats one
    spectrum, and with at least three pixels in a row the result is one
    depth for each row. *)
Theorem find_depth_vmap_of_stack n g a rows len w :
  object "find_depth_vmap" = Some g ->
  assoc "jnp" (globals w) = Some (VModule "jax.numpy") ->
  assoc "jax" (globals w) = Some (VModule "jax") ->
  shape a = [rows; len] ->
  apply (11 + n) g [VArray a] [] w =
  (if (len <? 1)%Z then Raise (ValueError "attempt to get argmin of an empty sequence")
   else if (len <? 3)%Z then Raise (TypeError "slice sizes must fit the operand")
   else Ok (jax_array KFloat [rows] (source a) (concrete a)), w).
Proof.
  intros Hg Hjnp Hjax Hs. rewrite object_find_depth_vmap in Hg. under Hg.
  rewrite (find_depth_vmap_agrees n _ _ w Hd Hjnp Hjax).
  now rewrite (find_depth_vmap_of_spectra a rows len Hs).
Qed.

(** The call of cell 15: 128 spectra of 100 pixels. *)
Lemma find_depth_vmap_of_stack_witness :
  exists g,
    object "find_depth_vmap" = Some g /\
    apply 11 g [VArray {| lib := Jax; dtype := KFloat; shape := [128%Z; 100%Z];
                          source := Fixed; concrete := true |}] [] kernel =
    (Ok (jax_array KFloat [128%Z] Fixed true), kernel).
Proof.
  eexists. split; [vm_compute; reflexivity|].
  eapply eq_trans; [apply (find_depth_vmap_of_stack 0 _ _ 128 100)|];
    vm_compute; reflexivity.
Defined.

(** X9.  [objective] of cell 24 reads the parameters ["a"] and ["b"] from
    [params]: when ["a"] is missing the call raises [KeyError] for ["a"],
    when only ["b"] is missing it raises [KeyError] for ["b"], whatever the
    data are. *)
Theorem objective_needs_both_parameters n f m entries x y y_err w :
  object "objective" = Some f ->
  object "model" = Some m ->
  assoc "jnp" (globals w) = Some (VModule "jax.numpy") ->
  assoc "model" (globals w) = Some m ->
  assoc "a" entries = None \/ assoc "b" entries = None ->
  apply (12 + n) f [VDict entries; x; y; y_err] [] w =
  (Raise (KeyError match assoc "a" entries with
                   | None => "a"
                   | Some _ => "b"
                   end), w).
Proof.
  intros Hf Hm Hjnp Hmodel Hmiss.
  rewrite object_objective in Hf. rewrite object_model in Hm.
  rewrite (objective_agrees n f m _ _ _ _ w Hf Hm Hjnp Hmodel).
  rewrite objective_missing_key.
  destruct (assoc "a" entries); [|reflexivity].
  destruct Hmiss as [H|H]; [discriminate H|]. now rewrite H.
Qed.

(** Parameters with a misspelt key. *)
Lemma objective_needs_both_parameters_witness :
  exists f,
    object "objective" = Some f /\
    apply 12 f [VDict [("a", VFloat (Some "1.0")); ("B", VFloat (Some "1.0"))];
                VNone; VNone; VNone] [] kernel =
    (Raise (KeyError "b"), kernel).
Proof.
  eexists. split; [vm_compute; reflexivity|].
  eapply eq_trans; [eapply (objective_needs_both_parameters 0)|];
    try (vm_compute; reflexivity).
  right. reflexivity.
Defined.

(** X10.  [objective] of cell 24 with two float parameters and data [x],
    [y], [y_err] of one shape returns a float scalar, whatever the shape
    is. *)
Theorem objective_is_a_scalar n f m entries la lb x y e w :
  object "objective" = Some f ->
  object "model" = Some m ->
  assoc "jnp" (globals w) = Some (VModule "jax.numpy") ->
  assoc "model" (globals w) = Some m ->
  assoc "a" entries = Some (VFloat la) -> assoc "b" entries = Some (VFloat lb) ->
  shape y = shape x -> shape e = shape x ->
  apply (12 + n) f [VDict entries; VArray x; VArray y; VArray e] [] w =
  (Ok (jax_array KFloat [] (join (join (source y) (source x)) (source e))
         (concrete y && concrete x && concrete e)), w).
Proof.
  intros Hf Hm Hjnp Hmodel Ha Hb Hy He.
  rewrite object_objective in Hf. rewrite object_model in Hm.
  rewrite (objective_agrees n f m _ _ _ _ w Hf Hm Hjnp Hmodel).
  now rewrite (objective_of_floats entries la lb).
Qed.

(** The data of cell 25: sixteen points. *)
Lemma objective_is_a_scalar_witness :
  exists f,
    object "objective" = Some f /\
    apply 12 f
      [VDict [("a", VFloat (Some "1.0")); ("b", VFloat (Some "1.0"))];
       VArray {| lib := NumPy; dtype := KFloat; shape := [16%Z];
                 source := Fixed; concrete := true |};
       VArray {| lib := NumPy; dtype := KFloat; shape := [16%Z];
                 source := Fixed; concrete := true |};
       VArray {| lib := NumPy; dtype := KFloat; shape := [16%Z];
                 source := Fixed; concrete := true |}] [] kernel =
    (Ok (jax_array KFloat [] Fixed true), kernel).
Proof.
  eexists. split; [vm_compute; reflexivity|].
  eapply eq_trans; [eapply (objective_is_a_scalar 0)|]; vm_compute; reflexivity.
Defined.

(** X11.  [objecive_grad] of cell 26, the gradient of [objective] by
    [params]: for float parameters and data of one shape it returns a
    dictionary with the keys of [params], a float scalar under each, also
    under a key that [objective] does not read. *)
Theorem objecive_grad_has_the_keys_of_params n g m entries la lb x y e w :
  object "objecive_grad" = Some g ->
  object "model" = Some m ->
  assoc "jnp" (globals w) = Some (VModule "jax.numpy") ->
  assoc "model" (globals w) = Some m ->
  Forall (fun kv => exists l, snd kv = VFloat l) entries ->
  assoc "a" entries = Some (VFloat la) -> assoc "b" entries = Some (VFloat lb) ->
  shape y = shape x -> shape e = shape x ->
  apply (13 + n) g [VDict entries; VArray x; VArray y; VArray e] [] w =
  (Ok (VDict (map (fun kv => (fst kv,
                              jax_array KFloat []
                                (join (join (source y) (source x)) (source e))
                                (concrete y && concrete x && concrete e)))
                entries)), w).
Proof.
  intros Hg Hm Hjnp Hmodel Hall Ha Hb Hy He.
  rewrite object_objecive_grad in Hg. under Hg. rewrite object_model in Hm.
  rewrite (objective_grad_agrees n _ m _ _ _ _ w Hd Hm Hjnp Hmodel).
  now rewrite (objective_grad_of_floats entries la lb).
Qed.

(** The call of cell 27, with a third parameter that is not used. *)
Lemma objecive_grad_has_the_keys_of_params_witness :
  exists g,
    object "objecive_grad" = Some g /\
    apply 13 g
      [VDict [("a", VFloat (Some "1.0")); ("b", VFloat (Some "1.0"));
              ("c", VFloat (Some "1.0"))];
       VArray {| lib := NumPy; dtype := KFloat; shape := [16%Z];
                 source := Fixed; concrete := true |};
       VArray {| lib := NumPy; dtype := KFloat; shape := [16%Z];
                 source := Fixed; concrete := true |};
       VArray {| lib := NumPy; dtype := KFloat; shape := [16%Z];
                 source := Fixed; concrete := true |}] [] kernel =
    (Ok (VDict [("a", jax_array KFloat [] Fixed true);
                ("b", jax_array KFloat [] Fixed true);
                ("c", jax_array KFloat [] Fixed true)]), kernel).
Proof.
  eexists. split; [vm_compute; reflexivity|].
  eapply eq_trans; [eapply (objecive_grad_has_the_keys_of_params 0)|];
    try (vm_compute; reflexivity).
  repeat constructor; eexists; reflexivity.
Defined.



(** X13.  [func_if1] of cell 31, a Python [if] on the argument under
    [jax.jit]: the call raises for every number and every array, at every
    evaluation depth from 8 on and on every kernel.  A Python integer
    outside the 32-bit range raises [OverflowError] before tracing; a
    float, a Boolean, an integer within the range and an array of one
    element raise [TracerBoolConversionError]; an array of no or of more
    than one element raises [ValueError], its truth value ambiguous. *)
Theorem func_if1_raises_for_every_argument n g x a w :
  object "func_if1" = Some g ->
  as_array x = Some a ->
  apply (8 + n) g [x] [] w =
  (Raise (if in_int32 x then
            if (size (shape a) =? 1)%Z then TracerBoolConversionError
            else ambiguous (size (shape a))
          else OverflowError "Python int too large to convert to int32"), w).
Proof.
  intros Hg Ha. rewrite object_func_if1 in Hg. under Hg.
  rewrite (func_if1_agrees n _ x w Hd).
  now rewrite (func_if1_raises x a Ha).
Qed.

(** The call of cell 32. *)
Lemma func_if1_raises_for_every_argument_witness :
  exists g,
    object "func_if1" = Some g /\
    apply 8 g [VFloat (Some "10.0")] [] kernel = (Raise TracerBoolConversionError, kernel).
Proof.
  eexists. split; [vm_compute; reflexivity|].
  eapply eq_trans; [eapply (func_if1_raises_for_every_argument 0)|];
    vm_compute; reflexivity.
Defined.

(** X14.  [func_if2] of cell 33, the same choice written with
    [jax.lax.cond]: a Python integer outside the 32-bit range raises
    [OverflowError] before tracing; any other number and a
    zero-dimensional array give a scalar, a float for a float; for an
    array with one or more axes the test is not a scalar and the call
    raises [TypeError]. *)
Theorem func_if2_returns_for_scalars n g x a w :
  object "func_if2" = Some g ->
  assoc "jax" (globals w) = Some (VModule "jax") ->
  as_array x = Some a ->
  apply (10 + n) g [x] [] w =
  (if in_int32 x then
     match shape a with
     | [] => Ok (jax_array (promote (dtype a) KInt) [] (source a) (concrete a))
     | _ :: _ => Raise (TypeError "Pred must be a scalar")
     end
   else Raise (OverflowError "Python int too large to convert to int32"), w).
Proof.
  intros Hg Hjax Ha. rewrite object_func_if2 in Hg. under Hg.
  rewrite (func_if2_agrees n _ x w Hd Hjax).
  now rewrite (func_if2_of_number_or_array x a Ha).
Qed.

(** The call of cell 34. *)
Lemma func_if2_returns_for_scalars_witness :
  exists g,
    object "func_if2" = Some g /\
    apply 10 g [VFloat (Some "10.0")] [] kernel =
    (Ok (jax_array KFloat [] Fixed true), kernel).
Proof.
  eexists. split; [vm_compute; reflexivity|].
  eapply eq_trans; [eapply (func_if2_returns_for_scalars 0)|]; vm_compute; reflexivity.
Defined.



(** X16.  [some_func_grad_vmap] of cell 21, the gradient mapped over the
    first axis of [x]: a one-dimensional float array gives an array of the
    same length; a zero-dimensional array has no axis to map and raises
    [ValueError]; a float array with two or more axes still raises the
    [TypeError] of cell 19, and an integer array the [TypeError] of a
    gradient by an input that is not real. *)
Theorem some_func_grad_vmap_per_point n g a l1 l2 w :
  object "some_func_grad_vmap" = Some g ->
  assoc "jnp" (globals w) = Some (VModule "jax.numpy") ->
  apply (12 + n) g [VArray a; VFloat l1; VFloat l2] [] w =
  (match shape a with
   | [] => Raise (ValueError "vmap was requested to map its argument along axis 0, which implies that its rank should be at least 1")
   | [len] =>
       if kind_eqb (dtype a) KFloat
       then Ok (jax_array KFloat [len] (source a) (concrete a))
       else Raise (TypeError "grad requires real-valued inputs")
   | _ :: _ :: _ =>
       if kind_eqb (dtype a) KFloat
       then Raise (TypeError "Gradient only defined for scalar-output functions")
       else Raise (TypeError "grad requires real-valued inputs")
   end, w).
Proof.
  intros Hg Hjnp. rewrite object_some_func_grad_vmap in Hg. under Hg.
  rewrite (some_func_grad_vmap_agrees n _ _ _ _ w Hd Hjnp).
  now rewrite some_func_grad_vmap_of_array.
Qed.

(** The second call of cell 22. *)
Lemma some_func_grad_vmap_per_point_witness :
  exists g,
    object "some_func_grad_vmap" = Some g /\
    apply 12 g
      [VArray {| lib := Jax; dtype := KFloat; shape := [4096%Z];
                 source := Fixed; concrete := true |};
       VFloat (Some "1.0"); VFloat (Some "1.0")] [] kernel =
    (Ok (jax_array KFloat [4096%Z] Fixed true), kernel).
Proof.
  eexists. split; [vm_compute; reflexivity|].
  eapply eq_trans; [eapply (some_func_grad_vmap_per_point 0)|];
    vm_compute; reflexivity.
Defined.





End TutorialProperties.

(** ** The notebook as a whole *)

Section SurveyProperties.

Import Python Kernel Survey.

(** X20.  What the functions of the notebook read from outside
    themselves: [func], [make_spectrum] and [some_func] read [jnp],
    [find_depth] reads [jnp] and [jax], [func_if2] reads [jax], [objective]
    reads [model] and [jnp], and [model], [func_if1] and
    [compute_potential] read nothing.  Each of [jax], [jnp] and [model] is
    bound by one statement of the notebook, an import or a definition: no
    function reads a variable that holds data. *)
Theorem functions_read_modules_and_functions_only :
  map (fun d => (defined_name d, distinct (free_names d))) definitions =
    [ ("func", ["jnp"]); ("make_spectrum", ["jnp"]); ("find_depth", ["jnp"; "jax"]);
      ("some_func", ["jnp"]); ("model", []); ("objective", ["model"; "jnp"]);
      ("func_if1", []); ("func_if2", ["jax"]); ("compute_potential", []) ] /\
  Forall (fun d => Forall (fun n => In n ["jax"; "jnp"; "model"]) (free_names d))
    definitions /\
  Forall (fun n => exists s, binders n = [s] /\ binds_code s = true)
    ["jax"; "jnp"; "model"].
Proof.
  split; [vm_compute; reflexivity|]. split.
  - apply Forall_forall. intros d Hd. apply Forall_forall. intros n Hn.
    assert (H : forallb (fun d => forallb (fun n => Text.mem n ["jax"; "jnp"; "model"])
                                    (free_names d)) definitions = true)
      by (vm_compute; reflexivity).
    rewrite forallb_forall in H. specialize (H d Hd).
    rewrite forallb_forall in H. specialize (H n Hn).
    unfold Text.mem in H. apply existsb_exists in H. destruct H as [m [Hm E]].
    apply String.eqb_eq in E. now subst m.
  - repeat constructor; eexists; split; vm_compute; reflexivity.
Qed.

(** X21.  What every code cell leaves on the page, in every run of the
    notebook from a fresh kernel: the line [Exception reporting mode:
    Minimal] that [%xmode minimal] prints in cell 1; the two tracebacks of
    cells 19 and 32;
    the timing reports of cells 5, 6, 14 and 15; the value of the last
    expression of cells 15, 16, 22, 25, 27, 29, 34, 37, 40 and 41, among
    them 128 depths, a gradient with the keys ["a"] and ["b"], five sums of
    squares and the units [kpc / Gyr], [kpc^3 / Gyr^2 / kpc] and the latter
    over [kpc]; and one figure each for cells 11, 16, 22 and 25.  The
    other cells show nothing. *)
Theorem pages_of_the_notebook seed :
  let number k sh := jax_array k sh Fixed true in
  let scalar_q u :=
    VQuantity {| lib := Jax; dtype := KFloat; shape := [];
                 source := Fixed; concrete := true |} u in
  let potential := UnitDiv (UnitOf "kpc^3 / Gyr^2") (UnitOf "kpc") in
  let artist what := VArtist what Fixed in
  filter (fun p => negb (Nat.eqb (List.length (snd p)) 0))
    (map (fun r => (fst r, page (snd r))) (run_notebook seed)) =
  [ ("1", [Printed "Exception reporting mode: Minimal"]);
    ("5", [Timing "timeit"]);
    ("6", [Timing "timeit"]);
    ("11", [Figure [artist "Figure"; artist "Line2D"]]);
    ("14", [Timing "time"]);
    ("15", [Timing "time"; Shown (number KFloat [128%Z])]);
    ("16", [Shown (artist "Text");
            Figure [artist "PathCollection"; artist "Text"; artist "Text"]]);
    ("19", [Traceback (TypeError "Gradient only defined for scalar-output functions")]);
    ("22", [Shown (artist "Legend");
            Figure [artist "Figure"; artist "Line2D"; artist "Line2D"; artist "Legend"]]);
    ("25", [Shown (artist "ErrorbarContainer");
            Figure [artist "Figure"; artist "ErrorbarContainer"]]);
    ("27", [Shown (VDict [("a", number KFloat []); ("b", number KFloat [])])]);
    ("29", [Shown (number KFloat [5%Z])]);
    ("32", [Traceback TracerBoolConversionError]);
    ("34", [Shown (number KFloat [])]);
    ("37", [Shown (VUnit (UnitDiv (UnitOf "kpc") (UnitOf "Gyr")))]);
    ("40", [Shown (scalar_q potential)]);
    ("41", [Shown (scalar_q (UnitDiv potential (UnitOf "kpc")))]) ].
Proof. vm_compute. reflexivity. Qed.

(** X22.  The source of every cell is stored as nbformat writes it: cut
    after each line feed.  Joining the stored lines of a cell and cutting
    the text again gives the stored lines back, for all 43 cells. *)
Theorem source_lines_are_the_lines_of_the_text :
  Forall (fun c => exists ls,
            Nbformat.source_lines c = Some ls /\
            split_lines (Nbformat.source_text c) = ls)
    (Nbformat.cells Notebook.notebook) /\
  List.length (Nbformat.cells Notebook.notebook) = 43.
Proof.
  split; [|reflexivity].
  apply Forall_forall. intros c Hc.
  assert (H : forallb (fun c => match Nbformat.source_lines c with
                                | Some ls =>
                                    if list_eq_dec string_dec
                                         (split_lines (Nbformat.source_text c)) ls
                                    then true else false
                                | None => false
                                end) (Nbformat.cells Notebook.notebook) = true)
    by (vm_compute; reflexivity).
  rewrite forallb_forall in H. specialize (H c Hc).
  destruct (Nbformat.source_lines c) as [ls|]; [|discriminate H].
  exists ls. split; [reflexivity|].
  destruct (list_eq_dec string_dec (split_lines (Nbformat.source_text c)) ls) as [E|];
    [exact E|discriminate H].
Qed.

Lemma option_string_dec (x y : option string) : {x = y} + {x <> y}.
Proof. decide equality. apply string_dec. Defined.

Lemma NoDup_by_nodup (l : list (option string)) :
  nodup option_string_dec l = l -> NoDup l.
Proof. intros E. rewrite <- E. apply NoDup_nodup. Qed.

(** X23.  The sixteen hooks of the configuration have sixteen different
    identifiers, so a hook can be picked or skipped by its identifier, and
    the six repository blocks name six different repositories. *)
Theorem hook_identifiers_are_distinct :
  NoDup (hook_ids Config.config) /\
  Forall (fun i => i <> None) (hook_ids Config.config) /\
  List.length (hook_ids Config.config) = 16 /\
  NoDup (repository_urls Config.config) /\
  Forall (fun u => u <> None) (repository_urls Config.config) /\
  List.length (repository_urls Config.config) = 6.
Proof.
  repeat split; try (apply NoDup_by_nodup; vm_compute; reflexivity).
  - vm_compute. repeat constructor; discriminate.
  - vm_compute. repeat constructor; discriminate.
Qed.

End SurveyProperties.
